(** * Merkle chat assistant: the message-dispatch pipeline

    A shallow embedding of the Redux chat slice ([store/chatSlice.ts]), of
    the Grok completion service ([services/grokService.ts]) and of the
    message persistence helper ([utils/messagePersistence.ts]), with the
    properties of the dispatch pipeline stated over them.

    Conventions.
    - JavaScript numbers that the code only uses as integers (retry
      counters, HTTP status codes, millisecond timestamps and delays) are
      [Z].
    - Values the code obtains from the environment ([Date.now()],
      [Math.random()], the network, the host's [JSON] and [Date]
      built-ins) are arguments of the definitions that use them.
    - Asynchronous code is cut at its suspension points: one event of the
      store model runs a callback up to its next [await] on the network
      or on a timer. *)

From Stdlib Require Import ZArith String Ascii List.
From Stdlib Require QArith_base.
From stdpp Require Import base option list strings gmap pretty.

Local Open Scope string_scope.
Local Open Scope Z_scope.
Local Open Scope list_scope.

(** ** Messages ([types/chat.ts]) *)

Inductive Sender := user | assistant.

Module IMessage.
Record t := mk {
  id : string;
  text : string;
  sender : Sender;
  timestamp : string;          (* ISO string *)
  isLoading : option bool      (* [isLoading?: boolean] *)
}.

(** [Partial<IMessage>]: the fields present in an update object. *)
Record partial := mkPartial {
  p_id : option string;
  p_text : option string;
  p_sender : option Sender;
  p_timestamp : option string;
  p_isLoading : option (option bool)
}.

(** [{ ...m, ...updates }] *)
Definition spread (m : t) (u : partial) : t :=
  {| id := default (id m) (p_id u);
     text := default (text m) (p_text u);
     sender := default (sender m) (p_sender u);
     timestamp := default (timestamp m) (p_timestamp u);
     isLoading := default (isLoading m) (p_isLoading u) |}.

(** JavaScript truthiness of the optional flag, as in [!msg.isLoading]. *)
Definition loading (m : t) : bool := default false (isLoading m).
End IMessage.

(** ** Session state ([store/chatSlice.ts]) *)

Inductive ConnectionStatus := connected | disconnected | reconnecting.

Global Instance ConnectionStatus_eq_dec : EqDecision ConnectionStatus.
Proof. solve_decision. Defined.

Record ChatState := mkChatState {
  messages : list IMessage.t;
  isLoading : bool;
  error : option string;
  currentInput : string;
  isTyping : bool;
  sessionId : option string;
  messageQueue : list string;
  isProcessingQueue : bool;
  connectionStatus : ConnectionStatus;
  retryCount : Z
}.

Definition initialState : ChatState :=
  {| messages := [];
     isLoading := false;
     error := None;
     currentInput := "";
     isTyping := false;
     sessionId := None;
     messageQueue := [];
     isProcessingQueue := false;
     connectionStatus := connected;
     retryCount := 0 |}.

(** Field assignments, one per field (the slice mutates an Immer draft). *)
Definition set_messages (v : list IMessage.t) (s : ChatState) : ChatState :=
  mkChatState v (isLoading s) (error s) (currentInput s) (isTyping s)
    (sessionId s) (messageQueue s) (isProcessingQueue s) (connectionStatus s)
    (retryCount s).
Definition set_isLoading (v : bool) (s : ChatState) : ChatState :=
  mkChatState (messages s) v (error s) (currentInput s) (isTyping s)
    (sessionId s) (messageQueue s) (isProcessingQueue s) (connectionStatus s)
    (retryCount s).
Definition set_error (v : option string) (s : ChatState) : ChatState :=
  mkChatState (messages s) (isLoading s) v (currentInput s) (isTyping s)
    (sessionId s) (messageQueue s) (isProcessingQueue s) (connectionStatus s)
    (retryCount s).
Definition set_currentInput (v : string) (s : ChatState) : ChatState :=
  mkChatState (messages s) (isLoading s) (error s) v (isTyping s)
    (sessionId s) (messageQueue s) (isProcessingQueue s) (connectionStatus s)
    (retryCount s).
Definition set_isTyping (v : bool) (s : ChatState) : ChatState :=
  mkChatState (messages s) (isLoading s) (error s) (currentInput s) v
    (sessionId s) (messageQueue s) (isProcessingQueue s) (connectionStatus s)
    (retryCount s).
Definition set_sessionId (v : option string) (s : ChatState) : ChatState :=
  mkChatState (messages s) (isLoading s) (error s) (currentInput s)
    (isTyping s) v (messageQueue s) (isProcessingQueue s) (connectionStatus s)
    (retryCount s).
Definition set_messageQueue (v : list string) (s : ChatState) : ChatState :=
  mkChatState (messages s) (isLoading s) (error s) (currentInput s)
    (isTyping s) (sessionId s) v (isProcessingQueue s) (connectionStatus s)
    (retryCount s).
Definition set_isProcessingQueue (v : bool) (s : ChatState) : ChatState :=
  mkChatState (messages s) (isLoading s) (error s) (currentInput s)
    (isTyping s) (sessionId s) (messageQueue s) v (connectionStatus s)
    (retryCount s).
Definition set_connectionStatus (v : ConnectionStatus) (s : ChatState)
  : ChatState :=
  mkChatState (messages s) (isLoading s) (error s) (currentInput s)
    (isTyping s) (sessionId s) (messageQueue s) (isProcessingQueue s) v
    (retryCount s).
Definition set_retryCount (v : Z) (s : ChatState) : ChatState :=
  mkChatState (messages s) (isLoading s) (error s) (currentInput s)
    (isTyping s) (sessionId s) (messageQueue s) (isProcessingQueue s)
    (connectionStatus s) v.

(** *** Reducers

    [addUserMessage] builds the message id from [Date.now()] and
    [Math.random()] and the timestamp from [new Date()]: both are
    arguments here. *)

Definition addUserMessage (newId now payload : string) (s : ChatState)
  : ChatState :=
  let userMessage :=
    IMessage.mk newId payload user now None in
  set_error None
    (set_currentInput ""
       (set_messages (messages s ++ [userMessage]) s)).

Definition setLoading (payload : bool) (s : ChatState) : ChatState :=
  set_isLoading payload s.

Definition setTyping (payload : bool) (s : ChatState) : ChatState :=
  set_isTyping payload s.

Definition setError (payload : option string) (s : ChatState) : ChatState :=
  set_isTyping false (set_isLoading false (set_error payload s)).

Definition clearError (s : ChatState) : ChatState := set_error None s.

Definition setCurrentInput (payload : string) (s : ChatState) : ChatState :=
  set_currentInput payload s.

Definition clearMessages (s : ChatState) : ChatState :=
  set_isTyping false
    (set_isLoading false (set_error None (set_messages [] s))).

(** [findIndex] then assignment at that index: the first message with the
    given id is replaced by its spread with the updates. *)
Fixpoint updateFirst (target : string) (u : IMessage.partial)
    (l : list IMessage.t) : list IMessage.t :=
  match l with
  | [] => []
  | m :: rest =>
      if String.eqb (IMessage.id m) target
      then IMessage.spread m u :: rest
      else m :: updateFirst target u rest
  end.

Definition updateMessage (target : string) (updates : IMessage.partial)
    (s : ChatState) : ChatState :=
  set_messages (updateFirst target updates (messages s)) s.

Definition removeMessage (payload : string) (s : ChatState) : ChatState :=
  set_messages
    (List.filter (fun m => negb (String.eqb (IMessage.id m) payload))
       (messages s)) s.

Definition enqueueMessage (payload : string) (s : ChatState) : ChatState :=
  set_messageQueue (messageQueue s ++ [payload]) s.

(** [Array.prototype.shift]: drops the first element, if any. *)
Definition dequeueMessage (s : ChatState) : ChatState :=
  set_messageQueue (tail (messageQueue s)) s.

Definition clearQueue (s : ChatState) : ChatState :=
  set_isProcessingQueue false (set_messageQueue [] s).

Definition setConnectionStatus (payload : ConnectionStatus) (s : ChatState)
  : ChatState :=
  let s1 := set_connectionStatus payload s in
  if decide (payload = connected) then set_retryCount 0 s1 else s1.

Definition incrementRetryCount (s : ChatState) : ChatState :=
  set_retryCount (retryCount s + 1) s.

Definition resetRetryCount (s : ChatState) : ChatState :=
  set_retryCount 0 s.

(** ** Outcomes of asynchronous calls

    A promise settles by returning a value or by throwing.  What is thrown
    is an [Error] object (its [name] and [message]) or some other value;
    the only other value this code can throw is [undefined]. *)

Inductive Exn :=
| Undefined
| Error (name message : string).

Inductive Outcome (T : Type) :=
| Returned (v : T)
| Thrown (e : Exn).
Arguments Returned {T} v.
Arguments Thrown {T} e.

(** [error instanceof Error ? error.message : fallback] *)
Definition messageOr (fallback : string) (e : Exn) : string :=
  match e with
  | Error _ message => message
  | Undefined => fallback
  end.

(** ** The completion service ([services/grokService.ts]) *)

Inductive Role := role_system | role_user | role_assistant.

Global Instance Role_eq_dec : EqDecision Role.
Proof. solve_decision. Defined.

Record GrokMessage := mkGrokMessage {
  role : Role;
  content : string
}.

Record GrokRequest := mkGrokRequest {
  req_model : string;
  req_messages : list GrokMessage;
  req_max_tokens : Z;
  req_temperature : QArith_base.Q;
  req_top_p : QArith_base.Q;
  req_stream : bool
}.

Record GrokServiceConfig := mkConfig {
  apiKey : string;
  apiUrl : string;
  model : string;
  timeout : Z;
  maxRetries : Z;
  useMockResponses : bool
}.

(** *** Retry with exponential backoff

    The retried operation acts on the outside world: it is a function
    from the state of the world [W] to its outcome and the next state.
    The executor's observable behaviour is the list of its calls of the
    operation (with what each call threw, if it threw) and of its sleeps. *)

Inductive RetryEvent :=
| EvCall (attempt : Z) (thrown : option Exn)
| EvSleep (ms : Z).

Section Retry.
Context {W T : Type}.
Variable fn : W -> Outcome T * W.

(** The [for (let attempt = 0; attempt <= maxRetries; attempt++)] loop
    from a given [attempt] on.  [lastError] is the local of that name;
    [fuel] bounds the number of iterations of the model.  The delay
    [Math.pow(2, attempt) * 1000] is an exact integer for every attempt
    number a double can reach by counting. *)
Fixpoint retryLoop (fuel : nat) (maxRetries attempt : Z) (lastError : Exn)
    (w : W) : option (Outcome T * W * list RetryEvent) :=
  match fuel with
  | O => None
  | S fuel' =>
      if attempt <=? maxRetries then
        match fn w with
        | (Returned v, w1) =>
            Some (Returned v, w1, [EvCall attempt None])
        | (Thrown e, w1) =>
            (* lastError = error *)
            if attempt =? maxRetries then
              Some (Thrown e, w1, [EvCall attempt (Some e)])
            else
              let delay := 2 ^ attempt * 1000 in
              match retryLoop fuel' maxRetries (attempt + 1) e w1 with
              | Some (r, w2, tr) =>
                  Some (r, w2,
                        EvCall attempt (Some e) :: EvSleep delay :: tr)
              | None => None
              end
        end
      else
        (* after the loop: throw lastError! *)
        Some (Thrown lastError, w, [])
  end.

Definition retryWithBackoff (maxRetries : Z) (w : W)
  : option (Outcome T * W * list RetryEvent) :=
  retryLoop (Z.to_nat (maxRetries + 1) + 1) maxRetries 0 Undefined w.
End Retry.

(** Number of calls of the operation in a trace. *)
Definition isCall (ev : RetryEvent) : bool :=
  match ev with EvCall _ _ => true | EvSleep _ => false end.

Definition attempts (tr : list RetryEvent) : nat :=
  length (List.filter isCall tr).

(** The trace with the thrown errors erased. *)
Inductive Step := Call (attempt : Z) | Sleep (ms : Z).

Definition stepOf (ev : RetryEvent) : Step :=
  match ev with
  | EvCall attempt _ => Call attempt
  | EvSleep ms => Sleep ms
  end.

(** The schedule the specification describes for a permanently failing
    operation: attempt [first], and then, for each later attempt [k] up
    to [maxRetries], a wait of [2^(k-1) * 1000] ms followed by attempt
    [k]. *)
Definition backoffScheduleFrom (first maxRetries : Z) : list Step :=
  Call first ::
  flat_map (fun k => [Sleep (2 ^ (k - 1) * 1000); Call k])
    (seqZ (first + 1) (maxRetries - first)).

Definition backoffSchedule (maxRetries : Z) : list Step :=
  backoffScheduleFrom 0 maxRetries.

(** *** One HTTP exchange

    What [fetch] and the reading of the response body produce.  The body
    is given by its shape: unreadable as JSON ([response.json()] rejects
    with the given error), a [GrokError] object, or a [GrokResponse]
    object ([choices] lists, for each choice, its [message.content], or
    [None] if the choice lacks [message] or [content]). *)

Inductive ResponseBody :=
| BodyUnreadable (e : Exn)
| BodyError (message : string)
| BodyCompletion (choices : list (option string)).

Inductive FetchResult :=
| FetchReject (e : Exn)
| FetchResponse (status : Z) (statusText : string) (body : ResponseBody).

(** [response.ok] *)
Definition ok (status : Z) : bool := (200 <=? status) && (status <=? 299).

Definition plainError (message : string) : Exn := Error "Error" message.

Definition invalidApiKey : Exn :=
  plainError "Invalid API key. Please check your Grok API configuration.".

Section GrokService.
(** The state of the network and of the remote service. *)
Context {W : Type}.
(** [fetch(`${apiUrl}/chat/completions`, { ... })] with the abort timer
    armed at [config.timeout]: whether the request is aborted is part
    of the result. *)
Variable fetch : GrokServiceConfig -> GrokRequest -> W -> FetchResult * W.
(** Text helpers of the service that are not expanded here:
    [getSystemPrompt], [getMockResponse], [String.prototype.trim] and
    [enhanceMarkdownFormatting]. *)
Variable getSystemPrompt : string -> string.
Variable getMockResponse : string -> string.
Variable trim : string -> string.
Variable enhanceMarkdownFormatting : string -> string.
(** The [TypeError] the engine raises when [errorData.error.message] is
    read on a body without an [error] field. *)
Variable missingField : Exn.

Definition formatResponse (choices : list (option string))
  : Outcome string :=
  match choices with
  | [] => Thrown (plainError "No response choices received from Grok API")
  | choice :: _ =>
      match choice with
      | None | Some "" =>
          Thrown (plainError "Invalid response format from Grok API")
      | Some c => Returned (enhanceMarkdownFormatting (trim c))
      end
  end.

(** The user-facing message for a response that is not [ok]. *)
Definition userMessage (status : Z) (serverMessage : string) : string :=
  if status =? 401 then
    "Invalid API key. Please check your Grok API configuration."
  else if status =? 429 then
    "Rate limit exceeded. Please wait a moment before sending another message."
  else if status >=? 500 then
    "Grok service is temporarily unavailable. Please try again later."
  else if status =? 403 then
    "Access denied. Please check your API key permissions."
  else serverMessage.

(** The [catch] clause around one exchange. *)
Definition rethrow (e : Exn) : Exn :=
  match e with
  | Error name _ =>
      if String.eqb name "AbortError"
      then plainError "Request timeout - Grok API took too long to respond"
      else e
  | Undefined => plainError "Unknown error occurred while calling Grok API"
  end.

Definition settle (r : Outcome string) : Outcome string :=
  match r with
  | Returned v => Returned v
  | Thrown e => Thrown (rethrow e)
  end.

(** The body of the operation handed to [retryWithBackoff], after
    [fetch] has settled. *)
Definition handleFetchResult (r : FetchResult) : Outcome string :=
  settle
    match r with
    | FetchReject e => Thrown e
    | FetchResponse status statusText body =>
        if negb (ok status) then
          match body with
          | BodyUnreadable _ =>
              Thrown (plainError (userMessage status
                ("HTTP " +:+ pretty status +:+ ": " +:+ statusText)))
          | BodyError message =>
              Thrown (plainError (userMessage status message))
          | BodyCompletion _ => Thrown missingField
          end
        else
          match body with
          | BodyUnreadable e => Thrown e
          | BodyError _ => formatResponse []
          | BodyCompletion choices => formatResponse choices
          end
    end.

Definition buildMessages (systemPrompt message : string)
    (conversationHistory : list GrokMessage) : list GrokMessage :=
  mkGrokMessage role_system systemPrompt ::
  conversationHistory ++ [mkGrokMessage role_user message].

Definition requestBody (cfg : GrokServiceConfig) (message : string)
    (conversationHistory : list GrokMessage) : GrokRequest :=
  {| req_model := model cfg;
     req_messages :=
       buildMessages (getSystemPrompt message) message conversationHistory;
     req_max_tokens := 2000;
     req_temperature := QArith_base.Qmake 7 10;
     req_top_p := QArith_base.Qmake 9 10;
     req_stream := false |}.

Definition attempt (cfg : GrokServiceConfig) (body : GrokRequest) (w : W)
  : Outcome string * W :=
  let '(r, w1) := fetch cfg body w in (handleFetchResult r, w1).

(** [sendMessage].  The simulated delay of the mock path is not part of
    the result. *)
Definition sendMessage (cfg : GrokServiceConfig) (message : string)
    (conversationHistory : list GrokMessage) (w : W)
  : option (Outcome string * W * list RetryEvent) :=
  if useMockResponses cfg then
    Some (Returned (getMockResponse message), w, [])
  else if String.eqb (apiKey cfg) "" || String.eqb (apiKey cfg) "REMOVED"
  then
    Some (Thrown (plainError
      "Grok API key not configured. Please set REACT_APP_GROK_API_KEY in your environment variables."),
      w, [])
  else
    retryWithBackoff
      (attempt cfg (requestBody cfg message conversationHistory))
      (maxRetries cfg) w.

Definition healthCheck (cfg : GrokServiceConfig) (w : W)
  : option (bool * W * list RetryEvent) :=
  if useMockResponses cfg then Some (true, w, [])
  else
    match sendMessage cfg "Hello" [] w with
    | Some (Returned _, w1, tr) => Some (true, w1, tr)
    | Some (Thrown _, w1, tr) => Some (false, w1, tr)
    | None => None
    end.
End GrokService.

(** ** Thunks of the chat slice *)

(** [Array.prototype.slice(-n)]: the last [n] elements, or all of them. *)
Definition sliceLast {A} (n : nat) (l : list A) : list A :=
  drop (length l - n)%nat l.

Definition toGrokMessage (msg : IMessage.t) : GrokMessage :=
  {| role := match IMessage.sender msg with
             | user => role_user
             | assistant => role_assistant
             end;
     content := IMessage.text msg |}.

(** The conversation history [sendMessageToGrok] hands to the service. *)
Definition conversationHistory (msgs : list IMessage.t) : list GrokMessage :=
  map toGrokMessage
    (List.filter (fun msg => negb (IMessage.loading msg))
       (sliceLast 10 msgs)).

(** The history as the specification words it: the last ten of the
    messages that are not loading.  This definition follows the
    specification, not the code; it is there to be compared with
    [conversationHistory]. *)
Definition lastTenNonLoading (msgs : list IMessage.t) : list GrokMessage :=
  map toGrokMessage
    (sliceLast 10 (List.filter (fun msg => negb (IMessage.loading msg)) msgs)).

(** *** Lifecycle reducers ([extraReducers]) *)

Definition sendMessageToGrok_pending (s : ChatState) : ChatState :=
  set_error None (set_isTyping true (set_isLoading true s)).

Definition sendMessageToGrok_fulfilled (payload : IMessage.t) (s : ChatState)
  : ChatState :=
  let s1 := set_error None (set_isTyping false (set_isLoading false s)) in
  set_messages (messages s1 ++ [payload]) s1.

Definition sendMessageToGrok_rejected (payload : string) (s : ChatState)
  : ChatState :=
  set_error (Some payload) (set_isTyping false (set_isLoading false s)).

Definition initializeChatSession_pending (s : ChatState) : ChatState :=
  set_error None (set_isLoading true s).

(** The payload is [{ sessionId, isHealthy }]; the reducer reads
    [sessionId] only. *)
Definition initializeChatSession_fulfilled (payloadSessionId : string)
    (isHealthy : bool) (s : ChatState) : ChatState :=
  set_error None (set_sessionId (Some payloadSessionId) (set_isLoading false s)).

Definition initializeChatSession_rejected (payload : string) (s : ChatState)
  : ChatState :=
  set_error (Some payload) (set_isLoading false s).

Definition processMessageQueue_pending (s : ChatState) : ChatState :=
  set_isProcessingQueue true s.

Definition processMessageQueue_fulfilled (s : ChatState) : ChatState :=
  set_isProcessingQueue false s.

Definition processMessageQueue_rejected (s : ChatState) : ChatState :=
  set_isProcessingQueue false s.

(** *** The store and what is in flight

    Next to the slice state, the model keeps what the thunks have
    suspended on: the calls of [grokService.sendMessage] that have not
    settled (each is awaited by the [sendMessageToGrok] thunk that made
    it, itself awaited by the [processMessageQueue] invocation that
    dispatched it), the 500 ms continuation timers that have not fired,
    and the health probes of [initializeChatSession] that have not
    settled. *)

Record PendingSend := mkPendingSend {
  sentMessage : string;
  sentHistory : list GrokMessage
}.

Record Store := mkStore {
  chat : ChatState;
  inFlight : list PendingSend;
  timers : nat;
  probes : nat
}.

Definition initialStore : Store := mkStore initialState [] 0 0.

Definition onChat (f : ChatState -> ChatState) (st : Store) : Store :=
  mkStore (f (chat st)) (inFlight st) (timers st) (probes st).

(** Plain actions of the slice. *)
Inductive Action :=
| AddUserMessage (newId now payload : string)
| SetLoading (payload : bool)
| SetTyping (payload : bool)
| SetError (payload : option string)
| ClearError
| SetCurrentInput (payload : string)
| ClearMessages
| UpdateMessage (target : string) (updates : IMessage.partial)
| RemoveMessage (payload : string)
| EnqueueMessage (payload : string)
| DequeueMessage
| ClearQueue
| SetConnectionStatus (payload : ConnectionStatus)
| IncrementRetryCount
| ResetRetryCount.

Definition reducer (a : Action) : ChatState -> ChatState :=
  match a with
  | AddUserMessage newId now payload => addUserMessage newId now payload
  | SetLoading payload => setLoading payload
  | SetTyping payload => setTyping payload
  | SetError payload => setError payload
  | ClearError => clearError
  | SetCurrentInput payload => setCurrentInput payload
  | ClearMessages => clearMessages
  | UpdateMessage target updates => updateMessage target updates
  | RemoveMessage payload => removeMessage payload
  | EnqueueMessage payload => enqueueMessage payload
  | DequeueMessage => dequeueMessage
  | ClearQueue => clearQueue
  | SetConnectionStatus payload => setConnectionStatus payload
  | IncrementRetryCount => incrementRetryCount
  | ResetRetryCount => resetRetryCount
  end.

(** [dispatch(sendMessageToGrok(message))] up to its
    [await grokService.sendMessage(message, conversationHistory)]. *)
Definition sendMessageToGrok (message : string) (st : Store) : Store :=
  let st1 := onChat sendMessageToGrok_pending st in
  let history := conversationHistory (messages (chat st1)) in
  mkStore (chat st1) (inFlight st1 ++ [mkPendingSend message history])
    (timers st1) (probes st1).

(** [dispatch(processMessageQueue())] up to its first suspension. *)
Definition processMessageQueue (st : Store) : Store :=
  let st1 := onChat processMessageQueue_pending st in
  match messageQueue (chat st1) with
  | [] => onChat processMessageQueue_fulfilled st1
  | nextMessage :: _ =>
      sendMessageToGrok nextMessage (onChat dequeueMessage st1)
  end.

(** The [i]-th call in flight settles with [r].  [sendMessageToGrok]
    resumes and fulfils with the response message (id [newId], timestamp
    [now]) or rejects with the error message; the promise it returned to
    [processMessageQueue] resolves in both cases, so [processMessageQueue]
    resumes after its [await], schedules the next invocation if the queue
    is not empty, and returns. *)
Definition sendSettles (i : nat) (r : Outcome string) (newId now : string)
    (st : Store) : Store :=
  match inFlight st !! i with
  | None => st
  | Some _ =>
      let st1 :=
        mkStore (chat st) (delete i (inFlight st)) (timers st) (probes st) in
      let st2 :=
        match r with
        | Returned responseText =>
            onChat (sendMessageToGrok_fulfilled
                      (IMessage.mk newId responseText assistant now None)) st1
        | Thrown e =>
            onChat (sendMessageToGrok_rejected
                      (messageOr "Failed to send message to Grok API" e)) st1
        end in
      let st3 :=
        match messageQueue (chat st2) with
        | [] => st2
        | _ :: _ =>
            mkStore (chat st2) (inFlight st2) (S (timers st2)) (probes st2)
        end in
      onChat processMessageQueue_fulfilled st3
  end.

(** A continuation timer fires:
    [setTimeout(() => dispatch(processMessageQueue()), 500)]. *)
Definition timerFires (st : Store) : Store :=
  match timers st with
  | O => st
  | S n =>
      processMessageQueue (mkStore (chat st) (inFlight st) n (probes st))
  end.

(** [handleSend] of the input component, with [messageText] the trimmed
    text of the editor. *)
Definition handleSend (messageText newId now : string) (st : Store) : Store :=
  if negb (String.eqb messageText "") && negb (isLoading (chat st))
     && negb (bool_decide (connectionStatus (chat st) = disconnected))
  then
    let processing := isProcessingQueue (chat st) in
    let st1 := onChat (addUserMessage newId now messageText) st in
    let st2 := onChat (enqueueMessage messageText) st1 in
    if negb processing then processMessageQueue st2 else st2
  else st.

(** [dispatch(initializeChatSession())] up to its
    [await grokService.healthCheck()]. *)
Definition initializeChatSession (st : Store) : Store :=
  let st1 := onChat initializeChatSession_pending st in
  mkStore (chat st1) (inFlight st1) (timers st1) (S (probes st1)).

(** The health probe settles ([healthCheck] never throws) and the thunk
    fulfils with [{ sessionId: 'session_' + Date.now().toString(),
    isHealthy }]. *)
Definition probeSettles (isHealthy : bool) (nowMs : Z) (st : Store) : Store :=
  match probes st with
  | O => st
  | S n =>
      let payloadSessionId := "session_" +:+ pretty nowMs in
      onChat (initializeChatSession_fulfilled payloadSessionId isHealthy)
        (mkStore (chat st) (inFlight st) (timers st) n)
  end.

Inductive Event :=
| Dispatch (a : Action)
| HandleSend (messageText newId now : string)
| ProcessMessageQueue
| SendSettles (i : nat) (r : Outcome string) (newId now : string)
| TimerFires
| InitializeChatSession
| ProbeSettles (isHealthy : bool) (nowMs : Z).

Definition step (st : Store) (ev : Event) : Store :=
  match ev with
  | Dispatch a => onChat (reducer a) st
  | HandleSend messageText newId now => handleSend messageText newId now st
  | ProcessMessageQueue => processMessageQueue st
  | SendSettles i r newId now => sendSettles i r newId now st
  | TimerFires => timerFires st
  | InitializeChatSession => initializeChatSession st
  | ProbeSettles isHealthy nowMs => probeSettles isHealthy nowMs st
  end.

Definition run (st : Store) (evs : list Event) : Store :=
  fold_left step evs st.

(** Events of a store that is driven by the submit handler only, and the
    states such a store can be in: as long as input goes through
    [handleSend], which refuses it while [isLoading] is set, the queue is
    empty between events and at most one call is in flight. *)
Definition submitOnly (ev : Event) : bool :=
  match ev with
  | HandleSend _ _ _ | SendSettles _ _ _ _ | TimerFires => true
  | _ => false
  end.

Definition quiet (st : Store) : Prop :=
  timers st = O /\ messageQueue (chat st) = [] /\
  ((inFlight st = [] /\ isLoading (chat st) = false
    /\ isProcessingQueue (chat st) = false)
   \/ (length (inFlight st) = 1%nat /\ isLoading (chat st) = true
       /\ isProcessingQueue (chat st) = true)).

(** ** Message persistence ([utils/messagePersistence.ts]) *)

Definition STORAGE_KEY : string := "merkle_chat_messages".
Definition MAX_STORED_MESSAGES : nat := 100.

(** Values that [JSON.parse] can produce. *)
Unset Elimination Schemes.
Inductive json :=
| JNull
| JBool (b : bool)
| JNum (n : Z)
| JStr (s : string)
| JArr (items : list json)
| JObj (fields : list (string * json)).
Set Elimination Schemes.

Record StoredChatData := mkStoredChatData {
  stored_messages : list IMessage.t;
  lastUpdated : string;
  stored_sessionId : option string
}.

(** The objects as [JSON.stringify] sees them: own properties in
    insertion order, [undefined] properties left out. *)
Definition senderName (s : Sender) : string :=
  match s with user => "user" | assistant => "assistant" end.

Definition messageToJson (m : IMessage.t) : json :=
  JObj ([("id", JStr (IMessage.id m));
         ("text", JStr (IMessage.text m));
         ("sender", JStr (senderName (IMessage.sender m)));
         ("timestamp", JStr (IMessage.timestamp m))]
        ++ match IMessage.isLoading m with
           | Some b => [("isLoading", JBool b)]
           | None => []
           end).

Definition dataToJson (d : StoredChatData) : json :=
  JObj ([("messages", JArr (map messageToJson (stored_messages d)));
         ("lastUpdated", JStr (lastUpdated d))]
        ++ match stored_sessionId d with
           | Some s => [("sessionId", JStr s)]
           | None => []
           end).

Fixpoint assoc (name : string) (fields : list (string * json)) : option json :=
  match fields with
  | [] => None
  | (k, v) :: rest => if String.eqb k name then Some v else assoc name rest
  end.

(** Property read [v.name] on a parsed value: a [TypeError] on [null]
    ([None]), otherwise the property or [undefined] ([Some None]). *)
Definition getField (name : string) (v : json) : option (option json) :=
  match v with
  | JNull => None
  | JObj fields => Some (assoc name fields)
  | _ => Some None
  end.

(** Number of entries of [v.messages] when it is an array. *)
Definition messageCount (v : json) : nat :=
  match getField "messages" v with
  | Some (Some (JArr items)) => length items
  | _ => O
  end.

(** *** [localStorage]

    A string-to-string map with a quota on the characters it holds,
    counted as [getStorageInfo] counts them (key length plus value
    length); [setItem] throws when the quota would be exceeded. *)

Record LocalStorage := mkLocalStorage {
  items : gmap string string;
  quota : N
}.

Definition usage (m : gmap string string) : N :=
  map_fold
    (fun k v acc =>
       (N.of_nat (String.length k) + N.of_nat (String.length v) + acc)%N)
    0%N m.

Definition getItem (key : string) (ls : LocalStorage) : option string :=
  items ls !! key.

Definition setItem (key value : string) (ls : LocalStorage)
  : option LocalStorage :=
  let items' := <[key := value]> (items ls) in
  if (usage items' <=? quota ls)%N
  then Some (mkLocalStorage items' (quota ls))
  else None.

Definition removeItem (key : string) (ls : LocalStorage) : LocalStorage :=
  mkLocalStorage (delete key (items ls)) (quota ls).

(** Seven days in milliseconds.  [setDate(getDate() - 7)] moves the local
    calendar date back by seven days; this is the same instant as long as
    the zone's offset from UTC is the same on both days. *)
Definition SEVEN_DAYS_MS : Z := 7 * 24 * 60 * 60 * 1000.

Section MessagePersistence.
(** The host's built-ins.  [JSON_parse] yields [None] when it throws a
    [SyntaxError].  [newDate] is the [Date] constructor applied to a
    property that was read ([None] for [undefined]); it yields the time
    value of the date in milliseconds, [None] for an invalid date, or
    throws. *)
Variable JSON_stringify : json -> string.
Variable JSON_parse : string -> option json.
Variable toISOString : Z -> string.
Variable newDate : option json -> Outcome (option Z).
(** [d.setDate(d.getDate() - 7)] on the date of the instant [t]: the
    instant with the same local wall-clock time on the calendar day seven
    days before, in the host's time zone. *)
Variable sevenDaysBefore : Z -> Z.

Definition clearMessages_storage (ls : LocalStorage) : LocalStorage :=
  removeItem STORAGE_KEY ls.

(** [saveMessages(messages, sessionId)] at time [now]. *)
Definition dataToStore (now : Z) (msgs : list IMessage.t)
    (sid : option string) : StoredChatData :=
  {| stored_messages := sliceLast MAX_STORED_MESSAGES msgs;
     lastUpdated := toISOString now;
     stored_sessionId := sid |}.

Definition saveMessages (now : Z) (msgs : list IMessage.t)
    (sid : option string) (ls : LocalStorage) : LocalStorage :=
  match
    setItem STORAGE_KEY (JSON_stringify (dataToJson (dataToStore now msgs sid)))
      ls
  with
  | Some ls' => ls'
  | None => ls                (* caught: console.warn *)
  end.

(** [lastUpdated < sevenDaysAgo] on dates: false when [lastUpdated] is
    an invalid date. *)
Definition olderThan (lastUpdatedMs : option Z) (limit : Z) : bool :=
  match lastUpdatedMs with
  | Some t => t <? limit
  | None => false
  end.

(** The [try] block of [loadMessages] at time [now].  The messages of
    the errors the engine raises are left empty: the [catch] clause only
    logs them. *)
Definition loadMessages_try (now : Z) (ls : LocalStorage)
  : Outcome (option json * LocalStorage) :=
  match getItem STORAGE_KEY ls with
  | None => Returned (None, ls)
  | Some stored =>
      if String.eqb stored "" then Returned (None, ls)
      else
        match JSON_parse stored with
        | None => Thrown (Error "SyntaxError" "")
        | Some data =>
            match getField "lastUpdated" data with
            | None => Thrown (Error "TypeError" "")
            | Some field =>
                match newDate field with
                | Thrown e => Thrown e
                | Returned lastUpdatedMs =>
                    let sevenDaysAgo := sevenDaysBefore now in
                    if olderThan lastUpdatedMs sevenDaysAgo
                    then Returned (None, clearMessages_storage ls)
                    else Returned (Some data, ls)
                end
            end
        end
  end.

(** [loadMessages]: the result ([None] for [null]) and the storage
    afterwards. *)
Definition loadMessages (now : Z) (ls : LocalStorage)
  : option json * LocalStorage :=
  match loadMessages_try now ls with
  | Returned r => r
  | Thrown _ => (None, clearMessages_storage ls)   (* clear corrupted data *)
  end.
End MessagePersistence.

(** ** A reference host

    An executable stand-in for the built-ins the persistence helper
    relies on: a printer and a parser for the JSON texts it stores
    (integers only, the escapes the printer emits), and the ISO 8601
    format of [Date.prototype.toISOString] for years 0 to 9999.  The
    general statements below are over any host; this one instantiates
    them. *)

Module ReferenceHost.

Definition quote : ascii := ascii_of_nat 34.
Definition backslash : ascii := "\"%char.
Definition newline : ascii := ascii_of_nat 10.

Fixpoint escape (s : string) : string :=
  match s with
  | EmptyString => EmptyString
  | String c rest =>
      if Ascii.eqb c quote then String backslash (String quote (escape rest))
      else if Ascii.eqb c backslash
      then String backslash (String backslash (escape rest))
      else if Ascii.eqb c newline
      then String backslash (String "n"%char (escape rest))
      else String c (escape rest)
  end.

Definition quoted (s : string) : string :=
  String quote (escape s +:+ String quote EmptyString).

Fixpoint JSON_stringify (v : json) : string :=
  match v with
  | JNull => "null"
  | JBool true => "true"
  | JBool false => "false"
  | JNum n => pretty n
  | JStr s => quoted s
  | JArr items =>
      "[" +:+
      (fix elements (l : list json) : string :=
         match l with
         | [] => ""
         | x :: rest =>
             JSON_stringify x +:+
             match rest with [] => "" | _ => "," +:+ elements rest end
         end) items
      +:+ "]"
  | JObj fields =>
      "{" +:+
      (fix members (l : list (string * json)) : string :=
         match l with
         | [] => ""
         | (k, x) :: rest =>
             quoted k +:+ ":" +:+ JSON_stringify x +:+
             match rest with [] => "" | _ => "," +:+ members rest end
         end) fields
      +:+ "}"
  end.

Definition isSpace (c : ascii) : bool :=
  Ascii.eqb c " "%char || Ascii.eqb c newline
  || Ascii.eqb c (ascii_of_nat 9) || Ascii.eqb c (ascii_of_nat 13).

Fixpoint skipSpaces (s : string) : string :=
  match s with
  | String c rest => if isSpace c then skipSpaces rest else s
  | EmptyString => EmptyString
  end.

Definition digitValue (c : ascii) : option Z :=
  let n := Z.of_nat (nat_of_ascii c) in
  if (48 <=? n) && (n <=? 57) then Some (n - 48) else None.

(** Reads the digits at the head of [s], accumulating their value. *)
Fixpoint readDigits (s : string) (acc : Z) (count : nat)
  : Z * nat * string :=
  match s with
  | String c rest =>
      match digitValue c with
      | Some d => readDigits rest (10 * acc + d) (S count)
      | None => (acc, count, s)
      end
  | EmptyString => (acc, count, s)
  end.

(** Reads a string literal after its opening quote. *)
Fixpoint readString (s : string) : option (string * string) :=
  match s with
  | EmptyString => None
  | String c rest =>
      if Ascii.eqb c quote then Some (EmptyString, rest)
      else if Ascii.eqb c backslash then
        match rest with
        | String e rest' =>
            let decoded :=
              if Ascii.eqb e "n"%char then Some newline
              else if Ascii.eqb e quote then Some quote
              else if Ascii.eqb e backslash then Some backslash
              else if Ascii.eqb e "/"%char then Some "/"%char
              else None in
            match decoded, readString rest' with
            | Some d, Some (body, after) => Some (String d body, after)
            | _, _ => None
            end
        | EmptyString => None
        end
      else
        match readString rest with
        | Some (body, after) => Some (String c body, after)
        | None => None
        end
  end.

Definition expect (word : string) (v : json) (s : string)
  : option (json * string) :=
  if String.prefix word s
  then Some (v, String.substring (String.length word)
               (String.length s - String.length word) s)
  else None.

Fixpoint parseValue (fuel : nat) (s : string) : option (json * string) :=
  match fuel with
  | O => None
  | S fuel' =>
      match skipSpaces s with
      | EmptyString => None
      | String c rest as s' =>
          if Ascii.eqb c quote then
            match readString rest with
            | Some (body, after) => Some (JStr body, after)
            | None => None
            end
          else if Ascii.eqb c "["%char then
            match skipSpaces rest with
            | String "]"%char after => Some (JArr [], after)
            | _ =>
                match parseElements fuel' rest with
                | Some (l, after) => Some (JArr l, after)
                | None => None
                end
            end
          else if Ascii.eqb c "{"%char then
            match skipSpaces rest with
            | String "}"%char after => Some (JObj [], after)
            | _ =>
                match parseMembers fuel' rest with
                | Some (l, after) => Some (JObj l, after)
                | None => None
                end
            end
          else if Ascii.eqb c "-"%char then
            match readDigits rest 0 O with
            | (_, O, _) => None
            | (n, _, after) => Some (JNum (- n), after)
            end
          else if Ascii.eqb c "n"%char then expect "null" JNull s'
          else if Ascii.eqb c "t"%char then expect "true" (JBool true) s'
          else if Ascii.eqb c "f"%char then expect "false" (JBool false) s'
          else
            match readDigits s' 0 O with
            | (_, O, _) => None
            | (n, _, after) => Some (JNum n, after)
            end
      end
  end
(** elements of an array up to and including the closing bracket *)
with parseElements (fuel : nat) (s : string)
  : option (list json * string) :=
  match fuel with
  | O => None
  | S fuel' =>
      match parseValue fuel' s with
      | Some (v, after) =>
          match skipSpaces after with
          | String "]"%char after' => Some ([v], after')
          | String ","%char after' =>
              match parseElements fuel' after' with
              | Some (l, after'') => Some (v :: l, after'')
              | None => None
              end
          | _ => None
          end
      | None => None
      end
  end
(** members of an object up to and including the closing brace *)
with parseMembers (fuel : nat) (s : string)
  : option (list (string * json) * string) :=
  match fuel with
  | O => None
  | S fuel' =>
      match skipSpaces s with
      | String c rest =>
          if Ascii.eqb c quote then
            match readString rest with
            | Some (k, after) =>
                match skipSpaces after with
                | String ":"%char after1 =>
                    match parseValue fuel' after1 with
                    | Some (v, after2) =>
                        match skipSpaces after2 with
                        | String "}"%char after3 => Some ([(k, v)], after3)
                        | String ","%char after3 =>
                            match parseMembers fuel' after3 with
                            | Some (l, after4) => Some ((k, v) :: l, after4)
                            | None => None
                            end
                        | _ => None
                        end
                    | None => None
                    end
                | _ => None
                end
            | None => None
            end
          else None
      | EmptyString => None
      end
  end.

(** A text is a value followed by nothing but white space. *)
Definition JSON_parse (s : string) : option json :=
  match parseValue (S (String.length s)) s with
  | Some (v, after) =>
      match skipSpaces after with
      | EmptyString => Some v
      | _ => None
      end
  | None => None
  end.
(** *** Dates: the proleptic Gregorian calendar in UTC *)

Definition MS_PER_DAY : Z := 86400000.

(** Year, month and day of the civil date [days] days after 1970-01-01. *)
Definition civilFromDays (days : Z) : Z * Z * Z :=
  let z := days + 719468 in
  let era := z / 146097 in
  let doe := z - era * 146097 in
  let yoe := (doe - doe / 1460 + doe / 36524 - doe / 146096) / 365 in
  let doy := doe - (365 * yoe + yoe / 4 - yoe / 100) in
  let mp := (5 * doy + 2) / 153 in
  let d := doy - (153 * mp + 2) / 5 + 1 in
  let m := if mp <? 10 then mp + 3 else mp - 9 in
  let y := yoe + era * 400 in
  (if m <=? 2 then y + 1 else y, m, d).

Definition daysFromCivil (y m d : Z) : Z :=
  let y' := if m <=? 2 then y - 1 else y in
  let era := y' / 400 in
  let yoe := y' - era * 400 in
  let doy := (153 * (if 2 <? m then m - 3 else m + 9) + 2) / 5 + d - 1 in
  let doe := yoe * 365 + yoe / 4 - yoe / 100 + doy in
  era * 146097 + doe - 719468.

(** [n] in decimal, padded with zeros to [width] digits. *)
Fixpoint padded (width : nat) (n : Z) : string :=
  match width with
  | O => ""
  | S width' =>
      padded width' (n / 10)
      +:+ String (ascii_of_nat (48 + Z.to_nat (n mod 10))) EmptyString
  end.

Definition toISOString (ms : Z) : string :=
  let '(y, m, d) := civilFromDays (ms / MS_PER_DAY) in
  let r := ms mod MS_PER_DAY in
  padded 4 y +:+ "-" +:+ padded 2 m +:+ "-" +:+ padded 2 d +:+ "T"
  +:+ padded 2 (r / 3600000) +:+ ":" +:+ padded 2 (r / 60000 mod 60) +:+ ":"
  +:+ padded 2 (r / 1000 mod 60) +:+ "." +:+ padded 3 (r mod 1000) +:+ "Z".

(** Reads exactly [width] digits followed by the separator [sep]. *)
Definition readField (width : nat) (sep : ascii) (s : string)
  : option (Z * string) :=
  match readDigits s 0 O with
  | (n, count, String c rest) =>
      if (count =? width)%nat && Ascii.eqb c sep then Some (n, rest) else None
  | _ => None
  end.

Definition parseISO (s : string) : option Z :=
  y ← readField 4 "-" s;
  m ← readField 2 "-" y.2;
  d ← readField 2 "T" m.2;
  h ← readField 2 ":" d.2;
  mi ← readField 2 ":" h.2;
  sec ← readField 2 "." mi.2;
  milli ← readField 3 "Z" sec.2;
  if String.eqb milli.2 ""
     && (1 <=? m.1) && (m.1 <=? 12) && (1 <=? d.1) && (d.1 <=? 31)
     && (h.1 <? 24) && (mi.1 <? 60) && (sec.1 <? 60)
  then Some (daysFromCivil y.1 m.1 d.1 * MS_PER_DAY
             + h.1 * 3600000 + mi.1 * 60000 + sec.1 * 1000 + milli.1)
  else None.

(** The [Date] constructor on a property read from a parsed value:
    strings are parsed, numbers are time values, [null] and booleans are
    converted to numbers, [undefined] gives an invalid date.  Arrays and
    objects, which the real constructor first converts to strings, give
    an invalid date here. *)
Definition newDate (field : option json) : Outcome (option Z) :=
  match field with
  | None => Returned None
  | Some (JStr s) => Returned (parseISO s)
  | Some (JNum n) => Returned (Some n)
  | Some JNull => Returned (Some 0)
  | Some (JBool b) => Returned (Some (if b then 1 else 0))
  | Some (JArr _) | Some (JObj _) => Returned None
  end.
(** [JSON.stringify(v, null, 2)]: one entry per line, two more spaces of
    indentation per level; [indent] is the indentation of the value. *)
Fixpoint stringifyIndented (indent : string) (v : json) : string :=
  let inner := indent +:+ "  " in
  let lineBreak := String newline EmptyString in
  match v with
  | JArr [] => "[]"
  | JObj [] => "{}"
  | JArr items =>
      "[" +:+ lineBreak +:+
      (fix elements (l : list json) : string :=
         match l with
         | [] => ""
         | x :: rest =>
             inner +:+ stringifyIndented inner x +:+
             match rest with
             | [] => ""
             | _ => "," +:+ lineBreak +:+ elements rest
             end
         end) items
      +:+ lineBreak +:+ indent +:+ "]"
  | JObj fields =>
      "{" +:+ lineBreak +:+
      (fix members (l : list (string * json)) : string :=
         match l with
         | [] => ""
         | (k, x) :: rest =>
             inner +:+ quoted k +:+ ": " +:+ stringifyIndented inner x +:+
             match rest with
             | [] => ""
             | _ => "," +:+ lineBreak +:+ members rest
             end
         end) fields
      +:+ lineBreak +:+ indent +:+ "}"
  | _ => JSON_stringify v
  end.

Definition JSON_stringify_indented (v : json) : string :=
  stringifyIndented "" v.

(** The reference host keeps its clock in UTC: seven calendar days are
    seven times twenty-four hours. *)
Definition sevenDaysBefore (t : Z) : Z := t - SEVEN_DAYS_MS.
End ReferenceHost.

(** ** More of the persistence helper *)

(** JavaScript truthiness of a property that was read from a parsed
    value ([None] for [undefined]). *)
Definition truthy (v : option json) : bool :=
  match v with
  | None | Some JNull => false
  | Some (JBool b) => b
  | Some (JNum n) => negb (n =? 0)
  | Some (JStr s) => negb (String.eqb s "")
  | Some (JArr _) | Some (JObj _) => true
  end.

(** The object [saveMessages] builds, for messages and a session id that
    are values of any shape (what [importMessages] passes on). *)
Definition rawDataToJson (msgs : list json) (updated : string)
    (sid : option json) : json :=
  JObj ([("messages", JArr msgs); ("lastUpdated", JStr updated)]
        ++ match sid with
           | Some v => [("sessionId", v)]
           | None => []
           end).

(** The check of [importMessages] on one entry of [data.messages]:
    reading a property of [null] throws ([None]); otherwise the entry
    passes when [id], [text], [sender] and [timestamp] are all truthy. *)
Definition validMessage (message : json) : option bool :=
  match getField "id" message with
  | None => None
  | Some _ =>
      Some (truthy (mjoin (getField "id" message))
            && truthy (mjoin (getField "text" message))
            && truthy (mjoin (getField "sender" message))
            && truthy (mjoin (getField "timestamp" message)))
  end.

(** The [for] loop over [data.messages]: [true] when it runs to its end,
    [false] when it throws at some entry. *)
Fixpoint validMessages (msgs : list json) : bool :=
  match msgs with
  | [] => true
  | message :: rest =>
      match validMessage message with
      | Some true => validMessages rest
      | _ => false
      end
  end.

Definition STORAGE_TEST : string := "__storage_test__".

(** [isStorageAvailable]: the answer and the storage afterwards. *)
Definition isStorageAvailable (ls : LocalStorage) : bool * LocalStorage :=
  match setItem STORAGE_TEST STORAGE_TEST ls with
  | Some ls1 => (true, removeItem STORAGE_TEST ls1)
  | None => (false, ls)
  end.

Section MessagePersistenceTransfer.
Variable JSON_stringify : json -> string.
(** [JSON.stringify(data, null, 2)] *)
Variable JSON_stringify_indented : json -> string.
Variable JSON_parse : string -> option json.
Variable toISOString : Z -> string.
Variable newDate : option json -> Outcome (option Z).
Variable sevenDaysBefore : Z -> Z.

(** [saveMessages] on values of any shape. *)
Definition saveRaw (now : Z) (msgs : list json) (sid : option json)
    (ls : LocalStorage) : LocalStorage :=
  match
    setItem STORAGE_KEY
      (JSON_stringify
         (rawDataToJson (sliceLast MAX_STORED_MESSAGES msgs) (toISOString now)
            sid))
      ls
  with
  | Some ls' => ls'
  | None => ls
  end.

(** [exportMessages] at time [now]. *)
Definition exportMessages (now : Z) (ls : LocalStorage)
  : option string * LocalStorage :=
  match loadMessages JSON_parse newDate sevenDaysBefore now ls with
  | (Some data, ls') =>
      if truthy (Some data)
      then (Some (JSON_stringify_indented data), ls')
      else (None, ls')
  | (None, ls') => (None, ls')
  end.

(** The [try] block of [importMessages] at time [now]: [None] when it
    throws. *)
Definition importMessages_try (now : Z) (jsonData : string)
    (ls : LocalStorage) : option LocalStorage :=
  match JSON_parse jsonData with
  | None => None
  | Some data =>
      match getField "messages" data with
      | None => None
      | Some field =>
          match field with
          | Some (JArr msgs) =>
              if validMessages msgs
              then Some (saveRaw now msgs (mjoin (getField "sessionId" data)) ls)
              else None
          | _ => None           (* missing, falsy or not an array *)
          end
      end
  end.

Definition importMessages (now : Z) (jsonData : string) (ls : LocalStorage)
  : bool * LocalStorage :=
  match importMessages_try now jsonData ls with
  | Some ls' => (true, ls')
  | None => (false, ls)
  end.
End MessagePersistenceTransfer.

(** A message whose [id], [text] and [timestamp] are not empty. *)
Definition complete (m : IMessage.t) : bool :=
  negb (String.eqb (IMessage.id m) "")
  && negb (String.eqb (IMessage.text m) "")
  && negb (String.eqb (IMessage.timestamp m) "").

(** ** The persistence effects of the root component ([App.tsx]) *)

(** [sessionId || undefined] *)
Definition sessionIdOrUndefined (sid : option string) : option string :=
  match sid with
  | Some s => if String.eqb s "" then None else Some s
  | None => None
  end.

Section AppEffects.
Variable JSON_stringify : json -> string.
Variable JSON_parse : string -> option json.
Variable toISOString : Z -> string.
Variable newDate : option json -> Outcome (option Z).
Variable sevenDaysBefore : Z -> Z.

(** The effect that runs when [messages] or [sessionId] change. *)
Definition persistEffect (now : Z) (c : ChatState) (ls : LocalStorage)
  : LocalStorage :=
  match messages c with
  | [] => ls
  | _ :: _ =>
      match isStorageAvailable ls with
      | (true, ls1) =>
          saveMessages JSON_stringify toISOString now (messages c)
            (sessionIdOrUndefined (sessionId c)) ls1
      | (false, ls1) => ls1
      end
  end.

(** What the mount effect does to the storage: it loads the snapshot and
    only logs what it finds. *)
Definition mountEffect (now : Z) (ls : LocalStorage) : LocalStorage :=
  match isStorageAvailable ls with
  | (true, ls1) => (loadMessages JSON_parse newDate sevenDaysBefore now ls1).2
  | (false, ls1) => ls1
  end.
End AppEffects.

(** ** The service instance ([createGrokService]) *)

Record Env := mkEnv {
  REACT_APP_GROK_API_KEY : option string;
  REACT_APP_GROK_API_URL : option string;
  REACT_APP_GROK_MODEL : option string;
  REACT_APP_API_TIMEOUT : option string;
  REACT_APP_MAX_RETRIES : option string;
  REACT_APP_USE_MOCK_RESPONSES : option string
}.

(** [value || fallback] on an environment variable. *)
Definition orElse (value : option string) (fallback : string) : string :=
  match value with
  | Some s => if String.eqb s "" then fallback else s
  | None => fallback
  end.

(** [!value] on an environment variable. *)
Definition unset (value : option string) : bool :=
  match value with
  | Some s => String.eqb s ""
  | None => true
  end.

Section CreateGrokService.
(** [parseInt] on texts that hold a number; a text that does not is
    outside of what the configuration record can hold. *)
Variable parseInt : string -> Z.

Definition createGrokService (env : Env) : GrokServiceConfig :=
  {| apiKey := orElse (REACT_APP_GROK_API_KEY env) "REMOVED";
     apiUrl := orElse (REACT_APP_GROK_API_URL env) "https://api.x.ai/v1";
     model := orElse (REACT_APP_GROK_MODEL env) "grok-beta";
     timeout := parseInt (orElse (REACT_APP_API_TIMEOUT env) "30000");
     maxRetries := parseInt (orElse (REACT_APP_MAX_RETRIES env) "3");
     useMockResponses :=
       bool_decide (REACT_APP_USE_MOCK_RESPONSES env = Some "true")
       || unset (REACT_APP_GROK_API_KEY env)
       || bool_decide (REACT_APP_GROK_API_KEY env = Some "REMOVED") |}.
End CreateGrokService.

(** [updateConfig]: [{ ...config, ...updates }]. *)
Record ConfigUpdates := mkConfigUpdates {
  u_apiKey : option string;
  u_apiUrl : option string;
  u_model : option string;
  u_timeout : option Z;
  u_maxRetries : option Z;
  u_useMockResponses : option bool
}.

Definition updateConfig (updates : ConfigUpdates) (cfg : GrokServiceConfig)
  : GrokServiceConfig :=
  {| apiKey := default (apiKey cfg) (u_apiKey updates);
     apiUrl := default (apiUrl cfg) (u_apiUrl updates);
     model := default (model cfg) (u_model updates);
     timeout := default (timeout cfg) (u_timeout updates);
     maxRetries := default (maxRetries cfg) (u_maxRetries updates);
     useMockResponses :=
       default (useMockResponses cfg) (u_useMockResponses updates) |}.

(** ** Observations on runs of the executor and of the store *)

Definition thrownOf {T} (r : Outcome T) : option Exn :=
  match r with
  | Returned _ => None
  | Thrown e => Some e
  end.

Definition isSuccess (ev : RetryEvent) : bool :=
  match ev with EvCall _ None => true | _ => false end.

(** The world in which call number [n] of the operation is made (calls
    are numbered from 0): each call starts in the world the call before
    it has left. *)
Fixpoint worldAfter {W T} (fn : W -> Outcome T * W) (n : nat) (w : W) : W :=
  match n with
  | O => w
  | S n' => worldAfter fn n' (fn w).2
  end.

(** The call events of a run of [n] calls started in [w]: each call with
    its attempt number and with what the operation threw there. *)
Definition callsOf {W T} (fn : W -> Outcome T * W) (first : Z) (n : nat)
    (w : W) : list RetryEvent :=
  map (fun j => EvCall (first + Z.of_nat j)
                  (thrownOf (fn (worldAfter fn j w)).1))
    (seq 0 n).

Section Recovery.
Context {W T : Type}.
Variable fn : W -> Outcome T * W.

(** From [w], the operation throws the errors [errs] one call after the
    other and leaves the world in [wk]. *)
Fixpoint failsThen (errs : list Exn) (w wk : W) : Prop :=
  match errs with
  | [] => w = wk
  | e :: rest => exists w1, fn w = (Thrown e, w1) /\ failsThen rest w1 wk
  end.
End Recovery.

(** The trace of a run in which the attempts from number [k] on throw
    [errs] and the next one returns. *)
Fixpoint recoveryTrace (k : Z) (errs : list Exn) : list RetryEvent :=
  match errs with
  | [] => [EvCall k None]
  | e :: rest =>
      EvCall k (Some e) :: EvSleep (2 ^ k * 1000) :: recoveryTrace (k + 1) rest
  end.

(** The messages of the calls that settle during a run, in the order in
    which they settle. *)
Definition settledCall (st : Store) (ev : Event) : list string :=
  match ev with
  | SendSettles i _ _ _ =>
      match inFlight st !! i with
      | Some call => [sentMessage call]
      | None => []
      end
  | _ => []
  end.

Fixpoint settledCalls (st : Store) (evs : list Event) : list string :=
  match evs with
  | [] => []
  | ev :: rest => settledCall st ev ++ settledCalls (step st ev) rest
  end.

(** One answer of the service: the outcome of the call and the id and
    timestamp the thunk gives to the response message. *)
Definition Answer : Type := Outcome string * string * string.

(** The events of a drain that is left alone: the first invocation, and
    then, for each answer, its arrival followed by the timer of the next
    invocation if there is a next one. *)
Fixpoint drainRest (answers : list Answer) : list Event :=
  match answers with
  | [] => []
  | (r, newId, now) :: rest =>
      SendSettles 0 r newId now
      :: match rest with
         | [] => []
         | _ :: _ => TimerFires :: drainRest rest
         end
  end.

Definition drainEvents (answers : list Answer) : list Event :=
  ProcessMessageQueue :: drainRest answers.

(** The response messages the answers give rise to. *)
Definition responseMessages (answers : list Answer) : list IMessage.t :=
  flat_map
    (fun a : Answer =>
       match a with
       | (Returned responseText, newId, now) =>
           [IMessage.mk newId responseText assistant now None]
       | (Thrown _, _, _) => []
       end)
    answers.

(** Events that leave the message history in place or add to it. *)
Definition keepsHistory (ev : Event) : bool :=
  match ev with
  | Dispatch ClearMessages
  | Dispatch (UpdateMessage _ _)
  | Dispatch (RemoveMessage _) => false
  | _ => true
  end.

(** The guard of [handleSend]. *)
Definition accepted (messageText : string) (c : ChatState) : bool :=
  negb (String.eqb messageText "") && negb (isLoading c)
  && negb (bool_decide (connectionStatus c = disconnected)).

(** ** The repository analyzer ([utils/repoAnalyzer.ts]) *)

(** [String.prototype.includes] *)
Fixpoint includes (s pattern : string) : bool :=
  String.prefix pattern s
  || match s with
     | String _ rest => includes rest pattern
     | EmptyString => false
     end.

Module RepoAnalyzer.

Record FileInfo := mkFileInfo {
  path : string;
  name : string;
  extension : string
}.

Unset Elimination Schemes.
Inductive DirectoryStructure :=
| Dir (dirName dirPath : string) (files : list FileInfo)
      (subdirectories : list DirectoryStructure).
Set Elimination Schemes.

Definition file (filePath fileName ext : string) : FileInfo :=
  mkFileInfo filePath fileName ext.

(** [getProjectStructure]: the structure is written out in the source. *)
Definition getProjectStructure : DirectoryStructure :=
  Dir "Merkle_Latest" "/"
    [ file "/package.json" "package.json" "json";
      file "/README.md" "README.md" "md";
      file "/tsconfig.json" "tsconfig.json" "json";
      file "/tailwind.config.js" "tailwind.config.js" "js";
      file "/postcss.config.js" "postcss.config.js" "js" ]
    [ Dir "src" "/src"
        [ file "/src/App.tsx" "App.tsx" "tsx";
          file "/src/index.tsx" "index.tsx" "tsx";
          file "/src/index.css" "index.css" "css";
          file "/src/new.css" "new.css" "css" ]
        [ Dir "components" "/src/components"
            [ file "/src/components/ChatHeader.tsx" "ChatHeader.tsx" "tsx";
              file "/src/components/ChatMessages.tsx" "ChatMessages.tsx" "tsx";
              file "/src/components/EnhancedChatMessages.tsx"
                "EnhancedChatMessages.tsx" "tsx";
              file "/src/components/MessageInput.tsx" "MessageInput.tsx" "tsx";
              file "/src/components/MerkleLogo.tsx" "MerkleLogo.tsx" "tsx";
              file "/src/components/ThreeSectionInput.tsx"
                "ThreeSectionInput.tsx" "tsx" ]
            [];
          Dir "services" "/src/services"
            [ file "/src/services/grokService.ts" "grokService.ts" "ts" ]
            [];
          Dir "store" "/src/store"
            [ file "/src/store/chatSlice.ts" "chatSlice.ts" "ts";
              file "/src/store/store.ts" "store.ts" "ts";
              file "/src/store/hooks.ts" "hooks.ts" "ts";
              file "/src/store/index.ts" "index.ts" "ts" ]
            [];
          Dir "types" "/src/types"
            [ file "/src/types/chat.ts" "chat.ts" "ts" ]
            [];
          Dir "utils" "/src/utils"
            [ file "/src/utils/fileHandler.ts" "fileHandler.ts" "ts";
              file "/src/utils/messagePersistence.ts" "messagePersistence.ts"
                "ts" ]
            [];
          Dir "hooks" "/src/hooks"
            [ file "/src/hooks/useMediaQuery.ts" "useMediaQuery.ts" "ts";
              file "/src/hooks/useSwipeGesture.ts" "useSwipeGesture.ts" "ts" ]
            [];
          Dir "context" "/src/context"
            [ file "/src/context/MobileMenuContext.tsx" "MobileMenuContext.tsx"
                "tsx" ]
            [] ];
      Dir "public" "/public"
        [ file "/public/image.png" "image.png" "png" ]
        [ Dir "assets" "/public/assets"
            [ file "/public/assets/Merkle_logo.png" "Merkle_logo.png" "png";
              file "/public/assets/Merkle_logo.svg" "Merkle_logo.svg" "svg" ]
            [] ] ].

(** All the files of a structure: those of the directory, then those of
    its subdirectories in order. *)
Fixpoint allFiles (structure : DirectoryStructure) : list FileInfo :=
  match structure with
  | Dir _ _ files subdirectories =>
      files ++ flat_map allFiles subdirectories
  end.

(** [patterns.some(pattern => file.name.includes(pattern))] *)
Definition matchesSome (patterns : list string) (f : FileInfo) : bool :=
  existsb (fun pattern => includes (name f) pattern) patterns.

(** [findKeyFiles]: what the call appends to [keyFiles]. *)
Fixpoint findKeyFiles (patterns : list string)
    (structure : DirectoryStructure) : list FileInfo :=
  match structure with
  | Dir _ _ files subdirectories =>
      List.filter (matchesSome patterns) files
      ++ flat_map (findKeyFiles patterns) subdirectories
  end.

Definition importantPatterns : list string :=
  [ "package.json"; "tsconfig.json"; "App.tsx"; "index.tsx";
    "grokService.ts"; "chatSlice.ts"; "store.ts"; "chat.ts" ].

Definition identifyKeyFiles (structure : DirectoryStructure)
  : list FileInfo :=
  findKeyFiles importantPatterns structure.

(** A [Set] of strings in insertion order, and [Set.prototype.add]. *)
Definition add (x : string) (technologies : list string) : list string :=
  if existsb (String.eqb x) technologies
  then technologies
  else technologies ++ [x].

(** What one file adds in [scanForTechnologies]. *)
Definition scanFile (technologies : list string) (f : FileInfo)
  : list string :=
  if String.eqb (extension f) "tsx" || String.eqb (extension f) "jsx"
  then add "React" technologies
  else if String.eqb (extension f) "ts"
  then add "TypeScript" technologies
  else if String.eqb (extension f) "css"
  then
    if includes (name f) "tailwind" || includes (path f) "tailwind"
    then add "Tailwind CSS" technologies
    else technologies
  else technologies.

Fixpoint scanForTechnologies (structure : DirectoryStructure)
    (technologies : list string) : list string :=
  match structure with
  | Dir _ _ files subdirectories =>
      fold_left (fun acc subdir => scanForTechnologies subdir acc)
        subdirectories (fold_left scanFile files technologies)
  end.

(** What the dependencies of [package.json] add; [deps] is
    [Object.keys(packageInfo.dependencies)]. *)
Definition scanDependencies (deps : list string) (technologies : list string)
  : list string :=
  let t1 :=
    if existsb (String.eqb "react") deps
    then add "React" technologies else technologies in
  let t2 :=
    if existsb (String.eqb "@reduxjs/toolkit") deps
    then add "Redux Toolkit" t1 else t1 in
  let t3 :=
    if existsb (String.eqb "typescript") deps
    then add "TypeScript" t2 else t2 in
  let t4 :=
    if existsb (String.eqb "tailwindcss") deps
    then add "Tailwind CSS" t3 else t3 in
  if existsb (fun dep => includes dep "grok") deps
  then add "Grok AI API" t4 else t4.

Definition knownTechnologies : list string :=
  [ "React"; "TypeScript"; "Redux Toolkit"; "Tailwind CSS"; "Grok AI API";
    "Blockchain/Cryptocurrency Chat Interface" ].

(** [detectTechnologies]; [dependencies] is [None] when there is no
    package information or it has no dependencies. *)
Definition detectTechnologies (dependencies : option (list string))
    (structure : option DirectoryStructure) : list string :=
  let t1 :=
    match dependencies with
    | Some deps => scanDependencies deps []
    | None => []
    end in
  let t2 :=
    match structure with
    | Some s => scanForTechnologies s t1
    | None => t1
    end in
  fold_left (fun acc x => add x acc) knownTechnologies t2.

(** [getRelevantFiles] on the key files of the context, with the query
    already in lower case. *)
Definition getRelevantFiles (queryLower : string) (keyFiles : list FileInfo)
  : list FileInfo :=
  let chat :=
    if includes queryLower "chat" || includes queryLower "message"
    then List.filter
           (fun f => includes (name f) "chat" || includes (name f) "message"
                     || includes (name f) "Chat") keyFiles
    else [] in
  let components :=
    if includes queryLower "component" || includes queryLower "ui"
    then List.filter
           (fun f => includes (path f) "/components/"
                     || String.eqb (extension f) "tsx") keyFiles
    else [] in
  let store :=
    if includes queryLower "store" || includes queryLower "state"
       || includes queryLower "redux"
    then List.filter
           (fun f => includes (path f) "/store/" || includes (name f) "slice")
           keyFiles
    else [] in
  let services :=
    if includes queryLower "service" || includes queryLower "api"
       || includes queryLower "grok"
    then List.filter
           (fun f => includes (path f) "/services/"
                     || includes (name f) "Service") keyFiles
    else [] in
  let relevantFiles := chat ++ components ++ store ++ services in
  match relevantFiles with
  | [] =>
      List.filter (matchesSome ["App.tsx"; "grokService.ts"; "chatSlice.ts"])
        keyFiles
  | _ :: _ => relevantFiles
  end.

(** The cache of [getCodebaseContext]. *)
Definition CACHE_DURATION : Z := 5 * 60 * 1000.

Section Cache.
(** The context type and the state of what [analyzeCodebase] reads. *)
Context {C W : Type}.
Variable analyzeCodebase : W -> Outcome C * W.
Variable getFallbackContext : C.

Record Cache := mkCache {
  cachedContext : option C;
  cacheTimestamp : Z
}.

Definition emptyCache : Cache := mkCache None 0.

(** [getCodebaseContext]; [now] is [Date.now()] at the call and [later]
    is [Date.now()] once the analysis has finished. *)
Definition getCodebaseContext (now later : Z) (cache : Cache) (w : W)
  : C * Cache * W :=
  match cachedContext cache with
  | Some context =>
      if now - cacheTimestamp cache <? CACHE_DURATION
      then (context, cache, w)
      else
        match analyzeCodebase w with
        | (Returned context', w1) =>
            (context', mkCache (Some context') later, w1)
        | (Thrown _, w1) => (getFallbackContext, cache, w1)
        end
  | None =>
      match analyzeCodebase w with
      | (Returned context', w1) => (context', mkCache (Some context') later, w1)
      | (Thrown _, w1) => (getFallbackContext, cache, w1)
      end
  end.

Definition clearCache (cache : Cache) : Cache := emptyCache.
End Cache.

End RepoAnalyzer.

(** Lists of known technologies without duplicates. *)
Definition knownOnly (l : list string) : Prop :=
  List.NoDup l /\ forall x, In x l -> In x RepoAnalyzer.knownTechnologies.

(** The time a run of the executor spends sleeping, in milliseconds. *)
Definition totalWait (tr : list RetryEvent) : Z :=
  fold_right
    (fun ev acc => match ev with EvSleep ms => ms + acc | EvCall _ _ => acc end)
    0 tr.

(** The error of [sendMessage] for a missing key. *)
Definition notConfigured : Exn :=
  plainError
    "Grok API key not configured. Please set REACT_APP_GROK_API_KEY in your environment variables.".

(** The update that switches the mock responses off. *)
Definition goLive : ConfigUpdates :=
  mkConfigUpdates None None None None None (Some false).

(** ** Sample inputs *)

Module Samples.

(** An operation that fails on every call; the world counts the calls. *)
Definition failing (calls : nat) : Outcome string * nat :=
  (Thrown (plainError ("failure " +:+ pretty calls)), S calls).

(** The default configuration of [createGrokService] with a key set. *)
Definition liveConfig : GrokServiceConfig :=
  {| apiKey := "xai-key";
     apiUrl := "https://api.x.ai/v1";
     model := "grok-beta";
     timeout := 30000;
     maxRetries := 3;
     useMockResponses := false |}.

(** A service that answers every request with HTTP 401. *)
Definition fetch401 (cfg : GrokServiceConfig) (body : GrokRequest) (w : unit)
  : FetchResult * unit :=
  (FetchResponse 401 "Unauthorized" (BodyError "Incorrect API key provided"), w).

Definition systemPrompt (query : string) : string :=
  "You are a knowledgeable blockchain and cryptocurrency expert assistant.".

Definition mockResponse (message : string) : string :=
  "# Blockchain & Cryptocurrency Information".

Definition typeError : Exn :=
  Error "TypeError" "Cannot read properties of undefined (reading 'message')".

Definition sendLive :=
  sendMessage fetch401 systemPrompt mockResponse (fun s => s) (fun s => s)
    typeError liveConfig.

(** A service that answers every request with HTTP 401 and a JSON body
    that has no [error] field. *)
Definition fetch401NoError (cfg : GrokServiceConfig) (body : GrokRequest)
    (w : unit) : FetchResult * unit :=
  (FetchResponse 401 "Unauthorized" (BodyCompletion []), w).

(** Ten messages followed by one that is still loading. *)
Definition elevenWithLoading : list IMessage.t :=
  map (fun n =>
         IMessage.mk ("id" +:+ pretty n) ("message " +:+ pretty n)
           (if Nat.even n then user else assistant)
           "2026-01-01T00:00:00.000Z" None)
      (seq 0 10)
  ++ [IMessage.mk "id10" "" assistant "2026-01-01T00:00:10.000Z" (Some true)].

(** A submission, two more messages queued while it is being answered,
    the answer, a further submission within the 500 ms spacing delay, and
    the end of that delay. *)
Definition overlappingDrains : list Event :=
  [ HandleSend "a" "id1" "2026-01-01T00:00:00.000Z";
    Dispatch (EnqueueMessage "b");
    Dispatch (EnqueueMessage "c");
    SendSettles 0 (Returned "answer to a") "id2" "2026-01-01T00:00:02.000Z";
    HandleSend "d" "id3" "2026-01-01T00:00:02.100Z";
    TimerFires ].

(** A store with two queued messages and nothing in flight. *)
Definition twoQueued : Store :=
  onChat (enqueueMessage "second") (onChat (enqueueMessage "first") initialStore).

Definition sampleMessage (n : nat) : IMessage.t :=
  IMessage.mk ("id" +:+ pretty n) ("message " +:+ pretty n)
    (if Nat.even n then user else assistant)
    "2026-01-01T00:00:00.000Z" None.

Definition sampleMessages (count : nat) : list IMessage.t :=
  map sampleMessage (seq 0 count).

(** An empty [localStorage] with a quota of five million characters. *)
Definition emptyStorage : LocalStorage := mkLocalStorage ∅ 5000000%N.

Definition save :=
  saveMessages ReferenceHost.JSON_stringify ReferenceHost.toISOString.

Definition load :=
  loadMessages ReferenceHost.JSON_parse ReferenceHost.newDate ReferenceHost.sevenDaysBefore.

(** 2026-01-01T00:00:00.000Z *)
Definition savedAt : Z := 1767225600000.

(** The calendar of a host in the America/New_York zone in 2026: local
    time is UTC-4 from 2026-03-08T07:00Z to 2026-11-01T06:00Z and UTC-5
    outside that period. *)
Definition HOUR_MS : Z := 60 * 60 * 1000.

Definition newYorkOffset (t : Z) : Z :=
  if (1772953200000 <=? t) && (t <? 1793512800000)
  then -4 * HOUR_MS
  else -5 * HOUR_MS.

(** [setDate(getDate() - 7)] there: the same wall-clock reading seven
    calendar days earlier, taken back to an instant. *)
Definition newYorkSevenDaysBefore (t : Z) : Z :=
  let wall := t + newYorkOffset t - SEVEN_DAYS_MS in
  let standard := wall + 5 * HOUR_MS in
  if newYorkOffset standard =? -5 * HOUR_MS
  then standard
  else wall + 4 * HOUR_MS.

Definition loadInNewYork :=
  loadMessages ReferenceHost.JSON_parse ReferenceHost.newDate
    newYorkSevenDaysBefore.

(** A storage whose entry under the chat key is the empty string. *)
Definition emptyEntry : LocalStorage :=
  mkLocalStorage {[ STORAGE_KEY := "" ]} 5000000%N.

(** An operation that fails on its first two calls and then returns. *)
Definition flaky (calls : nat) : Outcome string * nat :=
  if (calls <? 2)%nat
  then (Thrown (plainError ("failure " +:+ pretty calls)), S calls)
  else (Returned "done", S calls).

(** A service that answers every request with a completion. *)
Definition fetch200 (cfg : GrokServiceConfig) (body : GrokRequest) (w : unit)
  : FetchResult * unit :=
  (FetchResponse 200 "OK" (BodyCompletion [Some "Hello there"]), w).

(** An environment with a key and one without. *)
Definition envWithKey : Env :=
  mkEnv (Some "xai-key") None None None None None.

Definition envWithoutKey : Env :=
  mkEnv None None None None (Some "5") (Some "false").

(** A stand-in for [parseInt] on the texts of the sample environments. *)
Definition parseDecimal (s : string) : Z :=
  match ReferenceHost.readDigits s 0 O with (n, _, _) => n end.

Definition threeAnswers : list Answer :=
  [ (Returned "one", "r1", "t1");
    (Thrown (plainError "Request timeout"), "r2", "t2");
    (Returned "three", "r3", "t3") ].

(** A store with three queued messages and nothing in flight. *)
Definition threeQueued : Store :=
  onChat (enqueueMessage "c")
    (onChat (enqueueMessage "b") (onChat (enqueueMessage "a") initialStore)).

Definition exportText :=
  exportMessages ReferenceHost.JSON_stringify_indented ReferenceHost.JSON_parse
    ReferenceHost.newDate ReferenceHost.sevenDaysBefore.

Definition importText :=
  importMessages ReferenceHost.JSON_stringify ReferenceHost.JSON_parse
    ReferenceHost.toISOString.

Definition persist :=
  persistEffect ReferenceHost.JSON_stringify ReferenceHost.toISOString.

(** A chat state with two messages and a session id. *)
Definition chatting : ChatState :=
  set_sessionId (Some "session_1767225600000")
    (set_messages (sampleMessages 2) initialState).

End Samples.

(** * Properties *)

(** ** Lists *)

Lemma sliceLast_length {A} (n : nat) (l : list A) :
  length (sliceLast n l) = Nat.min n (length l).
Proof. unfold sliceLast. rewrite length_drop. lia. Qed.

Lemma sliceLast_suffix {A} (n : nat) (l : list A) :
  sliceLast n l `suffix_of` l.
Proof. apply suffix_drop. Qed.

Lemma sliceLast_short {A} (n : nat) (l : list A) :
  (length l <= n)%nat -> sliceLast n l = l.
Proof.
  intros Hle. unfold sliceLast.
  replace (length l - n)%nat with O by lia. reflexivity.
Qed.

Lemma filter_suffix {A} (f : A -> bool) (l1 l2 : list A) :
  l1 `suffix_of` l2 -> List.filter f l1 `suffix_of` List.filter f l2.
Proof.
  intros [k ->]. exists (List.filter f k). apply List.filter_app.
Qed.

Lemma map_suffix {A B} (f : A -> B) (l1 l2 : list A) :
  l1 `suffix_of` l2 -> map f l1 `suffix_of` map f l2.
Proof.
  intros [k ->]. exists (map f k). apply List.map_app.
Qed.

Lemma filter_length_bound {A} (f : A -> bool) (l : list A) :
  (length (List.filter f l) <= length l)%nat.
Proof.
  induction l as [|x l IH]; simpl; [lia|].
  destruct (f x); simpl; lia.
Qed.

(** ** Session state *)

(** C7: [setConnectionStatus] stores the given status, and the retry
    counter is 0 afterwards when the status is [connected] and is the
    previous counter for the two other statuses. *)
Theorem setConnectionStatus_retryCount (s : ChatState)
    (status : ConnectionStatus) :
  connectionStatus (setConnectionStatus status s) = status /\
  (status = connected -> retryCount (setConnectionStatus status s) = 0) /\
  (status <> connected ->
   retryCount (setConnectionStatus status s) = retryCount s).
Proof.
  unfold setConnectionStatus.
  destruct (decide (status = connected)) as [Heq | Hne]; simpl.
  - split; [reflexivity|]. split; intros H; [reflexivity | contradiction].
  - split; [reflexivity|]. split; intros H; [contradiction | reflexivity].
Qed.

Lemma setConnectionStatus_retryCount_witness :
  let s := set_retryCount 5 initialState in
  retryCount (setConnectionStatus connected s) = 0 /\
  retryCount (setConnectionStatus disconnected s) = 5 /\
  retryCount (setConnectionStatus reconnecting s) = 5.
Proof.
  intros s.
  destruct (setConnectionStatus_retryCount s connected) as (_ & Hc & _).
  destruct (setConnectionStatus_retryCount s disconnected) as (_ & _ & Hd).
  destruct (setConnectionStatus_retryCount s reconnecting) as (_ & _ & Hr).
  split; [apply Hc; reflexivity|].
  split; [apply Hd; discriminate | apply Hr; discriminate].
Defined.

(** ** The request's message list *)

Lemma conversationHistory_roles (msgs : list IMessage.t) :
  Forall (fun m => role m <> role_system) (conversationHistory msgs).
Proof.
  unfold conversationHistory.
  induction (List.filter _ _) as [|m l IH]; simpl; constructor; [|exact IH].
  unfold toGrokMessage; simpl. destruct (IMessage.sender m); discriminate.
Qed.

Lemma suffix_sliceLast {A} (n : nat) (l1 l : list A) :
  l1 `suffix_of` l -> (length l1 <= n)%nat -> l1 `suffix_of` sliceLast n l.
Proof.
  intros [k ->] Hlen. unfold sliceLast. rewrite length_app.
  exists (drop (length k + length l1 - n) k).
  rewrite drop_app_le by lia. reflexivity.
Qed.

Lemma suffix_same_length {A} (l1 l2 : list A) :
  l1 `suffix_of` l2 -> (length l2 <= length l1)%nat -> l1 = l2.
Proof.
  intros [k ->] Hlen. rewrite length_app in Hlen.
  destruct k as [|x k]; [reflexivity | simpl in Hlen; lia].
Qed.

Lemma filter_all {A} (f : A -> bool) (l : list A) :
  Forall (fun x => f x = true) l -> List.filter f l = l.
Proof.
  induction 1 as [|x l Hx _ IH]; simpl; [reflexivity|].
  rewrite Hx. by rewrite IH.
Qed.

Lemma filter_split_length {A} (f : A -> bool) (l : list A) :
  (length (List.filter f l) + length (List.filter (fun x => negb (f x)) l)
   = length l)%nat.
Proof.
  induction l as [|x l IH]; simpl; [reflexivity|].
  destruct (f x); simpl; lia.
Qed.

(** [!msg.isLoading] on the optional flag. *)
Lemma loading_flag (m : IMessage.t) :
  negb (IMessage.loading m)
  = match IMessage.isLoading m with Some true => false | _ => true end.
Proof. unfold IMessage.loading. by destruct (IMessage.isLoading m) as [[|]|]. Qed.

(** The history the code sends is a suffix of the last ten non-loading
    messages, and it is all of them when it has as many entries. *)
Lemma conversationHistory_suffix (msgs : list IMessage.t) :
  conversationHistory msgs `suffix_of` lastTenNonLoading msgs.
Proof.
  unfold conversationHistory, lastTenNonLoading.
  apply map_suffix, suffix_sliceLast.
  - apply filter_suffix, sliceLast_suffix.
  - pose proof (filter_length_bound (fun msg => negb (IMessage.loading msg))
                  (sliceLast 10 msgs)) as H1.
    pose proof (sliceLast_length 10 msgs) as H2. lia.
Qed.

(** C5: the message list of the outbound request is the system message,
    then the history, then the new user message.  The history is taken
    from the last ten messages of the session (all of them when there are
    fewer): those among them whose loading flag is not set, in their
    order, each with the role of its sender and its text.  The cap of ten
    comes before the filter: the history is a suffix of the last ten
    non-loading messages of the session, and it is all of them when none
    of the last ten messages is loading. *)
Theorem request_message_list (getSystemPrompt : string -> string)
    (cfg : GrokServiceConfig) (msgs : list IMessage.t) (message : string) :
  let lastTen := drop (length msgs - 10) msgs in
  let notLoading := fun m : IMessage.t =>
    match IMessage.isLoading m with Some true => false | _ => true end in
  let kept := List.filter notLoading lastTen in
  let converted :=
    map (fun m : IMessage.t =>
           {| role := match IMessage.sender m with
                      | user => role_user
                      | assistant => role_assistant
                      end;
              content := IMessage.text m |})
        kept in
  req_messages
    (requestBody getSystemPrompt cfg message (conversationHistory msgs))
  = ({| role := role_system; content := getSystemPrompt message |}
     :: converted ++ [{| role := role_user; content := message |}])%list
  /\ length lastTen = Nat.min 10 (length msgs)
  /\ (forall m, In m kept <-> In m lastTen /\ IMessage.isLoading m <> Some true)
  /\ (length kept
      + length (List.filter (fun m => negb (notLoading m)) lastTen)
      = length lastTen)%nat
  /\ converted `suffix_of` lastTenNonLoading msgs
  /\ (Forall (fun m => IMessage.isLoading m <> Some true) lastTen ->
      kept = lastTen /\ converted = lastTenNonLoading msgs)
  /\ Forall (fun m => role m <> role_system) converted.
Proof.
  intros lastTen notLoading kept converted.
  assert (Hhist : conversationHistory msgs = converted).
  { unfold conversationHistory, converted, kept, lastTen, sliceLast.
    f_equal. apply List.filter_ext. intros m. apply loading_flag. }
  assert (Hlen : length lastTen = Nat.min 10 (length msgs)).
  { unfold lastTen. rewrite length_drop. lia. }
  split; [unfold requestBody, buildMessages; simpl; by rewrite Hhist|].
  split; [exact Hlen|].
  split.
  { intros m. unfold kept. rewrite List.filter_In. unfold notLoading.
    destruct (IMessage.isLoading m) as [[|]|]; split; intros [H1 H2];
      (split; [exact H1|]); congruence. }
  split; [apply filter_split_length|].
  split; [rewrite <- Hhist; apply conversationHistory_suffix|].
  split; [|rewrite <- Hhist; apply conversationHistory_roles].
  intros Hall.
  assert (Hkept : kept = lastTen).
  { apply filter_all. eapply Forall_impl; [exact Hall|].
    intros m Hm. simpl in Hm. unfold notLoading.
    destruct (IMessage.isLoading m) as [[|]|]; congruence. }
  split; [exact Hkept|].
  rewrite <- Hhist. apply suffix_same_length;
    [apply conversationHistory_suffix|].
  rewrite Hhist. unfold converted, lastTenNonLoading.
  rewrite !length_map, Hkept, Hlen, sliceLast_length.
  pose proof (filter_length_bound (fun msg => negb (IMessage.loading msg)) msgs).
  lia.
Qed.

Lemma request_message_list_witness :
  let msgs := Samples.sampleMessages 12 in
  req_messages
    (requestBody Samples.systemPrompt Samples.liveConfig "hello"
       (conversationHistory msgs))
  = (mkGrokMessage role_system (Samples.systemPrompt "hello")
     :: lastTenNonLoading msgs ++ [mkGrokMessage role_user "hello"])%list
  /\ length (lastTenNonLoading msgs) = 10%nat.
Proof.
  intros msgs.
  destruct (request_message_list Samples.systemPrompt Samples.liveConfig
              msgs "hello") as (Hreq & _ & _ & _ & _ & Hall & _).
  destruct Hall as [_ Hsame].
  - vm_compute. repeat constructor; discriminate.
  - rewrite Hreq, Hsame. split; reflexivity.
Defined.

(** With ten messages followed by one that is loading, the history has
    nine entries, the messages numbered 1 to 9, while the session has ten
    messages that are not loading: message 0 is left out although it is
    among the last ten non-loading messages. *)
Lemma history_capped_before_filter :
  let msgs := Samples.elevenWithLoading in
  length msgs = 11%nat /\
  length (List.filter (fun m => negb (IMessage.loading m)) msgs) = 10%nat /\
  length (lastTenNonLoading msgs) = 10%nat /\
  length (conversationHistory msgs) = 9%nat /\
  conversationHistory msgs = map toGrokMessage (drop 1 (take 10 msgs)) /\
  lastTenNonLoading msgs = map toGrokMessage (take 10 msgs) /\
  conversationHistory msgs <> lastTenNonLoading msgs.
Proof.
  intros msgs.
  split; [reflexivity|]. split; [reflexivity|]. split; [reflexivity|].
  split; [reflexivity|]. split; [reflexivity|]. split; [reflexivity|].
  intros Heq. apply (f_equal length) in Heq. vm_compute in Heq. discriminate.
Qed.

(** ** The retrying executor *)

Lemma backoffScheduleFrom_last (maxRetries : Z) :
  backoffScheduleFrom maxRetries maxRetries = [Call maxRetries].
Proof.
  unfold backoffScheduleFrom. rewrite Z.sub_diag. reflexivity.
Qed.

Lemma backoffScheduleFrom_step (first maxRetries : Z) :
  first < maxRetries ->
  backoffScheduleFrom first maxRetries =
  Call first :: Sleep (2 ^ first * 1000)
    :: backoffScheduleFrom (first + 1) maxRetries.
Proof.
  intros Hlt. unfold backoffScheduleFrom.
  rewrite seqZ_cons by lia. simpl.
  replace (first + 1 - 1) with first by lia.
  replace (Z.succ (first + 1)) with (first + 1 + 1) by lia.
  replace (Z.pred (maxRetries - first)) with (maxRetries - (first + 1)) by lia.
  reflexivity.
Qed.

Section RetryProperties.
Context {W T : Type}.
Variable fn : W -> Outcome T * W.

(** The loop always comes to an end within the fuel [retryWithBackoff]
    gives it. *)
Lemma retryLoop_total (maxRetries : Z) (fuel : nat) :
  forall attempt lastError w,
    (Z.to_nat (maxRetries + 1 - attempt) < fuel)%nat ->
    is_Some (retryLoop fn fuel maxRetries attempt lastError w).
Proof.
  induction fuel as [|fuel IH]; intros attempt lastError w Hfuel; [lia|].
  simpl. destruct (attempt <=? maxRetries) eqn:Hle; [|eauto].
  apply Z.leb_le in Hle.
  destruct (fn w) as [[v | e] w1]; [eauto|].
  destruct (attempt =? maxRetries) eqn:Heq; [eauto|].
  apply Z.eqb_neq in Heq.
  destruct (IH (attempt + 1) e w1) as [[[r w2] tr] Hr]; [lia|].
  rewrite Hr. eauto.
Qed.

Lemma retryWithBackoff_total (maxRetries : Z) (w : W) :
  is_Some (retryWithBackoff fn maxRetries w).
Proof.
  unfold retryWithBackoff. apply retryLoop_total.
  replace (maxRetries + 1 - 0) with (maxRetries + 1) by lia. lia.
Qed.

(** A first attempt that succeeds is the only one. *)
Lemma retryWithBackoff_first_success (maxRetries : Z) (w w1 : W) (v : T) :
  0 <= maxRetries ->
  fn w = (Returned v, w1) ->
  retryWithBackoff fn maxRetries w = Some (Returned v, w1, [EvCall 0 None]).
Proof.
  intros Hpos Hfn. unfold retryWithBackoff.
  replace (Z.to_nat (maxRetries + 1) + 1)%nat
    with (S (Z.to_nat (maxRetries + 1))) by lia.
  simpl. destruct (0 <=? maxRetries) eqn:Hle; [|lia].
  rewrite Hfn. reflexivity.
Qed.

Lemma callsOf_cons (first : Z) (n : nat) (w : W) :
  callsOf fn first (S n) w
  = EvCall first (thrownOf (fn w).1) :: callsOf fn (first + 1) n (fn w).2.
Proof.
  unfold callsOf. simpl. rewrite Z.add_0_r. f_equal.
  rewrite <- List.seq_shift, List.map_map. apply List.map_ext.
  intros j. simpl. f_equal. lia.
Qed.

Lemma callsOf_length (first : Z) (n : nat) (w : W) :
  length (callsOf fn first n w) = n.
Proof. unfold callsOf. by rewrite length_map, length_seq. Qed.

(** Every run of the loop is a run of calls of the operation, each made
    in the world the call before it left: all of them but the last threw,
    the outcome and the final world are those of the last call, and a
    call that throws is the last one only when the budget is used up. *)
Lemma retryLoop_calls (maxRetries : Z) (fuel : nat) :
  forall attempt lastError w r w' tr,
    attempt <= maxRetries ->
    retryLoop fn fuel maxRetries attempt lastError w = Some (r, w', tr) ->
    exists n : nat,
      attempt + Z.of_nat n <= maxRetries /\
      fn (worldAfter fn n w) = (r, w') /\
      (forall j, (j < n)%nat ->
         exists e, (fn (worldAfter fn j w)).1 = Thrown e) /\
      List.filter isCall tr = callsOf fn attempt (S n) w /\
      map stepOf tr = backoffScheduleFrom attempt (attempt + Z.of_nat n) /\
      (forall e, r = Thrown e -> attempt + Z.of_nat n = maxRetries).
Proof.
  induction fuel as [|fuel IH]; intros attempt lastError w r w' tr Hle Hrun;
    [discriminate|].
  simpl in Hrun. destruct (attempt <=? maxRetries) eqn:Hleb; [|lia].
  destruct (fn w) as [[v | e] w1] eqn:Hfn.
  - injection Hrun as <- <- <-. exists O. simpl.
    rewrite Z.add_0_r, backoffScheduleFrom_last, callsOf_cons, Hfn.
    split; [lia|]. split; [reflexivity|]. split; [intros j Hj; lia|].
    split; [reflexivity|]. split; [reflexivity|]. intros e He. discriminate He.
  - destruct (attempt =? maxRetries) eqn:Heq.
    + apply Z.eqb_eq in Heq. subst attempt.
      injection Hrun as <- <- <-. exists O. simpl.
      rewrite Z.add_0_r, backoffScheduleFrom_last, callsOf_cons, Hfn.
      split; [lia|]. split; [reflexivity|]. split; [intros j Hj; lia|].
      split; [reflexivity|]. split; [reflexivity|]. intros e0 He. reflexivity.
    + apply Z.eqb_neq in Heq.
      destruct (retryLoop fn fuel maxRetries (attempt + 1) e w1)
        as [[[r2 w2] tr2]|] eqn:Hrec; [|discriminate].
      injection Hrun as <- <- <-.
      assert (Hle1 : attempt + 1 <= maxRetries) by lia.
      destruct (IH (attempt + 1) e w1 r2 w2 tr2 Hle1 Hrec)
        as (n & Hn & Hlast & Hearlier & Hcalls & Hsched & Hthrown).
      exists (S n).
      replace (attempt + Z.of_nat (S n)) with (attempt + 1 + Z.of_nat n) by lia.
      split; [exact Hn|].
      split; [simpl; rewrite Hfn; exact Hlast|].
      split.
      { intros [|j] Hj; simpl.
        - exists e. by rewrite Hfn.
        - rewrite Hfn. simpl. apply Hearlier. lia. }
      split.
      { simpl. rewrite Hcalls. rewrite (callsOf_cons attempt (S n) w), Hfn.
        reflexivity. }
      split; [|exact Hthrown].
      simpl. rewrite Hsched. symmetry. apply backoffScheduleFrom_step. lia.
Qed.

Lemma retryLoop_unfold (fuel : nat) (maxRetries attempt : Z)
    (lastError : Exn) (w : W) :
  retryLoop fn (S fuel) maxRetries attempt lastError w
  = if attempt <=? maxRetries then
      match fn w with
      | (Returned v, w1) => Some (Returned v, w1, [EvCall attempt None])
      | (Thrown e, w1) =>
          if attempt =? maxRetries then
            Some (Thrown e, w1, [EvCall attempt (Some e)])
          else
            match retryLoop fn fuel maxRetries (attempt + 1) e w1 with
            | Some (r, w2, tr) =>
                Some (r, w2,
                      EvCall attempt (Some e)
                        :: EvSleep (2 ^ attempt * 1000) :: tr)
            | None => None
            end
      end
    else Some (Thrown lastError, w, []).
Proof. reflexivity. Qed.

(** Whatever the first attempt throws, with a budget of at least one
    retry the executor sleeps for a second and calls the operation
    again. *)
Lemma retryWithBackoff_second_attempt (maxRetries : Z) (w w1 : W) (e : Exn) :
  1 <= maxRetries ->
  fn w = (Thrown e, w1) ->
  exists r w' tr,
    retryWithBackoff fn maxRetries w
    = Some (r, w',
            EvCall 0 (Some e) :: EvSleep 1000
              :: EvCall 1 (thrownOf (fn w1).1) :: tr).
Proof.
  intros Hpos Hfn. unfold retryWithBackoff.
  replace (Z.to_nat (maxRetries + 1) + 1)%nat
    with (S (S (Z.to_nat maxRetries))) by lia.
  rewrite retryLoop_unfold, Hfn.
  replace (0 <=? maxRetries) with true by (symmetry; apply Z.leb_le; lia).
  replace (0 =? maxRetries) with false by (symmetry; apply Z.eqb_neq; lia).
  rewrite retryLoop_unfold.
  replace (0 + 1 <=? maxRetries) with true by (symmetry; apply Z.leb_le; lia).
  change (0 + 1) with 1. change (2 ^ 0 * 1000) with 1000.
  destruct (fn w1) as [[v | e1] w2]; cbn [fst thrownOf];
    [do 3 eexists; reflexivity|].
  destruct (1 =? maxRetries) eqn:Heq1; [do 3 eexists; reflexivity|].
  apply Z.eqb_neq in Heq1.
  destruct (retryLoop_total maxRetries (Z.to_nat maxRetries) (1 + 1) e1 w2)
    as [[[r w3] tr] Hr]; [lia|].
  rewrite Hr. do 3 eexists. reflexivity.
Qed.

Hypothesis always_throws : forall w, exists e, (fn w).1 = Thrown e.

(** When every call throws, the loop started at [attempt] calls the
    operation for each attempt number up to [maxRetries], sleeping in
    between, and throws what the last call threw. *)
Lemma retryLoop_exhausts (maxRetries : Z) (fuel : nat) :
  forall attempt lastError w,
    attempt <= maxRetries ->
    (Z.to_nat (maxRetries - attempt) < fuel)%nat ->
    exists e w' tr,
      retryLoop fn fuel maxRetries attempt lastError w
        = Some (Thrown e, w', tr) /\
      map stepOf tr = backoffScheduleFrom attempt maxRetries /\
      last tr = Some (EvCall maxRetries (Some e)) /\
      Z.of_nat (attempts tr) = maxRetries - attempt + 1 /\
      (exists w0, (fn w0).1 = Thrown e) /\
      fn (worldAfter fn (Z.to_nat (maxRetries - attempt)) w) = (Thrown e, w') /\
      List.filter isCall tr
      = callsOf fn attempt (Z.to_nat (maxRetries - attempt) + 1) w.
Proof.
  induction fuel as [|fuel IH]; intros attempt lastError w Hle Hfuel; [lia|].
  simpl. destruct (attempt <=? maxRetries) eqn:Hleb; [|lia].
  destruct (always_throws w) as [e He].
  destruct (fn w) as [r w1] eqn:Hfn; simpl in He; subst r.
  destruct (attempt =? maxRetries) eqn:Heq.
  - apply Z.eqb_eq in Heq; subst attempt.
    exists e, w1, [EvCall maxRetries (Some e)].
    rewrite backoffScheduleFrom_last, Z.sub_diag. simpl.
    rewrite callsOf_cons, Hfn.
    split; [reflexivity|]. split; [reflexivity|]. split; [reflexivity|].
    split; [unfold attempts; simpl; lia|].
    split; [exists w; by rewrite Hfn|].
    split; reflexivity.
  - apply Z.eqb_neq in Heq.
    destruct (IH (attempt + 1) e w1)
      as (e' & w' & tr & Hrun & Hsched & Hlast & Hcount & Hfrom & Hworld & Hcalls);
      [lia | lia |].
    rewrite Hrun.
    exists e', w', (EvCall attempt (Some e) :: EvSleep (2 ^ attempt * 1000) :: tr).
    replace (Z.to_nat (maxRetries - attempt))
      with (S (Z.to_nat (maxRetries - (attempt + 1)))) by lia.
    split; [reflexivity|].
    split.
    { simpl. rewrite Hsched. symmetry. apply backoffScheduleFrom_step. lia. }
    split.
    { destruct tr as [|ev tr']; [discriminate Hlast|].
      rewrite !last_cons_cons. exact Hlast. }
    split; [unfold attempts in *; simpl; lia|].
    split; [exact Hfrom|].
    split; [simpl; rewrite Hfn; exact Hworld|].
    simpl. rewrite Hcalls, (callsOf_cons attempt), Hfn. reflexivity.
Qed.
End RetryProperties.

(** C3: when every attempt of the operation fails, [retryWithBackoff] with
    a budget [maxRetries >= 0] calls the operation [maxRetries + 1] times,
    each call in the world the call before it left, sleeps
    [2^(k-1) * 1000] ms before attempt [k] for each [k] from 1 to
    [maxRetries] and at no other point, and then throws what the last of
    these calls threw, leaving the world as that call left it.  With a
    negative budget the operation is not called at all and what is thrown
    is [undefined]. *)
Theorem retryWithBackoff_exhausts {W T : Type} (fn : W -> Outcome T * W)
    (maxRetries : Z) (w : W) :
  (forall w0, exists e, (fn w0).1 = Thrown e) ->
  (0 <= maxRetries ->
   exists e w' tr,
     retryWithBackoff fn maxRetries w = Some (Thrown e, w', tr) /\
     fn (worldAfter fn (Z.to_nat maxRetries) w) = (Thrown e, w') /\
     Z.of_nat (attempts tr) = maxRetries + 1 /\
     List.filter isCall tr = callsOf fn 0 (Z.to_nat maxRetries + 1) w /\
     map stepOf tr = backoffSchedule maxRetries /\
     last tr = Some (EvCall maxRetries (Some e))) /\
  (maxRetries < 0 ->
   retryWithBackoff fn maxRetries w = Some (Thrown Undefined, w, [])).
Proof.
  intros Hfail. split.
  - intros Hpos.
    destruct (retryLoop_exhausts fn Hfail maxRetries
                (Z.to_nat (maxRetries + 1) + 1) 0 Undefined w)
      as (e & w' & tr & Hrun & Hsched & Hlast & Hcount & _ & Hworld & Hcalls);
      [lia | lia |].
    rewrite Z.sub_0_r in Hworld, Hcalls.
    exists e, w', tr. unfold retryWithBackoff, backoffSchedule.
    split; [exact Hrun|]. split; [exact Hworld|]. split; [lia|].
    split; [exact Hcalls|]. split; [exact Hsched | exact Hlast].
  - intros Hneg. unfold retryWithBackoff.
    replace (Z.to_nat (maxRetries + 1)) with O by lia. simpl.
    destruct (0 <=? maxRetries) eqn:Hle; [lia | reflexivity].
Qed.

Lemma retryWithBackoff_exhausts_witness :
  (exists e w' tr,
     retryWithBackoff Samples.failing 3 O = Some (Thrown e, w', tr) /\
     Samples.failing 3%nat = (Thrown e, w') /\
     Z.of_nat (attempts tr) = 3 + 1 /\
     map stepOf tr = backoffSchedule 3 /\
     last tr = Some (EvCall 3 (Some e))) /\
  retryWithBackoff Samples.failing (-1) O = Some (Thrown Undefined, O, []).
Proof.
  assert (Hfail : forall w0 : nat, exists e, (Samples.failing w0).1 = Thrown e)
    by (intros w0; eexists; reflexivity).
  split.
  - destruct (retryWithBackoff_exhausts Samples.failing 3 O Hfail) as [Hpos _].
    destruct Hpos as (e & w' & tr & Hrun & Hworld & Hcount & _ & Hsched & Hlast);
      [lia|].
    exists e, w', tr.
    split; [exact Hrun|]. split; [exact Hworld|]. split; [exact Hcount|].
    split; [exact Hsched | exact Hlast].
  - destruct (retryWithBackoff_exhausts Samples.failing (-1) O Hfail) as [_ Hneg].
    apply Hneg. lia.
Defined.

(** With a budget of -2 the operation is not called, where the count
    [maxRetries + 1] would be -1, and what is thrown is [undefined], which
    no call of the operation throws. *)
Lemma negative_budget_no_attempt :
  exists tr,
    retryWithBackoff Samples.failing (-2) O = Some (Thrown Undefined, O, tr) /\
    attempts tr = O /\
    Z.of_nat (attempts tr) <> -2 + 1 /\
    forall w0, (Samples.failing w0).1 <> Thrown Undefined.
Proof.
  exists []. split; [reflexivity|]. split; [reflexivity|].
  split; [simpl; lia|]. intros w0. discriminate.
Qed.

(** For a budget of three retries: four attempts, with waits of one, two
    and four seconds between them. *)
Example backoffSchedule_three :
  backoffSchedule 3 =
  [Call 0; Sleep 1000; Call 1; Sleep 2000; Call 2; Sleep 4000; Call 3].
Proof. reflexivity. Qed.

Example retryWithBackoff_failing_three :
  retryWithBackoff Samples.failing 3 O =
  Some (Thrown (plainError "failure 3"), 4%nat,
        [EvCall 0 (Some (plainError "failure 0")); EvSleep 1000;
         EvCall 1 (Some (plainError "failure 1")); EvSleep 2000;
         EvCall 2 (Some (plainError "failure 2")); EvSleep 4000;
         EvCall 3 (Some (plainError "failure 3"))]).
Proof. vm_compute. reflexivity. Qed.

(** ** The completion client and authorisation failures *)

(** What one exchange throws when it is answered with HTTP 401: the
    invalid-key error, unless the body is JSON without an [error] field,
    where reading [errorData.error.message] throws first. *)
Lemma handleFetchResult_401 (missingField : Exn)
    (trim enhance : string -> string) (statusText : string)
    (body : ResponseBody) :
  handleFetchResult trim enhance missingField
    (FetchResponse 401 statusText body)
  = Thrown match body with
           | BodyCompletion _ => rethrow missingField
           | _ => invalidApiKey
           end.
Proof. destruct body; reflexivity. Qed.

(** C1: the executor makes no difference between kinds of failure:
    whatever error the first attempt of an operation throws, with a budget
    of at least one retry it sleeps for a second and calls the operation
    again.  In live mode with a key configured and a budget
    [maxRetries >= 0], when every exchange is answered with HTTP 401,
    [sendMessage] attempts the request [maxRetries + 1] times, with the
    backoff waits between the attempts (a single attempt only for a budget
    of 0), and then throws the error of the last exchange: the invalid-key
    error, or, when the body of that answer is JSON without an [error]
    field, the [TypeError] of reading [errorData.error.message]. *)
Theorem sendMessage_retries_auth_failure {V T W : Type}
    (op : V -> Outcome T * V) (budget : Z) (v : V)
    (fetch : GrokServiceConfig -> GrokRequest -> W -> FetchResult * W)
    (getSystemPrompt getMockResponse trim enhance : string -> string)
    (missingField : Exn) (cfg : GrokServiceConfig) (message : string)
    (history : list GrokMessage) (w : W) :
  let request := requestBody getSystemPrompt cfg message history in
  (forall e v1,
     1 <= budget ->
     op v = (Thrown e, v1) ->
     exists r v' tr,
       retryWithBackoff op budget v
       = Some (r, v',
               EvCall 0 (Some e) :: EvSleep 1000
                 :: EvCall 1 (thrownOf (op v1).1) :: tr)) /\
  (useMockResponses cfg = false ->
   apiKey cfg <> "" ->
   apiKey cfg <> "REMOVED" ->
   0 <= maxRetries cfg ->
   (forall body w0, exists statusText answer,
      (fetch cfg body w0).1 = FetchResponse 401 statusText answer) ->
   exists e w' tr statusText answer,
     sendMessage fetch getSystemPrompt getMockResponse trim enhance
       missingField cfg message history w
     = Some (Thrown e, w', tr) /\
     Z.of_nat (attempts tr) = maxRetries cfg + 1 /\
     map stepOf tr = backoffSchedule (maxRetries cfg) /\
     (attempts tr = 1%nat <-> maxRetries cfg = 0) /\
     fetch cfg request
       (worldAfter (attempt fetch trim enhance missingField cfg request)
          (Z.to_nat (maxRetries cfg)) w)
     = (FetchResponse 401 statusText answer, w') /\
     e = match answer with
         | BodyCompletion _ => rethrow missingField
         | _ => invalidApiKey
         end).
Proof.
  intros request. split.
  { intros e v1 Hpos Hop. by apply retryWithBackoff_second_attempt. }
  intros Hmock Hkey1 Hkey2 Hpos Hauth.
  unfold sendMessage. rewrite Hmock.
  apply String.eqb_neq in Hkey1, Hkey2. rewrite Hkey1, Hkey2. simpl.
  fold request.
  set (fn := attempt fetch trim enhance missingField cfg request).
  assert (Hthrows : forall w0, exists e, (fn w0).1 = Thrown e).
  { intros w0. subst fn. unfold attempt.
    destruct (Hauth request w0) as (statusText & answer & Hfetch).
    destruct (fetch cfg request w0) as [r w1]. simpl in *. subst r.
    rewrite handleFetchResult_401. eauto. }
  destruct (retryLoop_exhausts fn Hthrows (maxRetries cfg)
              (Z.to_nat (maxRetries cfg + 1) + 1) 0 Undefined w)
    as (e & w' & tr & Hrun & Hsched & _ & Hcount & _ & Hworld & _);
    [lia | lia |].
  rewrite Z.sub_0_r in Hworld.
  set (wl := worldAfter fn (Z.to_nat (maxRetries cfg)) w) in *.
  destruct (Hauth request wl) as (statusText & answer & Hfetch).
  exists e, w', tr, statusText, answer.
  unfold retryWithBackoff, backoffSchedule.
  split; [exact Hrun|]. split; [lia|]. split; [exact Hsched|].
  split; [lia|].
  subst fn. unfold attempt in Hworld.
  destruct (fetch cfg request wl) as [r w1]. simpl in Hfetch. subst r.
  rewrite handleFetchResult_401 in Hworld.
  injection Hworld as He Hw. subst w1. split; [reflexivity|]. by rewrite He.
Qed.

Lemma sendMessage_retries_auth_failure_witness :
  (exists r v' tr,
     retryWithBackoff Samples.failing 3 O
     = Some (r, v',
             EvCall 0 (Some (plainError "failure 0")) :: EvSleep 1000
               :: EvCall 1 (Some (plainError "failure 1")) :: tr)) /\
  (exists w' tr,
     Samples.sendLive "hello" [] tt = Some (Thrown invalidApiKey, w', tr) /\
     Z.of_nat (attempts tr) = 3 + 1 /\
     map stepOf tr = backoffSchedule 3 /\
     (attempts tr = 1%nat <-> 3 = 0)).
Proof.
  destruct (sendMessage_retries_auth_failure Samples.failing 3 O
              Samples.fetch401 Samples.systemPrompt Samples.mockResponse
              (fun s => s) (fun s => s) Samples.typeError Samples.liveConfig
              "hello" [] tt) as [Hany Hlive].
  split.
  - apply (Hany (plainError "failure 0") 1%nat); [lia | reflexivity].
  - destruct Hlive as (e & w' & tr & statusText & answer & Hrun & Hcount
                       & Hsched & Hone & Hlast & He).
    + reflexivity.
    + discriminate.
    + discriminate.
    + simpl. lia.
    + intros body w0. eexists _, _. reflexivity.
    + unfold Samples.fetch401 in Hlast. injection Hlast as _ Hanswer _.
      subst answer. subst e. exists w', tr.
      split; [exact Hrun|]. split; [exact Hcount|].
      split; [exact Hsched | exact Hone].
Defined.

(** With the default budget of three retries, a request that is answered
    401 every time is attempted four times, not once. *)
Lemma auth_failure_attempted_four_times :
  exists tr,
    Samples.sendLive "hello" [] tt = Some (Thrown invalidApiKey, tt, tr) /\
    attempts tr = 4%nat /\
    attempts tr <> 1%nat.
Proof.
  eexists. split; [vm_compute; reflexivity|].
  split; [reflexivity | discriminate].
Qed.

(** A 401 whose JSON body has no [error] field does not surface the
    invalid-key error: what is thrown, after the same four attempts, is
    the [TypeError]. *)
Example auth_failure_without_error_field :
  exists tr,
    sendMessage Samples.fetch401NoError Samples.systemPrompt
      Samples.mockResponse (fun s => s) (fun s => s) Samples.typeError
      Samples.liveConfig "hello" [] tt
    = Some (Thrown Samples.typeError, tt, tr) /\
    attempts tr = 4%nat.
Proof. eexists. split; [vm_compute; reflexivity | reflexivity]. Qed.

(** ** The queue dispatcher *)

Lemma processMessageQueue_cons (st : Store) (nextMessage : string)
    (rest : list string) :
  messageQueue (chat st) = nextMessage :: rest ->
  processMessageQueue st =
  mkStore
    (sendMessageToGrok_pending
       (set_messageQueue rest (set_isProcessingQueue true (chat st))))
    (inFlight st
     ++ [mkPendingSend nextMessage (conversationHistory (messages (chat st)))])
    (timers st) (probes st).
Proof.
  intros Hq.
  unfold processMessageQueue, sendMessageToGrok, onChat, dequeueMessage,
    processMessageQueue_pending.
  simpl. rewrite !Hq. reflexivity.
Qed.

(** C6: a drain step takes the front item off the queue before the call
    for it is made.  When a call in flight fails for good, the error
    message is stored in [error], the loading flags are cleared, and the
    queue and the messages are untouched: the item is not put back.  If
    items are queued, the next invocation is scheduled and, when its
    timer fires, takes the following item off the queue and makes the
    call for it; if none is, nothing is scheduled.  In both cases
    [isProcessingQueue] is false once the step is over. *)
Theorem drain_step_failure (st : Store) (e : Exn) (newId now : string) :
  let history := conversationHistory (messages (chat st)) in
  (forall nextMessage rest,
     messageQueue (chat st) = nextMessage :: rest ->
     messageQueue (chat (processMessageQueue st)) = rest /\
     inFlight (processMessageQueue st)
     = inFlight st ++ [mkPendingSend nextMessage history]) /\
  (forall i call,
     inFlight st !! i = Some call ->
     let st2 := sendSettles i (Thrown e) newId now st in
     messageQueue (chat st2) = messageQueue (chat st) /\
     error (chat st2)
     = Some (messageOr "Failed to send message to Grok API" e) /\
     isLoading (chat st2) = false /\
     isTyping (chat st2) = false /\
     messages (chat st2) = messages (chat st) /\
     inFlight st2 = delete i (inFlight st) /\
     isProcessingQueue (chat st2) = false /\
     match messageQueue (chat st) with
     | [] => timers st2 = timers st
     | following :: rest' =>
         timers st2 = S (timers st) /\
         messageQueue (chat (timerFires st2)) = rest' /\
         inFlight (timerFires st2)
         = delete i (inFlight st) ++ [mkPendingSend following history] /\
         timers (timerFires st2) = timers st
     end).
Proof.
  intros history. split.
  - intros nextMessage rest Hq.
    rewrite (processMessageQueue_cons st _ _ Hq). split; reflexivity.
  - intros i call Hcall st2. subst st2. unfold sendSettles. rewrite Hcall.
    destruct st as [c fl t p].
    destruct c as [ms ld er ci ty sid q pq cs rc]; simpl in *.
    destruct q as [|following rest']; simpl;
      repeat (split; [reflexivity|]); reflexivity.
Qed.

Lemma drain_step_failure_witness :
  let st := Samples.twoQueued in
  let st1 := processMessageQueue st in
  let st2 := sendSettles 0 (Thrown (plainError "Request timeout")) "id" "now" st1 in
  messageQueue (chat st1) = ["second"] /\
  map sentMessage (inFlight st1) = ["first"] /\
  messageQueue (chat st2) = ["second"] /\
  error (chat st2) = Some "Request timeout" /\
  timers st2 = 1%nat /\
  map sentMessage (inFlight (timerFires st2)) = ["second"] /\
  messageQueue (chat (timerFires st2)) = [].
Proof.
  intros st st1 st2.
  destruct (drain_step_failure st (plainError "Request timeout") "id" "now")
    as (Hstart & _).
  destruct (Hstart "first" ["second"] eq_refl) as (H1 & H2).
  destruct (drain_step_failure st1 (plainError "Request timeout") "id" "now")
    as (_ & Hfail).
  destruct (Hfail O (mkPendingSend "first" []) eq_refl)
    as (H3 & H4 & _ & _ & _ & _ & _ & H5 & H6 & H7 & _).
  split; [exact H1|]. split; [fold st1 in H2; rewrite H2; reflexivity|].
  split; [exact H3|]. split; [exact H4|]. split; [exact H5|].
  split; [fold st2 in H7; rewrite H7; reflexivity | exact H6].
Defined.

(** [processMessageQueue] does not look at [isProcessingQueue]: with an
    item queued, every invocation puts one more call in flight. *)
Lemma processMessageQueue_unguarded (st : Store) :
  messageQueue (chat st) <> [] ->
  length (inFlight (processMessageQueue st)) = S (length (inFlight st)).
Proof.
  destruct (messageQueue (chat st)) as [|nextMessage rest] eqn:Hq;
    [congruence|].
  intros _. rewrite (processMessageQueue_cons st _ _ Hq). simpl.
  rewrite length_app. simpl. lia.
Qed.

(** C2: the store admits two calls in flight at once.  After the answer
    to "a" arrives with "b" and "c" queued, the invocation that handled
    it schedules its successor and clears [isProcessingQueue]; the submit
    of "d" finds the flag clear and starts a drain, which sends "b"; the
    timer then fires and starts another, which sends "c". *)
Theorem overlapping_drains_two_in_flight :
  let st := run initialStore Samples.overlappingDrains in
  map sentMessage (inFlight st) = ["b"; "c"] /\
  messageQueue (chat st) = ["d"] /\
  isProcessingQueue (chat st) = true.
Proof. vm_compute. repeat split. Qed.

(** The same overlap with submissions only, when an
    [initializeChatSession] that is still pending settles while "a" is
    being answered and so clears [isLoading]. *)
Example overlapping_drains_by_submissions :
  let st :=
    run initialStore
      [ InitializeChatSession; InitializeChatSession;
        ProbeSettles true 1767225600000;
        HandleSend "a" "id1" "t1";
        ProbeSettles true 1767225600400;
        HandleSend "b" "id2" "t2";
        HandleSend "c" "id3" "t3";
        SendSettles 0 (Returned "answer to a") "id4" "t4";
        HandleSend "d" "id5" "t5";
        TimerFires ] in
  map sentMessage (inFlight st) = ["b"; "c"].
Proof. vm_compute. reflexivity. Qed.

(** What the submit handler alone guarantees: see [submitOnly] and
    [quiet]. *)
Lemma quiet_step (st : Store) (ev : Event) :
  submitOnly ev = true -> quiet st -> quiet (step st ev).
Proof.
  intros Hev (Ht & Hq & Hcases).
  destruct st as [c fl t p].
  destruct c as [ms ld er ci ty sid q pq cs rc]; simpl in *; subst t q.
  destruct ev as [a | text newId now | | i r newId now | | |];
    try discriminate; simpl.
  - (* handleSend *)
    unfold handleSend; simpl.
    destruct Hcases as [(-> & -> & ->) | (Hlen & -> & ->)]; simpl.
    + destruct (negb (String.eqb text "")); simpl;
        [|unfold quiet; simpl; tauto].
      destruct (bool_decide (cs = disconnected)); simpl;
        [unfold quiet; simpl; tauto|].
      unfold quiet; simpl. split; [reflexivity|]. split; [reflexivity|].
      right. repeat split.
    + rewrite andb_false_r. simpl.
      unfold quiet; simpl. split; [reflexivity|]. split; [reflexivity|].
      right. repeat split; assumption.
  - (* sendSettles *)
    unfold sendSettles; simpl.
    destruct Hcases as [(-> & -> & ->) | (Hlen & -> & ->)].
    + rewrite lookup_nil. unfold quiet; simpl. tauto.
    + destruct fl as [|x [|y fl']]; simpl in Hlen; try lia.
      destruct i as [|i]; simpl.
      * destruct r as [v | e]; simpl;
          unfold quiet; simpl; split; try reflexivity;
          split; try reflexivity; left; repeat split.
      * unfold quiet; simpl.
        split; [reflexivity|]. split; [reflexivity|].
        right. repeat split; assumption.
  - (* timerFires *)
    unfold quiet; simpl. tauto.
Qed.

Lemma submitOnly_single_flight (evs : list Event) :
  forallb submitOnly evs = true ->
  (length (inFlight (run initialStore evs)) <= 1)%nat.
Proof.
  intros Hevs.
  assert (Hquiet : quiet (run initialStore evs)).
  { unfold run.
    assert (Hinit : quiet initialStore)
      by (unfold quiet; simpl; tauto).
    revert Hinit. generalize initialStore as st.
    induction evs as [|ev evs IH]; intros st Hst; simpl; [exact Hst|].
    simpl in Hevs. apply andb_prop in Hevs as [Hev Hrest].
    apply IH; [exact Hrest|]. by apply quiet_step. }
  destruct Hquiet as (_ & _ & [(-> & _) | (-> & _)]); simpl; lia.
Qed.

(** ** The session bootstrapper *)

(** The session id is different for different start-up times. *)
Lemma sessionId_fresh (t1 t2 : Z) :
  "session_" +:+ pretty t1 = "session_" +:+ pretty t2 -> t1 = t2.
Proof.
  intros Heq. simpl in Heq. injection Heq as Heq.
  by apply (inj pretty).
Qed.

(** In live mode the probe is one call of [sendMessage], and it reports
    unhealthy exactly when that call throws. *)
Lemma healthCheck_live {W : Type}
    (fetch : GrokServiceConfig -> GrokRequest -> W -> FetchResult * W)
    (getSystemPrompt getMockResponse trim enhance : string -> string)
    (missingField : Exn) (cfg : GrokServiceConfig) (w w1 : W)
    (r : Outcome string) (tr : list RetryEvent) :
  useMockResponses cfg = false ->
  sendMessage fetch getSystemPrompt getMockResponse trim enhance missingField
    cfg "Hello" [] w = Some (r, w1, tr) ->
  healthCheck fetch getSystemPrompt getMockResponse trim enhance missingField
    cfg w
  = Some (match r with Returned _ => true | Thrown _ => false end, w1, tr).
Proof.
  intros Hmock Hsend. unfold healthCheck. rewrite Hmock, Hsend.
  destruct r; reflexivity.
Qed.

(** C4: [initializeChatSession] starts one health probe and sets
    [isLoading]; when the probe has settled, healthy or not, the session
    id is ['session_'] followed by the start-up time in milliseconds,
    [isLoading] and [error] are cleared, and [connectionStatus], the
    messages and the queue are what they were before. *)
Theorem initializeChatSession_outcome (st : Store) (isHealthy : bool)
    (nowMs : Z) :
  let st1 := initializeChatSession st in
  let st2 := probeSettles isHealthy nowMs st1 in
  probes st1 = S (probes st) /\
  isLoading (chat st1) = true /\
  probes st2 = probes st /\
  sessionId (chat st2) = Some ("session_" +:+ pretty nowMs) /\
  isLoading (chat st2) = false /\
  error (chat st2) = None /\
  connectionStatus (chat st2) = connectionStatus (chat st) /\
  messages (chat st2) = messages (chat st) /\
  messageQueue (chat st2) = messageQueue (chat st).
Proof. simpl. repeat split. Qed.

(** A probe against a service that answers 401 reports unhealthy, and the
    connection status after start-up is still [connected]. *)
Lemma failed_probe_leaves_connected :
  exists tr,
    healthCheck Samples.fetch401 Samples.systemPrompt Samples.mockResponse
      (fun s => s) (fun s => s) Samples.typeError Samples.liveConfig tt
    = Some (false, tt, tr) /\
    let st :=
      run initialStore [InitializeChatSession; ProbeSettles false Samples.savedAt]
    in
    connectionStatus (chat st) = connected /\
    connectionStatus (chat st) <> disconnected.
Proof.
  eexists. split; [vm_compute; reflexivity|].
  split; [reflexivity | discriminate].
Qed.

(** ** Message persistence *)

Lemma senderName_inj (s1 s2 : Sender) : senderName s1 = senderName s2 -> s1 = s2.
Proof. destruct s1, s2; simpl; intros H; congruence. Qed.

Lemma messageToJson_inj (m1 m2 : IMessage.t) :
  messageToJson m1 = messageToJson m2 -> m1 = m2.
Proof.
  destruct m1 as [i1 t1 s1 ts1 l1], m2 as [i2 t2 s2 ts2 l2].
  unfold messageToJson; simpl. intros H.
  injection H as Hi Ht Hs Hts Hl.
  apply senderName_inj in Hs. subst.
  destruct l1 as [b1|], l2 as [b2|]; simpl in Hl; congruence.
Qed.

Lemma map_messageToJson_inj (l1 l2 : list IMessage.t) :
  map messageToJson l1 = map messageToJson l2 -> l1 = l2.
Proof.
  revert l2. induction l1 as [|m1 l1 IH]; intros [|m2 l2] H;
    simpl in H; try discriminate; [reflexivity|].
  assert (Hm : messageToJson m1 = messageToJson m2) by congruence.
  assert (Hl : map messageToJson l1 = map messageToJson l2) by congruence.
  apply messageToJson_inj in Hm. apply IH in Hl. congruence.
Qed.

(** The stored object determines the snapshot: equal objects hold the
    same messages, the same date and the same session id. *)
Lemma dataToJson_inj (d1 d2 : StoredChatData) :
  dataToJson d1 = dataToJson d2 -> d1 = d2.
Proof.
  destruct d1 as [m1 u1 s1], d2 as [m2 u2 s2].
  unfold dataToJson; simpl. intros H.
  assert (Hm : map messageToJson m1 = map messageToJson m2) by congruence.
  assert (Hu : u1 = u2) by congruence.
  apply map_messageToJson_inj in Hm. subst.
  destruct s1, s2; simpl in H; congruence.
Qed.

Lemma messageCount_dataToJson (d : StoredChatData) :
  messageCount (dataToJson d) = length (stored_messages d).
Proof. unfold messageCount; simpl. by rewrite length_map. Qed.

Lemma getItem_setItem (key value : string) (ls ls' : LocalStorage) :
  setItem key value ls = Some ls' -> getItem key ls' = Some value.
Proof.
  unfold setItem, getItem. destruct (_ <=? _)%N; [|discriminate].
  intros [= <-]. simpl. apply lookup_insert_eq.
Qed.

Lemma getItem_removeItem (key : string) (ls : LocalStorage) :
  getItem key (removeItem key ls) = None.
Proof. unfold getItem, removeItem. simpl. apply lookup_delete_eq. Qed.

Section PersistenceProperties.
Variable JSON_stringify : json -> string.
Variable JSON_parse : string -> option json.
Variable toISOString : Z -> string.
Variable newDate : option json -> Outcome (option Z).
Variable sevenDaysBefore : Z -> Z.

(** What a load finds once a snapshot [d] has been written as [text]. *)
Lemma loadMessages_try_stored (later : Z) (ls : LocalStorage) (text : string)
    (d : StoredChatData) :
  getItem STORAGE_KEY ls = Some text ->
  text <> "" ->
  JSON_parse text = Some (dataToJson d) ->
  loadMessages_try JSON_parse newDate sevenDaysBefore later ls =
  match newDate (Some (JStr (lastUpdated d))) with
  | Thrown e => Thrown e
  | Returned lastUpdatedMs =>
      if olderThan lastUpdatedMs (sevenDaysBefore later)
      then Returned (None, removeItem STORAGE_KEY ls)
      else Returned (Some (dataToJson d), ls)
  end.
Proof.
  intros Hget Hne Hparse. unfold loadMessages_try. rewrite Hget.
  apply String.eqb_neq in Hne. rewrite Hne, Hparse. reflexivity.
Qed.

Lemma saveMessages_accepted (now : Z) (msgs : list IMessage.t)
    (sid : option string) (ls : LocalStorage) :
  let text :=
    JSON_stringify (dataToJson (dataToStore toISOString now msgs sid)) in
  is_Some (setItem STORAGE_KEY text ls) ->
  getItem STORAGE_KEY (saveMessages JSON_stringify toISOString now msgs sid ls)
  = Some text.
Proof.
  intros text [ls' Hset]. unfold saveMessages. fold text. rewrite Hset.
  by eapply getItem_setItem.
Qed.
End PersistenceProperties.

(** C9: [saveMessages] writes a snapshot that holds the last
    [min (length msgs) 100] messages of its input, and when the write is
    accepted and the host reads the text back as written, a load at any
    later time returns either nothing or that snapshot, with at most 100
    messages. *)
Theorem saveMessages_keeps_last_100 (JSON_stringify : json -> string)
    (JSON_parse : string -> option json) (toISOString : Z -> string)
    (newDate : option json -> Outcome (option Z))
    (sevenDaysBefore : Z -> Z) (now later : Z)
    (msgs : list IMessage.t) (sid : option string) (ls : LocalStorage) :
  let d := dataToStore toISOString now msgs sid in
  let text := JSON_stringify (dataToJson d) in
  let ls' := saveMessages JSON_stringify toISOString now msgs sid ls in
  is_Some (setItem STORAGE_KEY text ls) ->
  JSON_parse text = Some (dataToJson d) ->
  stored_messages d = drop (length msgs - 100) msgs /\
  length (stored_messages d) = Nat.min (length msgs) 100 /\
  stored_messages d `suffix_of` msgs /\
  getItem STORAGE_KEY ls' = Some text /\
  match (loadMessages JSON_parse newDate sevenDaysBefore later ls').1 with
  | None => True
  | Some v => v = dataToJson d /\ (messageCount v <= 100)%nat
  end.
Proof.
  intros d text ls' Hset Hparse.
  assert (Hlen : length (stored_messages d) = Nat.min (length msgs) 100).
  { simpl. rewrite sliceLast_length. unfold MAX_STORED_MESSAGES. lia. }
  split; [reflexivity|]. split; [exact Hlen|].
  split; [apply sliceLast_suffix|].
  assert (Hget : getItem STORAGE_KEY ls' = Some text)
    by exact (saveMessages_accepted JSON_stringify toISOString now msgs sid ls Hset).
  split; [exact Hget|].
  unfold loadMessages.
  destruct (decide (text = "")) as [Hempty | Hne].
  { unfold loadMessages_try. rewrite Hget, Hempty. simpl. exact I. }
  rewrite (loadMessages_try_stored JSON_parse newDate sevenDaysBefore later ls' text d Hget Hne Hparse).
  destruct (newDate _) as [t | e]; simpl; [|exact I].
  destruct (olderThan t _); simpl; [exact I|].
  split; [reflexivity|]. rewrite messageCount_dataToJson. lia.
Qed.

Lemma saveMessages_keeps_last_100_witness :
  let msgs := Samples.sampleMessages 101 in
  let d := dataToStore ReferenceHost.toISOString Samples.savedAt msgs None in
  let ls' := Samples.save Samples.savedAt msgs None Samples.emptyStorage in
  stored_messages d = drop 1 msgs /\
  length (stored_messages d) = 100%nat /\
  match (Samples.load (Samples.savedAt + 60000) ls').1 with
  | None => True
  | Some v => v = dataToJson d /\ (messageCount v <= 100)%nat
  end.
Proof.
  intros msgs d ls'.
  destruct (saveMessages_keeps_last_100 ReferenceHost.JSON_stringify
              ReferenceHost.JSON_parse ReferenceHost.toISOString
              ReferenceHost.newDate ReferenceHost.sevenDaysBefore Samples.savedAt (Samples.savedAt + 60000)
              msgs None Samples.emptyStorage)
    as (H1 & H2 & _ & _ & H3).
  - vm_compute. eexists. reflexivity.
  - vm_compute. reflexivity.
  - split; [exact H1|]. split; [exact H2 | exact H3].
Defined.

(** C8: when the write is accepted and the host reads back what it wrote
    (the JSON text and the ISO date; the empty text is not JSON for it),
    the snapshot written holds the session id that was passed and the
    last 100 of the messages that were passed (all of them when there are
    at most 100).  A load returns that
    snapshot, and leaves the storage as it is, when the save is not
    earlier than the instant the host's calendar gives for seven days
    before the load; when the save is earlier than that instant, the load
    returns nothing and removes the entry.  Where that instant is seven
    times twenty-four hours before the load (the zone's offset is the
    same on both days), the border is at exactly seven days after the
    save. *)
Theorem save_load_roundtrip (JSON_stringify : json -> string)
    (JSON_parse : string -> option json) (toISOString : Z -> string)
    (newDate : option json -> Outcome (option Z))
    (sevenDaysBefore : Z -> Z) (now later : Z)
    (msgs : list IMessage.t) (sid : option string) (ls : LocalStorage) :
  let d := dataToStore toISOString now msgs sid in
  let text := JSON_stringify (dataToJson d) in
  let ls' := saveMessages JSON_stringify toISOString now msgs sid ls in
  let loaded := loadMessages JSON_parse newDate sevenDaysBefore later ls' in
  is_Some (setItem STORAGE_KEY text ls) ->
  JSON_parse "" = None ->
  JSON_parse text = Some (dataToJson d) ->
  newDate (Some (JStr (toISOString now))) = Returned (Some now) ->
  dataToJson d
  = JObj ([("messages",
            JArr (map messageToJson (drop (length msgs - 100) msgs)));
           ("lastUpdated", JStr (toISOString now))]
          ++ match sid with
             | Some s => [("sessionId", JStr s)]
             | None => []
             end) /\
  stored_sessionId d = sid /\
  stored_messages d = drop (length msgs - 100) msgs /\
  ((length msgs <= 100)%nat -> stored_messages d = msgs) /\
  getItem STORAGE_KEY ls' = Some text /\
  (sevenDaysBefore later <= now -> loaded = (Some (dataToJson d), ls')) /\
  (now < sevenDaysBefore later ->
   loaded = (None, removeItem STORAGE_KEY ls') /\
   getItem STORAGE_KEY (removeItem STORAGE_KEY ls') = None) /\
  (sevenDaysBefore later = later - SEVEN_DAYS_MS ->
   (later - now <= SEVEN_DAYS_MS -> loaded = (Some (dataToJson d), ls')) /\
   (SEVEN_DAYS_MS < later - now ->
    loaded = (None, removeItem STORAGE_KEY ls'))).
Proof.
  intros d text ls' loaded Hset Hempty Hparse Hdate.
  split; [reflexivity|]. split; [reflexivity|]. split; [reflexivity|].
  split; [intros Hle; by apply sliceLast_short|].
  assert (Hget : getItem STORAGE_KEY ls' = Some text)
    by exact (saveMessages_accepted JSON_stringify toISOString now msgs sid ls Hset).
  split; [exact Hget|].
  assert (Hne : text <> "") by (intros Heq; rewrite Heq in Hparse; congruence).
  pose proof (loadMessages_try_stored JSON_parse newDate sevenDaysBefore later
                ls' text d Hget Hne Hparse) as Htry.
  simpl in Htry. rewrite Hdate in Htry. simpl in Htry.
  assert (Hfresh : sevenDaysBefore later <= now ->
                   loaded = (Some (dataToJson d), ls')).
  { intros Hle. unfold loaded, loadMessages. rewrite Htry.
    destruct (now <? sevenDaysBefore later) eqn:Hlt; [|reflexivity].
    apply Z.ltb_lt in Hlt. lia. }
  assert (Hstale : now < sevenDaysBefore later ->
                   loaded = (None, removeItem STORAGE_KEY ls')).
  { intros Hlt. unfold loaded, loadMessages. rewrite Htry.
    apply Z.ltb_lt in Hlt. by rewrite Hlt. }
  split; [exact Hfresh|].
  split; [intros Hlt; split; [by apply Hstale | apply getItem_removeItem]|].
  intros Hfixed. unfold SEVEN_DAYS_MS in *.
  split; intros H; [apply Hfresh | apply Hstale]; lia.
Qed.

Lemma save_load_roundtrip_witness :
  let msgs := Samples.sampleMessages 3 in
  let sid := Some "session_1767225600000" in
  let d := mkStoredChatData msgs "2026-01-01T00:00:00.000Z" sid in
  let ls' := Samples.save Samples.savedAt msgs sid Samples.emptyStorage in
  Samples.load (Samples.savedAt + SEVEN_DAYS_MS) ls' = (Some (dataToJson d), ls') /\
  Samples.load (Samples.savedAt + SEVEN_DAYS_MS + 1) ls'
  = (None, removeItem STORAGE_KEY ls') /\
  Samples.loadInNewYork 1773162000000
    (Samples.save 1772559000000 msgs sid Samples.emptyStorage)
  = (None,
     removeItem STORAGE_KEY
       (Samples.save 1772559000000 msgs sid Samples.emptyStorage)).
Proof.
  intros msgs sid d ls'.
  destruct (save_load_roundtrip ReferenceHost.JSON_stringify
              ReferenceHost.JSON_parse ReferenceHost.toISOString
              ReferenceHost.newDate ReferenceHost.sevenDaysBefore Samples.savedAt
              (Samples.savedAt + SEVEN_DAYS_MS) msgs sid Samples.emptyStorage)
    as (_ & _ & _ & _ & _ & _ & _ & Hfixed).
  - vm_compute. eexists. reflexivity.
  - vm_compute. reflexivity.
  - vm_compute. reflexivity.
  - vm_compute. reflexivity.
  - destruct (save_load_roundtrip ReferenceHost.JSON_stringify
                ReferenceHost.JSON_parse ReferenceHost.toISOString
                ReferenceHost.newDate ReferenceHost.sevenDaysBefore Samples.savedAt
                (Samples.savedAt + SEVEN_DAYS_MS + 1) msgs sid
                Samples.emptyStorage)
      as (_ & _ & _ & _ & _ & _ & _ & Hfixed').
    + vm_compute. eexists. reflexivity.
    + vm_compute. reflexivity.
    + vm_compute. reflexivity.
    + vm_compute. reflexivity.
    + destruct (save_load_roundtrip ReferenceHost.JSON_stringify
                  ReferenceHost.JSON_parse ReferenceHost.toISOString
                  ReferenceHost.newDate Samples.newYorkSevenDaysBefore
                  1772559000000 1773162000000 msgs sid Samples.emptyStorage)
        as (_ & _ & _ & _ & _ & _ & Hstale & _).
      * vm_compute. eexists. reflexivity.
      * vm_compute. reflexivity.
      * vm_compute. reflexivity.
      * vm_compute. reflexivity.
      * split; [apply Hfixed; [reflexivity | lia]|].
        split; [apply Hfixed'; [reflexivity | lia]|].
        apply Hstale. vm_compute. reflexivity.
Defined.

(** Saving 101 messages and loading one minute later returns a snapshot
    with 100 messages: the first message is gone. *)
Lemma save_load_drops_oldest :
  let msgs := Samples.sampleMessages 101 in
  let sid := Some "session_1767225600000" in
  let ls' := Samples.save Samples.savedAt msgs sid Samples.emptyStorage in
  exists v,
    (Samples.load (Samples.savedAt + 60000) ls').1 = Some v /\
    getField "messages" v = Some (Some (JArr (map messageToJson (drop 1 msgs)))) /\
    messageCount v = 100%nat /\
    v <> dataToJson (mkStoredChatData msgs "2026-01-01T00:00:00.000Z" sid).
Proof.
  intros msgs sid ls'. eexists.
  split; [vm_compute; reflexivity|].
  split; [vm_compute; reflexivity|].
  split; [vm_compute; reflexivity|].
  intros Heq. apply (f_equal messageCount) in Heq.
  vm_compute in Heq. discriminate Heq.
Qed.

(** In New York, a snapshot saved on 2026-03-03 at 17:30 UTC is discarded
    by a load on 2026-03-10 at 17:00 UTC, 6 days, 23 hours and 30 minutes
    later: the clocks went forward in between, and seven calendar days
    before the load is 18:00 UTC on 2026-03-03. *)
Example load_discards_across_clock_change :
  let saved := 1772559000000 in
  let loadedAt := 1773162000000 in
  let ls' :=
    Samples.save saved (Samples.sampleMessages 3) None Samples.emptyStorage in
  ReferenceHost.toISOString saved = "2026-03-03T17:30:00.000Z" /\
  ReferenceHost.toISOString loadedAt = "2026-03-10T17:00:00.000Z" /\
  ReferenceHost.toISOString (Samples.newYorkSevenDaysBefore loadedAt)
  = "2026-03-03T18:00:00.000Z" /\
  loadedAt - saved < SEVEN_DAYS_MS /\
  Samples.loadInNewYork loadedAt ls' = (None, removeItem STORAGE_KEY ls') /\
  is_Some (Samples.load loadedAt ls').1.
Proof.
  intros saved loadedAt ls'.
  split; [vm_compute; reflexivity|]. split; [vm_compute; reflexivity|].
  split; [vm_compute; reflexivity|]. split; [vm_compute; reflexivity|].
  split; [vm_compute; reflexivity|]. vm_compute. eexists. reflexivity.
Qed.

(** C10: [loadMessages] always returns: it answers nothing or the value
    the host has parsed from the entry, and leaves the storage as it is
    or with the entry removed.  With no entry under the storage key, or
    with the empty string as the entry, it answers nothing and leaves the
    storage alone (an empty entry stays where it is).  With an entry that
    is not empty and that the host cannot parse, the [try] block throws,
    and [loadMessages] answers nothing with the entry removed; the same
    holds for anything else the [try] block throws. *)
Theorem loadMessages_never_throws (JSON_parse : string -> option json)
    (newDate : option json -> Outcome (option Z))
    (sevenDaysBefore : Z -> Z) (now : Z)
    (ls : LocalStorage) :
  let loaded := loadMessages JSON_parse newDate sevenDaysBefore now ls in
  (loaded.2 = ls \/ loaded.2 = removeItem STORAGE_KEY ls) /\
  (forall v,
     loaded.1 = Some v ->
     loaded.2 = ls /\
     exists stored,
       getItem STORAGE_KEY ls = Some stored /\ JSON_parse stored = Some v) /\
  (getItem STORAGE_KEY ls = None \/ getItem STORAGE_KEY ls = Some "" ->
   loaded = (None, ls)) /\
  (forall stored,
     getItem STORAGE_KEY ls = Some stored ->
     stored <> "" ->
     JSON_parse stored = None ->
     (exists e,
        loadMessages_try JSON_parse newDate sevenDaysBefore now ls = Thrown e) /\
     loaded = (None, removeItem STORAGE_KEY ls) /\
     getItem STORAGE_KEY (removeItem STORAGE_KEY ls) = None) /\
  (forall e,
     loadMessages_try JSON_parse newDate sevenDaysBefore now ls = Thrown e ->
     loaded = (None, removeItem STORAGE_KEY ls)).
Proof.
  intros loaded. subst loaded.
  split; [|split; [|split; [|split]]].
  - unfold loadMessages.
    destruct (loadMessages_try JSON_parse newDate sevenDaysBefore now ls)
      as [[r ls1] | e] eqn:Htry; simpl; [|by right].
    unfold loadMessages_try in Htry.
    destruct (getItem STORAGE_KEY ls) as [stored|]; [|left; congruence].
    destruct (String.eqb stored ""); [left; congruence|].
    destruct (JSON_parse stored) as [data|]; [|discriminate].
    destruct (getField "lastUpdated" data) as [field|]; [|discriminate].
    destruct (newDate field) as [lastUpdatedMs | e]; [|discriminate].
    destruct (olderThan lastUpdatedMs (sevenDaysBefore now));
      injection Htry as _ <-; [by right | by left].
  - intros v. unfold loadMessages, loadMessages_try.
    destruct (getItem STORAGE_KEY ls) as [stored|]; [|simpl; discriminate].
    destruct (String.eqb stored ""); [simpl; discriminate|].
    destruct (JSON_parse stored) as [data|] eqn:Hparse; [|simpl; discriminate].
    destruct (getField "lastUpdated" data) as [field|]; [|simpl; discriminate].
    destruct (newDate field) as [lastUpdatedMs | e]; [|simpl; discriminate].
    destruct (olderThan lastUpdatedMs (sevenDaysBefore now)); simpl;
      [discriminate|].
    intros [= <-]. split; [reflexivity|]. by exists stored.
  - intros [Hnone | Hempty]; unfold loadMessages, loadMessages_try.
    + by rewrite Hnone.
    + by rewrite Hempty.
  - intros stored Hget Hne Hparse.
    apply String.eqb_neq in Hne.
    unfold loadMessages, loadMessages_try. rewrite Hget, Hne, Hparse.
    split; [eauto|]. split; [reflexivity | apply getItem_removeItem].
  - intros e Hthrow. unfold loadMessages. by rewrite Hthrow.
Qed.

Lemma loadMessages_never_throws_witness :
  let corrupted := mkLocalStorage {[ STORAGE_KEY := "{not json" ]} 5000000 in
  Samples.load Samples.savedAt Samples.emptyStorage = (None, Samples.emptyStorage) /\
  Samples.load Samples.savedAt Samples.emptyEntry = (None, Samples.emptyEntry) /\
  Samples.load Samples.savedAt corrupted = (None, removeItem STORAGE_KEY corrupted) /\
  getItem STORAGE_KEY (removeItem STORAGE_KEY corrupted) = None.
Proof.
  intros corrupted.
  destruct (loadMessages_never_throws ReferenceHost.JSON_parse
              ReferenceHost.newDate ReferenceHost.sevenDaysBefore
              Samples.savedAt Samples.emptyStorage)
    as (_ & _ & Habsent & _ & _).
  destruct (loadMessages_never_throws ReferenceHost.JSON_parse
              ReferenceHost.newDate ReferenceHost.sevenDaysBefore
              Samples.savedAt Samples.emptyEntry)
    as (_ & _ & Hempty & _ & _).
  destruct (loadMessages_never_throws ReferenceHost.JSON_parse
              ReferenceHost.newDate ReferenceHost.sevenDaysBefore
              Samples.savedAt corrupted)
    as (_ & _ & _ & Hbad & _).
  split; [apply Habsent; left; reflexivity|].
  split; [apply Hempty; right; reflexivity|].
  destruct (Hbad "{not json") as (_ & Hload & Hgone).
  - vm_compute. reflexivity.
  - discriminate.
  - vm_compute. reflexivity.
  - split; [exact Hload | exact Hgone].
Defined.

(** The empty string is an entry the host cannot parse, and a load
    answers nothing for it, but the entry is not cleared: it is still
    there after the load. *)
Lemma empty_entry_not_cleared :
  getItem STORAGE_KEY Samples.emptyEntry = Some "" /\
  ReferenceHost.JSON_parse "" = None /\
  Samples.load Samples.savedAt Samples.emptyEntry = (None, Samples.emptyEntry) /\
  getItem STORAGE_KEY (Samples.load Samples.savedAt Samples.emptyEntry).2
  = Some "" /\
  (Samples.load Samples.savedAt Samples.emptyEntry).2
  <> removeItem STORAGE_KEY Samples.emptyEntry.
Proof.
  split; [reflexivity|]. split; [vm_compute; reflexivity|].
  split; [vm_compute; reflexivity|]. split; [vm_compute; reflexivity|].
  intros Heq. apply (f_equal (getItem STORAGE_KEY)) in Heq.
  rewrite getItem_removeItem in Heq. vm_compute in Heq. discriminate Heq.
Qed.

(** * Further properties *)

(** ** The retrying executor, for any operation *)

Section RetryTraces.
Context {W T : Type}.
Variable fn : W -> Outcome T * W.

Lemma retryLoop_trace (maxRetries : Z) (fuel : nat) :
  forall attempt lastError w r w' tr,
    attempt <= maxRetries ->
    retryLoop fn fuel maxRetries attempt lastError w = Some (r, w', tr) ->
    exists k,
      attempt <= k <= maxRetries /\
      map stepOf tr = backoffScheduleFrom attempt k /\
      last tr = Some (EvCall k (thrownOf r)) /\
      Z.of_nat (attempts tr) = k - attempt + 1 /\
      (forall e, r = Thrown e -> k = maxRetries) /\
      length (List.filter isSuccess tr)
      = match r with Returned _ => 1%nat | Thrown _ => O end.
Proof.
  induction fuel as [|fuel IH]; intros attempt lastError w r w' tr Hle Hrun;
    [discriminate|].
  simpl in Hrun. destruct (attempt <=? maxRetries) eqn:Hleb; [|lia].
  destruct (fn w) as [[v | e] w1].
  - injection Hrun as <- <- <-. exists attempt.
    rewrite backoffScheduleFrom_last.
    repeat split; try reflexivity; try lia.
    + unfold attempts; simpl; lia.
    + intros e He. discriminate He.
  - destruct (attempt =? maxRetries) eqn:Heq.
    + apply Z.eqb_eq in Heq. subst attempt.
      injection Hrun as <- <- <-. exists maxRetries.
      rewrite backoffScheduleFrom_last.
      repeat split; try reflexivity; try lia.
      unfold attempts; simpl; lia.
    + apply Z.eqb_neq in Heq.
      destruct (retryLoop fn fuel maxRetries (attempt + 1) e w1)
        as [[[r2 w2] tr2]|] eqn:Hrec; [|discriminate].
      injection Hrun as <- <- <-.
      destruct (IH (attempt + 1) e w1 r2 w2 tr2 ltac:(lia) Hrec)
        as (k & Hk & Hsched & Hlast & Hcount & Hthrown & Hsucc).
      exists k. split; [lia|].
      split.
      { simpl. rewrite Hsched. symmetry. apply backoffScheduleFrom_step. lia. }
      split.
      { destruct tr2 as [|ev tr2']; [discriminate Hlast|].
        rewrite !last_cons_cons. exact Hlast. }
      split; [unfold attempts in *; simpl; lia|].
      split; [exact Hthrown | exact Hsucc].
Qed.

Lemma retryLoop_recovers (maxRetries : Z) (errs : list Exn) :
  forall fuel attempt lastError w wk w' v,
    failsThen fn errs w wk ->
    fn wk = (Returned v, w') ->
    attempt + Z.of_nat (length errs) <= maxRetries ->
    (length errs < fuel)%nat ->
    retryLoop fn fuel maxRetries attempt lastError w
    = Some (Returned v, w', recoveryTrace attempt errs).
Proof.
  induction errs as [|e errs IH];
    intros fuel attempt lastError w wk w' v Hfails Hret Hle Hfuel;
    simpl in *.
  - subst wk. destruct fuel as [|fuel]; [lia|]. simpl.
    destruct (attempt <=? maxRetries) eqn:Hleb; [|lia].
    rewrite Hret. reflexivity.
  - destruct Hfails as (w1 & Hfn & Hrest).
    destruct fuel as [|fuel]; [lia|]. simpl.
    destruct (attempt <=? maxRetries) eqn:Hleb; [|lia].
    rewrite Hfn.
    destruct (attempt =? maxRetries) eqn:Heq; [apply Z.eqb_eq in Heq; lia|].
    rewrite (IH fuel (attempt + 1) e w1 wk w' v Hrest Hret); [reflexivity | lia | lia].
Qed.
End RetryTraces.

(** X1: whatever the operation does, [retryWithBackoff] with a budget of
    [maxRetries >= 0] comes to an end after some attempt [k] with
    [k <= maxRetries]: it has made [k + 1] calls, each in the world the
    call before it left, with the backoff waits of the schedule up to [k]
    between them; every call before the last one threw; its outcome and
    the world it leaves are those of the last call; when it throws, [k]
    is [maxRetries]. *)
Theorem retryWithBackoff_bounded {W T : Type} (fn : W -> Outcome T * W)
    (maxRetries : Z) (w : W) :
  0 <= maxRetries ->
  exists r w' tr k,
    retryWithBackoff fn maxRetries w = Some (r, w', tr) /\
    0 <= k <= maxRetries /\
    fn (worldAfter fn (Z.to_nat k) w) = (r, w') /\
    (forall j, (j < Z.to_nat k)%nat ->
       exists e, (fn (worldAfter fn j w)).1 = Thrown e) /\
    List.filter isCall tr = callsOf fn 0 (Z.to_nat k + 1) w /\
    map stepOf tr = backoffSchedule k /\
    Z.of_nat (attempts tr) = k + 1 /\
    last tr = Some (EvCall k (thrownOf r)) /\
    (forall e, r = Thrown e -> k = maxRetries) /\
    length (List.filter isSuccess tr)
    = match r with Returned _ => 1%nat | Thrown _ => O end.
Proof.
  intros Hpos.
  destruct (retryWithBackoff_total fn maxRetries w) as [[[r w'] tr] Hrun].
  exists r, w', tr.
  destruct (retryLoop_trace fn maxRetries _ 0 Undefined w r w' tr Hpos Hrun)
    as (k & Hk & Hsched & Hlast & Hcount & Hthrown & Hsucc).
  destruct (retryLoop_calls fn maxRetries _ 0 Undefined w r w' tr Hpos Hrun)
    as (n & _ & Hworld & Hearlier & Hcalls & _ & _).
  assert (Hn : Z.to_nat k = n).
  { unfold attempts in Hcount. rewrite Hcalls, callsOf_length in Hcount. lia. }
  exists k. unfold backoffSchedule. rewrite Hn.
  replace (n + 1)%nat with (S n) by lia.
  repeat split; try assumption; lia.
Qed.

Lemma retryWithBackoff_bounded_witness :
  exists r w' tr k,
    retryWithBackoff Samples.flaky 3 O = Some (r, w', tr) /\
    0 <= k <= 3 /\
    Samples.flaky (worldAfter Samples.flaky (Z.to_nat k) O) = (r, w') /\
    map stepOf tr = backoffSchedule k /\
    Z.of_nat (attempts tr) = k + 1 /\
    last tr = Some (EvCall k (thrownOf r)) /\
    (forall e, r = Thrown e -> k = 3).
Proof.
  destruct (retryWithBackoff_bounded Samples.flaky 3 O)
    as (r & w' & tr & k & Hrun & Hk & Hworld & _ & _ & Hsched & Hcount
        & Hlast & Hthrown & _); [lia|].
  exists r, w', tr, k.
  split; [exact Hrun|]. split; [exact Hk|]. split; [exact Hworld|].
  split; [exact Hsched|]. split; [exact Hcount|].
  split; [exact Hlast | exact Hthrown].
Defined.

(** X2: with a negative budget the loop body never runs: the operation is
    not called at all and what is thrown is [undefined]. *)
Theorem retryWithBackoff_negative_budget {W T : Type}
    (fn : W -> Outcome T * W) (maxRetries : Z) (w : W) :
  maxRetries < 0 ->
  retryWithBackoff fn maxRetries w = Some (Thrown Undefined, w, []).
Proof.
  intros Hneg. unfold retryWithBackoff.
  replace (Z.to_nat (maxRetries + 1)) with O by lia. simpl.
  destruct (0 <=? maxRetries) eqn:Hle; [lia | reflexivity].
Qed.

Lemma retryWithBackoff_negative_budget_witness :
  retryWithBackoff Samples.failing (-1) O = Some (Thrown Undefined, O, []).
Proof. apply (retryWithBackoff_negative_budget Samples.failing (-1) O). lia. Defined.

(** X3: when the operation throws on its first calls and then returns,
    and the budget covers the failures, [retryWithBackoff] returns that
    value; its trace is the failed attempts, each followed by its wait,
    and then the attempt that returned. *)
Theorem retryWithBackoff_recovers {W T : Type} (fn : W -> Outcome T * W)
    (maxRetries : Z) (errs : list Exn) (w wk w' : W) (v : T) :
  failsThen fn errs w wk ->
  fn wk = (Returned v, w') ->
  Z.of_nat (length errs) <= maxRetries ->
  retryWithBackoff fn maxRetries w
  = Some (Returned v, w', recoveryTrace 0 errs).
Proof.
  intros Hfails Hret Hle. unfold retryWithBackoff.
  apply (retryLoop_recovers fn maxRetries errs _ 0 Undefined w wk w' v);
    try assumption; lia.
Qed.

Lemma retryWithBackoff_recovers_witness :
  retryWithBackoff Samples.flaky 3 O
  = Some (Returned "done", 3%nat,
          [EvCall 0 (Some (plainError "failure 0")); EvSleep 1000;
           EvCall 1 (Some (plainError "failure 1")); EvSleep 2000;
           EvCall 2 None]).
Proof.
  apply (retryWithBackoff_recovers Samples.flaky 3
           [plainError "failure 0"; plainError "failure 1"] O 2%nat 3%nat "done").
  - simpl. exists 1%nat. split; [reflexivity|].
    exists 2%nat. split; reflexivity.
  - reflexivity.
  - simpl. lia.
Defined.

(** ** The completion client *)

Lemma rethrow_shape (e : Exn) :
  exists name message, rethrow e = Error name message /\ name <> "AbortError".
Proof.
  destruct e as [|name message]; simpl.
  - eexists _, _. split; [reflexivity | discriminate].
  - destruct (String.eqb name "AbortError") eqn:Hname.
    + eexists _, _. split; [reflexivity | discriminate].
    + exists name, message. split; [reflexivity|].
      by apply String.eqb_neq.
Qed.

(** X4: what one exchange throws is always an [Error] object, and never
    one named [AbortError]: a request that was aborted by the timeout
    surfaces with the timeout message, and a rejection with a value that
    is not an [Error] surfaces as an unknown error. *)
Theorem handleFetchResult_errors (trim enhance : string -> string)
    (missingField : Exn) :
  (forall message,
     handleFetchResult trim enhance missingField
       (FetchReject (Error "AbortError" message))
     = Thrown (plainError
         "Request timeout - Grok API took too long to respond")) /\
  handleFetchResult trim enhance missingField (FetchReject Undefined)
  = Thrown (plainError "Unknown error occurred while calling Grok API") /\
  (forall r e,
     handleFetchResult trim enhance missingField r = Thrown e ->
     exists name message, e = Error name message /\ name <> "AbortError").
Proof.
  split; [reflexivity|]. split; [reflexivity|].
  intros r e Hthrown. unfold handleFetchResult, settle in Hthrown.
  destruct (match r with FetchReject _ => _ | _ => _ end) as [v | e0];
    [discriminate|].
  injection Hthrown as <-. apply rethrow_shape.
Qed.

Lemma handleFetchResult_errors_witness :
  exists name message,
    Error "TypeError" "Failed to fetch" = Error name message
    /\ name <> "AbortError".
Proof.
  destruct (handleFetchResult_errors (fun s => s) (fun s => s)
              Samples.typeError) as (_ & _ & Hshape).
  apply (Hshape (FetchReject (Error "TypeError" "Failed to fetch"))).
  reflexivity.
Defined.

(** X5: in live mode with a key configured and a budget that is not
    negative, a first exchange that is answered with a 2xx status and a
    completion whose first choice has content makes [sendMessage] return
    that content, trimmed and reformatted, after a single attempt and
    without any wait. *)
Theorem sendMessage_first_success {W : Type}
    (fetch : GrokServiceConfig -> GrokRequest -> W -> FetchResult * W)
    (getSystemPrompt getMockResponse trim enhance : string -> string)
    (missingField : Exn) (cfg : GrokServiceConfig) (message : string)
    (history : list GrokMessage) (w w1 : W) (status : Z)
    (statusText c : string) (others : list (option string)) :
  useMockResponses cfg = false ->
  apiKey cfg <> "" ->
  apiKey cfg <> "REMOVED" ->
  0 <= maxRetries cfg ->
  fetch cfg (requestBody getSystemPrompt cfg message history) w
  = (FetchResponse status statusText (BodyCompletion (Some c :: others)), w1) ->
  ok status = true ->
  c <> "" ->
  sendMessage fetch getSystemPrompt getMockResponse trim enhance missingField
    cfg message history w
  = Some (Returned (enhance (trim c)), w1, [EvCall 0 None]).
Proof.
  intros Hmock Hkey1 Hkey2 Hpos Hfetch Hok Hc.
  unfold sendMessage. rewrite Hmock.
  apply String.eqb_neq in Hkey1, Hkey2. rewrite Hkey1, Hkey2. simpl.
  apply retryWithBackoff_first_success; [exact Hpos|].
  unfold attempt. rewrite Hfetch. unfold handleFetchResult. rewrite Hok.
  simpl. destruct c as [|a c']; [congruence | reflexivity].
Qed.

Lemma sendMessage_first_success_witness :
  sendMessage Samples.fetch200 Samples.systemPrompt Samples.mockResponse
    (fun s => s) (fun s => s) Samples.typeError Samples.liveConfig "hello" [] tt
  = Some (Returned "Hello there", tt, [EvCall 0 None]).
Proof.
  apply (sendMessage_first_success Samples.fetch200 Samples.systemPrompt
           Samples.mockResponse (fun s => s) (fun s => s) Samples.typeError
           Samples.liveConfig "hello" [] tt tt 200 "OK" "Hello there" []).
  - reflexivity.
  - discriminate.
  - discriminate.
  - simpl. lia.
  - reflexivity.
  - reflexivity.
  - discriminate.
Defined.

(** X6: the configuration [createGrokService] builds is in mock mode
    whenever the environment has no key (unset, empty or the placeholder
    [REMOVED]), and then [sendMessage] answers with the mock response and
    [healthCheck] with [true] without any exchange; and for every
    environment the not-configured error of [sendMessage] is out of
    reach: the call is either the mock answer or the retry loop. *)
Theorem createGrokService_key_or_mock {W : Type} (parseInt : string -> Z)
    (fetch : GrokServiceConfig -> GrokRequest -> W -> FetchResult * W)
    (getSystemPrompt getMockResponse trim enhance : string -> string)
    (missingField : Exn) (env : Env) (message : string)
    (history : list GrokMessage) (w : W) :
  let cfg := createGrokService parseInt env in
  let send :=
    sendMessage fetch getSystemPrompt getMockResponse trim enhance
      missingField cfg in
  (unset (REACT_APP_GROK_API_KEY env) = true
   \/ REACT_APP_GROK_API_KEY env = Some "REMOVED" ->
   useMockResponses cfg = true /\
   send message history w = Some (Returned (getMockResponse message), w, []) /\
   healthCheck fetch getSystemPrompt getMockResponse trim enhance missingField
     cfg w = Some (true, w, [])) /\
  send message history w
  = if useMockResponses cfg
    then Some (Returned (getMockResponse message), w, [])
    else retryWithBackoff
           (attempt fetch trim enhance missingField cfg
              (requestBody getSystemPrompt cfg message history))
           (maxRetries cfg) w.
Proof.
  intros cfg send. split.
  - intros Hkey.
    assert (Hmock : useMockResponses cfg = true).
    { subst cfg. simpl. destruct Hkey as [-> | ->].
      - by rewrite orb_true_r.
      - by rewrite orb_true_r. }
    split; [exact Hmock|].
    subst send. unfold healthCheck, sendMessage. rewrite Hmock.
    split; reflexivity.
  - subst send. unfold sendMessage.
    destruct (useMockResponses cfg) eqn:Hmock; [reflexivity|].
    subst cfg. simpl in *.
    destruct (REACT_APP_GROK_API_KEY env) as [key|]; simpl in *;
      [|by rewrite orb_true_r in Hmock].
    destruct (String.eqb key "") eqn:Hempty; simpl in *;
      [by rewrite orb_true_r in Hmock|].
    rewrite Hempty.
    destruct (String.eqb key "REMOVED") eqn:Hremoved; [|reflexivity].
    apply String.eqb_eq in Hremoved. subst key.
    assert (Hsame : bool_decide (Some "REMOVED" = Some "REMOVED") = true)
      by (apply bool_decide_eq_true_2; reflexivity).
    rewrite Hsame in Hmock. by rewrite orb_true_r in Hmock.
Qed.

Lemma createGrokService_key_or_mock_witness :
  let cfg := createGrokService Samples.parseDecimal Samples.envWithoutKey in
  useMockResponses cfg = true /\
  maxRetries cfg = 5 /\
  sendMessage Samples.fetch401 Samples.systemPrompt Samples.mockResponse
    (fun s => s) (fun s => s) Samples.typeError cfg "hello" [] tt
  = Some (Returned (Samples.mockResponse "hello"), tt, []).
Proof.
  intros cfg.
  destruct (createGrokService_key_or_mock Samples.parseDecimal Samples.fetch401
              Samples.systemPrompt Samples.mockResponse (fun s => s)
              (fun s => s) Samples.typeError Samples.envWithoutKey "hello" []
              tt) as (Hmock & _).
  destruct Hmock as (H1 & H2 & _); [left; reflexivity|].
  split; [exact H1|]. split; [reflexivity | exact H2].
Defined.

(** ** The session state and the dispatcher *)

Lemma set_messages_same (s : ChatState) : set_messages (messages s) s = s.
Proof. by destruct s. Qed.

Lemma updateFirst_length (target : string) (u : IMessage.partial)
    (l : list IMessage.t) :
  length (updateFirst target u l) = length l.
Proof.
  induction l as [|m l IH]; simpl; [reflexivity|].
  destruct (String.eqb (IMessage.id m) target); simpl; congruence.
Qed.

Lemma updateFirst_absent (target : string) (u : IMessage.partial)
    (l : list IMessage.t) :
  Forall (fun m => IMessage.id m <> target) l -> updateFirst target u l = l.
Proof.
  induction 1 as [|m l Hm Hl IH]; simpl; [reflexivity|].
  apply String.eqb_neq in Hm. rewrite Hm. congruence.
Qed.

Lemma updateFirst_first (target : string) (u : IMessage.partial)
    (l1 l2 : list IMessage.t) (m : IMessage.t) :
  Forall (fun m' => IMessage.id m' <> target) l1 ->
  IMessage.id m = target ->
  updateFirst target u (l1 ++ m :: l2) = l1 ++ IMessage.spread m u :: l2.
Proof.
  intros Hl1 Hm. induction Hl1 as [|m' l1 Hm' Hl1 IH]; simpl.
  - apply String.eqb_eq in Hm. by rewrite Hm.
  - apply String.eqb_neq in Hm'. rewrite Hm'. congruence.
Qed.

(** X7: [updateMessage] keeps the number of messages; with an id no
    message has, it leaves the state as it is; otherwise it changes the
    first message with that id, and only that one, even when later
    messages have the same id. *)
Theorem updateMessage_first_match (target : string)
    (updates : IMessage.partial) (s : ChatState) :
  length (messages (updateMessage target updates s)) = length (messages s) /\
  (Forall (fun m => IMessage.id m <> target) (messages s) ->
   updateMessage target updates s = s) /\
  (forall l1 m l2,
     messages s = l1 ++ m :: l2 ->
     Forall (fun m' => IMessage.id m' <> target) l1 ->
     IMessage.id m = target ->
     messages (updateMessage target updates s)
     = l1 ++ IMessage.spread m updates :: l2).
Proof.
  split; [apply updateFirst_length|]. split.
  - intros Habsent. unfold updateMessage.
    rewrite updateFirst_absent by exact Habsent. apply set_messages_same.
  - intros l1 m l2 Hs Hl1 Hm. unfold updateMessage. simpl.
    rewrite Hs. by apply updateFirst_first.
Qed.

Lemma updateMessage_first_match_witness :
  let twice := IMessage.mk "7" "first" user "t" None in
  let again := IMessage.mk "7" "second" user "t" None in
  let s := set_messages [twice; again] initialState in
  let u := IMessage.mkPartial None (Some "edited") None None None in
  updateMessage "8" u s = s /\
  messages (updateMessage "7" u s)
  = [IMessage.mk "7" "edited" user "t" None; again].
Proof.
  intros twice again s u.
  destruct (updateMessage_first_match "8" u s) as (_ & Habsent & _).
  destruct (updateMessage_first_match "7" u s) as (_ & _ & Hfirst).
  split.
  - apply Habsent. repeat constructor; discriminate.
  - apply (Hfirst [] twice [again]); [reflexivity | constructor | reflexivity].
Defined.

Lemma removeMessage_absent (payload : string) (s : ChatState) :
  Forall (fun m => IMessage.id m <> payload) (messages s) ->
  removeMessage payload s = s.
Proof.
  intros Habsent. unfold removeMessage.
  assert (Hsame :
    List.filter (fun m => negb (String.eqb (IMessage.id m) payload))
      (messages s) = messages s).
  { induction Habsent as [|m l Hm Hl IH]; [reflexivity|]. simpl.
    apply String.eqb_neq in Hm. rewrite Hm. simpl. by rewrite IH. }
  rewrite Hsame. apply set_messages_same.
Qed.

(** X8: [removeMessage] keeps, in their order, exactly the messages with
    another id, so all the messages with that id are gone; removing the
    same id again, or updating it afterwards, changes nothing. *)
Theorem removeMessage_all_matches (payload : string)
    (updates : IMessage.partial) (s : ChatState) :
  messages (removeMessage payload s)
  = List.filter (fun m => negb (String.eqb (IMessage.id m) payload))
      (messages s) /\
  Forall (fun m => IMessage.id m <> payload) (messages (removeMessage payload s)) /\
  removeMessage payload (removeMessage payload s) = removeMessage payload s /\
  updateMessage payload updates (removeMessage payload s)
  = removeMessage payload s.
Proof.
  assert (Hgone :
    Forall (fun m => IMessage.id m <> payload)
      (messages (removeMessage payload s))).
  { unfold removeMessage. simpl. apply List.Forall_forall.
    intros m Hin. apply List.filter_In in Hin as [_ Hid].
    apply negb_true_iff in Hid. by apply String.eqb_neq. }
  split; [reflexivity|]. split; [exact Hgone|]. split.
  - by apply removeMessage_absent.
  - unfold updateMessage. rewrite updateFirst_absent by exact Hgone.
    apply set_messages_same.
Qed.

(** X9: when a call in flight succeeds, the response is appended to the
    messages as an assistant message, the error and the loading flags
    are cleared, the queue is untouched, the call leaves the list of
    calls in flight, and a timer for the next invocation is set exactly
    when the queue is not empty. *)
Theorem drain_step_success (st : Store) (i : nat) (call : PendingSend)
    (responseText newId now : string) :
  inFlight st !! i = Some call ->
  let st2 := sendSettles i (Returned responseText) newId now st in
  messages (chat st2)
  = messages (chat st) ++ [IMessage.mk newId responseText assistant now None] /\
  error (chat st2) = None /\
  isLoading (chat st2) = false /\
  isTyping (chat st2) = false /\
  messageQueue (chat st2) = messageQueue (chat st) /\
  inFlight st2 = delete i (inFlight st) /\
  isProcessingQueue (chat st2) = false /\
  timers st2
  = match messageQueue (chat st) with
    | [] => timers st
    | _ :: _ => S (timers st)
    end.
Proof.
  intros Hcall st2. subst st2. unfold sendSettles. rewrite Hcall.
  destruct st as [c fl t p].
  destruct c as [ms ld er ci ty sid q pq cs rc]; simpl in *.
  destruct q as [|following rest]; simpl; repeat split.
Qed.

Lemma drain_step_success_witness :
  let st := processMessageQueue Samples.twoQueued in
  let st2 := sendSettles 0 (Returned "answer") "id" "now" st in
  messages (chat st2) = [IMessage.mk "id" "answer" assistant "now" None] /\
  messageQueue (chat st2) = ["second"] /\
  timers st2 = 1%nat.
Proof.
  intros st st2.
  destruct (drain_step_success st O (mkPendingSend "first" []) "answer" "id"
              "now" eq_refl) as (H1 & _ & _ & _ & H2 & _ & _ & H3).
  split; [exact H1|]. split; [exact H2 | exact H3].
Defined.

(** X10: [handleSend] does nothing when the text is empty, when
    [isLoading] is set or when the connection is [disconnected].
    Otherwise the user message is appended to the messages at once, the
    error is cleared, and the text is not lost: it is in the queue or in
    a call in flight. *)
Theorem handleSend_accepted (messageText newId now : string) (st : Store) :
  (accepted messageText (chat st) = false ->
   handleSend messageText newId now st = st) /\
  (accepted messageText (chat st) = true ->
   let st' := handleSend messageText newId now st in
   messages (chat st')
   = messages (chat st) ++ [IMessage.mk newId messageText user now None] /\
   error (chat st') = None /\
   (In messageText (messageQueue (chat st'))
    \/ In messageText (map sentMessage (inFlight st')))).
Proof.
  unfold accepted, handleSend. split.
  - intros Hguard. by rewrite Hguard.
  - intros Hguard. rewrite Hguard.
    destruct st as [c fl t p].
    destruct c as [ms ld er ci ty sid q pq cs rc]; simpl in *.
    destruct pq; simpl.
    + split; [reflexivity|]. split; [reflexivity|].
      left. apply List.in_or_app. right. by left.
    + unfold processMessageQueue. simpl.
      destruct q as [|m q']; simpl.
      * split; [reflexivity|]. split; [reflexivity|].
        right. rewrite List.map_app. apply List.in_or_app. right. by left.
      * split; [reflexivity|]. split; [reflexivity|].
        left. apply List.in_or_app. right. by left.
Qed.

Lemma handleSend_accepted_witness :
  let st' := handleSend "hello" "id" "now" initialStore in
  handleSend "" "id" "now" initialStore = initialStore /\
  messages (chat st') = [IMessage.mk "id" "hello" user "now" None] /\
  (In "hello" (messageQueue (chat st'))
   \/ In "hello" (map sentMessage (inFlight st'))).
Proof.
  intros st'.
  destruct (handleSend_accepted "" "id" "now" initialStore) as (Hno & _).
  destruct (handleSend_accepted "hello" "id" "now" initialStore) as (_ & Hyes).
  split; [apply Hno; reflexivity|].
  destruct (Hyes eq_refl) as (H1 & _ & H2).
  split; [exact H1 | exact H2].
Defined.

Lemma conversationHistory_snoc (l : list IMessage.t) (m : IMessage.t) :
  IMessage.loading m = false ->
  exists earlier,
    conversationHistory (l ++ [m]) = earlier ++ [toGrokMessage m].
Proof.
  intros Hm. unfold conversationHistory, sliceLast.
  rewrite length_app. simpl.
  rewrite drop_app_le by lia.
  rewrite List.filter_app, List.map_app. simpl. rewrite Hm. simpl.
  eexists. reflexivity.
Qed.

(** X11: a submission that starts a drain at once (nothing queued, no
    drain marked as running) is sent with a history that already ends
    with the submitted text, because the user message is appended before
    the history is read: the message list of the request ends with the
    same user message twice. *)
Theorem submission_sent_twice (messageText newId now : string) (st : Store)
    (systemPrompt : string) :
  accepted messageText (chat st) = true ->
  isProcessingQueue (chat st) = false ->
  messageQueue (chat st) = [] ->
  exists call earlier,
    inFlight (handleSend messageText newId now st) = inFlight st ++ [call] /\
    sentMessage call = messageText /\
    buildMessages systemPrompt (sentMessage call) (sentHistory call)
    = earlier ++ [mkGrokMessage role_user messageText;
                  mkGrokMessage role_user messageText].
Proof.
  intros Hguard Hidle Hq.
  unfold handleSend. unfold accepted in Hguard. rewrite Hguard.
  destruct st as [c fl t p].
  destruct c as [ms ld er ci ty sid q pq cs rc]; simpl in *. subst pq q.
  simpl. unfold processMessageQueue. simpl.
  destruct (conversationHistory_snoc ms
              (IMessage.mk newId messageText user now None) eq_refl)
    as [earlier Hhist].
  eexists _, (mkGrokMessage role_system systemPrompt :: earlier).
  split; [reflexivity|]. split; [reflexivity|].
  simpl. unfold buildMessages. rewrite Hhist.
  simpl. rewrite <- List.app_assoc. reflexivity.
Qed.

Lemma submission_sent_twice_witness :
  exists call earlier,
    inFlight (handleSend "hello" "id" "now" initialStore) = [] ++ [call] /\
    sentMessage call = "hello" /\
    buildMessages "system" (sentMessage call) (sentHistory call)
    = earlier ++ [mkGrokMessage role_user "hello";
                  mkGrokMessage role_user "hello"].
Proof.
  apply (submission_sent_twice "hello" "id" "now" initialStore "system");
    reflexivity.
Defined.

(** Events that keep or extend the message history, one step. *)
Lemma keepsHistory_step (st : Store) (ev : Event) :
  keepsHistory ev = true ->
  messages (chat st) `prefix_of` messages (chat (step st ev)).
Proof.
  intros Hev. destruct st as [c fl t p].
  destruct c as [ms ld er ci ty sid q pq cs rc].
  destruct ev as [a | text newId now | | i r newId now | | | healthy nowMs];
    simpl.
  - destruct a; simpl in *; try discriminate; try reflexivity.
    + by eexists.
    + unfold setConnectionStatus. destruct (decide _); reflexivity.
  - unfold handleSend. simpl.
    destruct (negb (String.eqb text "") && negb ld
              && negb (bool_decide (cs = disconnected))); [|reflexivity].
    destruct pq; simpl; [by eexists|].
    unfold processMessageQueue. simpl.
    destruct q; simpl; by eexists.
  - unfold processMessageQueue. simpl. destruct q; reflexivity.
  - unfold sendSettles. simpl. destruct (fl !! i); [|reflexivity].
    destruct r; simpl; destruct q; simpl; try reflexivity; by eexists.
  - unfold timerFires. simpl. destruct t; [reflexivity|].
    unfold processMessageQueue. simpl. destruct q; reflexivity.
  - reflexivity.
  - unfold probeSettles. simpl. destruct p; reflexivity.
Qed.

(** X12: apart from the three actions that edit the history
    ([clearMessages], [updateMessage], [removeMessage]), nothing the
    store does removes, reorders or changes a message: the messages
    before a run are a prefix of the messages after it. *)
Theorem messages_append_only (st : Store) (evs : list Event) :
  forallb keepsHistory evs = true ->
  messages (chat st) `prefix_of` messages (chat (run st evs)).
Proof.
  revert st. induction evs as [|ev evs IH]; intros st Hevs; simpl;
    [reflexivity|].
  simpl in Hevs. apply andb_prop in Hevs as [Hev Hrest].
  etransitivity; [by apply keepsHistory_step | by apply IH].
Qed.

Lemma messages_append_only_witness :
  messages (chat initialStore)
  `prefix_of` messages (chat (run initialStore Samples.overlappingDrains)).
Proof.
  apply (messages_append_only initialStore Samples.overlappingDrains).
  reflexivity.
Defined.

(** X13: as long as the store is driven by the submit handler, by the
    settling of calls and by timers only, at most one call is in flight
    at any time. *)
Theorem submitOnly_one_call (evs : list Event) :
  forallb submitOnly evs = true ->
  forall n, (length (inFlight (run initialStore (take n evs))) <= 1)%nat.
Proof.
  intros Hevs n.
  assert (Hquiet : forall l st,
            forallb submitOnly l = true -> quiet st -> quiet (run st l)).
  { induction l as [|ev l IH]; intros st Hl Hst; simpl; [exact Hst|].
    simpl in Hl. apply andb_prop in Hl as [Hev Hrest].
    apply IH; [exact Hrest|]. by apply quiet_step. }
  assert (Htake : forallb submitOnly (take n evs) = true).
  { revert n. induction evs as [|ev evs IH]; intros [|n]; simpl;
      try reflexivity.
    simpl in Hevs. apply andb_prop in Hevs as [Hev Hrest].
    rewrite Hev. simpl. by apply IH. }
  destruct (Hquiet (take n evs) initialStore Htake) as (_ & _ & Hcases).
  { unfold quiet; simpl; tauto. }
  destruct Hcases as [(-> & _) | (-> & _)]; simpl; lia.
Qed.

Lemma submitOnly_one_call_witness :
  (length (inFlight (run initialStore
     (take 2 [HandleSend "a" "id1" "t1"; HandleSend "b" "id2" "t2";
              SendSettles 0 (Returned "answer") "id3" "t3"]))) <= 1)%nat.
Proof.
  apply (submitOnly_one_call
           [HandleSend "a" "id1" "t1"; HandleSend "b" "id2" "t2";
            SendSettles 0 (Returned "answer") "id3" "t3"]).
  reflexivity.
Defined.

Lemma drainRest_run (answers : list Answer) :
  forall st call,
    inFlight st = [call] ->
    timers st = O ->
    S (length (messageQueue (chat st))) = length answers ->
    let st' := run st (drainRest answers) in
    messageQueue (chat st') = [] /\
    inFlight st' = [] /\
    timers st' = O /\
    isProcessingQueue (chat st') = false /\
    messages (chat st') = messages (chat st) ++ responseMessages answers /\
    settledCalls st (drainRest answers)
    = sentMessage call :: messageQueue (chat st).
Proof.
  induction answers as [|[[r newId] now] rest IH]; intros st call Hfl Ht Hlen;
    [discriminate|].
  destruct st as [c fl t p].
  destruct c as [ms ld er ci ty sid q pq cs rc]; simpl in Hfl, Ht, Hlen.
  subst fl t.
  destruct rest as [|a2 rest'].
  - destruct q as [|m2 q']; [|discriminate]. clear IH.
    destruct r as [v | e]; simpl; rewrite ?List.app_nil_r; repeat split.
  - destruct q as [|m2 q']; [discriminate|].
    change (drainRest ((r, newId, now) :: a2 :: rest'))
      with (SendSettles 0 r newId now :: TimerFires :: drainRest (a2 :: rest')).
    remember (a2 :: rest') as rest2 eqn:Hrest2.
    assert (Hlen2 : S (length q') = length rest2) by (simpl in Hlen; lia).
    clear Hrest2 Hlen.
    destruct r as [v | e]; simpl.
    + match goal with
      | |- context [run ?st3 (drainRest rest2)] =>
          destruct (IH st3 (mkPendingSend m2
                      (conversationHistory
                         (ms ++ [IMessage.mk newId v assistant now None])))
                      eq_refl eq_refl Hlen2)
            as (H1 & H2 & H3 & H4 & H5 & H6)
      end.
      simpl in *. rewrite H6, H5, <- List.app_assoc. repeat split; assumption.
    + match goal with
      | |- context [run ?st3 (drainRest rest2)] =>
          destruct (IH st3 (mkPendingSend m2 (conversationHistory ms))
                      eq_refl eq_refl Hlen2)
            as (H1 & H2 & H3 & H4 & H5 & H6)
      end.
      simpl in *. rewrite H6, H5. repeat split; assumption.
Qed.

(** X14: a drain that is left alone empties the queue in order.  From a
    store with nothing in flight and no timer pending, one invocation of
    [processMessageQueue] followed, for each queued message, by the
    arrival of its answer and the timer of the next invocation, makes
    the calls one at a time in the order of the queue, appends the
    responses of the calls that succeeded in that order, and ends with
    an empty queue, nothing in flight, no timer and [isProcessingQueue]
    cleared; a call that fails does not stop the ones after it. *)
Theorem drain_in_order (st : Store) (answers : list Answer) :
  inFlight st = [] ->
  timers st = O ->
  length (messageQueue (chat st)) = length answers ->
  let st' := run st (drainEvents answers) in
  settledCalls st (drainEvents answers) = messageQueue (chat st) /\
  messages (chat st') = messages (chat st) ++ responseMessages answers /\
  messageQueue (chat st') = [] /\
  inFlight st' = [] /\
  timers st' = O /\
  isProcessingQueue (chat st') = false.
Proof.
  intros Hfl Ht Hlen.
  destruct st as [c fl t p].
  destruct c as [ms ld er ci ty sid q pq cs rc]; simpl in Hfl, Ht, Hlen.
  subst fl t. unfold drainEvents.
  destruct q as [|m q'].
  - destruct answers; [|discriminate]. simpl.
    rewrite List.app_nil_r. repeat split.
  - simpl.
    match goal with
    | |- context [run ?st1 (drainRest answers)] =>
        destruct (drainRest_run answers st1
                    (mkPendingSend m (conversationHistory ms))
                    eq_refl eq_refl Hlen)
          as (H1 & H2 & H3 & H4 & H5 & H6)
    end.
    rewrite H6. repeat split; assumption.
Qed.

Lemma drain_in_order_witness :
  let st' := run Samples.threeQueued (drainEvents Samples.threeAnswers) in
  settledCalls Samples.threeQueued (drainEvents Samples.threeAnswers)
  = ["a"; "b"; "c"] /\
  messages (chat st')
  = [IMessage.mk "r1" "one" assistant "t1" None;
     IMessage.mk "r3" "three" assistant "t3" None] /\
  messageQueue (chat st') = [] /\
  inFlight st' = [].
Proof.
  intros st'.
  destruct (drain_in_order Samples.threeQueued Samples.threeAnswers
              eq_refl eq_refl eq_refl) as (H1 & H2 & H3 & H4 & _).
  split; [exact H1|]. split; [exact H2|]. split; [exact H3 | exact H4].
Defined.

(** ** The persistence helper and its callers *)

Lemma sliceLast_map {A B} (f : A -> B) (n : nat) (l : list A) :
  sliceLast n (map f l) = map f (sliceLast n l).
Proof.
  unfold sliceLast. rewrite length_map. apply List.skipn_map.
Qed.

Lemma validMessages_typed (msgs : list IMessage.t) :
  validMessages (map messageToJson msgs) = forallb complete msgs.
Proof.
  induction msgs as [|m msgs IH]; simpl; [reflexivity|].
  rewrite <- IH. unfold validMessage, complete. simpl.
  destruct (IMessage.sender m); simpl;
    destruct (String.eqb (IMessage.id m) "");
    destruct (String.eqb (IMessage.text m) "");
    destruct (String.eqb (IMessage.timestamp m) ""); simpl; congruence.
Qed.

Section TransferProperties.
Variable JSON_stringify : json -> string.
Variable JSON_stringify_indented : json -> string.
Variable JSON_parse : string -> option json.
Variable toISOString : Z -> string.
Variable newDate : option json -> Outcome (option Z).

(** The typed [saveMessages] is [saveRaw] on the objects the messages
    are at run time. *)
Lemma saveMessages_saveRaw (now : Z) (msgs : list IMessage.t)
    (sid : option string) (ls : LocalStorage) :
  saveMessages JSON_stringify toISOString now msgs sid ls
  = saveRaw JSON_stringify toISOString now (map messageToJson msgs)
      (JStr <$> sid) ls.
Proof.
  unfold saveMessages, saveRaw, dataToStore, dataToJson, rawDataToJson.
  simpl. rewrite sliceLast_map. by destruct sid.
Qed.

Lemma importMessages_of_snapshot (now : Z) (jsonData : string)
    (d : StoredChatData) (ls : LocalStorage) :
  JSON_parse jsonData = Some (dataToJson d) ->
  importMessages JSON_stringify JSON_parse toISOString now jsonData ls
  = if forallb complete (stored_messages d)
    then (true,
          saveMessages JSON_stringify toISOString now (stored_messages d)
            (stored_sessionId d) ls)
    else (false, ls).
Proof.
  intros Hparse. unfold importMessages, importMessages_try.
  rewrite Hparse. simpl. rewrite validMessages_typed.
  destruct (forallb complete (stored_messages d)); [|reflexivity].
  rewrite saveMessages_saveRaw. by destruct (stored_sessionId d).
Qed.
End TransferProperties.

(** X15: importing the text of a snapshot succeeds exactly when every
    message of the snapshot has a non-empty id, text and timestamp; it
    then saves those messages and the session id again, stamped with the
    time of the import.  A snapshot with a message whose text is empty
    is refused, and the storage is left as it is. *)
Theorem importMessages_snapshot (JSON_stringify : json -> string)
    (JSON_parse : string -> option json) (toISOString : Z -> string)
    (now : Z) (jsonData : string) (d : StoredChatData) (ls : LocalStorage) :
  JSON_parse jsonData = Some (dataToJson d) ->
  importMessages JSON_stringify JSON_parse toISOString now jsonData ls
  = if forallb complete (stored_messages d)
    then (true,
          saveMessages JSON_stringify toISOString now (stored_messages d)
            (stored_sessionId d) ls)
    else (false, ls).
Proof. apply importMessages_of_snapshot. Qed.

Lemma importMessages_snapshot_witness :
  let blank := IMessage.mk "id9" "" assistant "2026-01-01T00:00:00.000Z" None in
  let d := mkStoredChatData [Samples.sampleMessage 0; blank] "2026-01-01T00:00:00.000Z" None in
  Samples.importText Samples.savedAt
    (ReferenceHost.JSON_stringify (dataToJson d)) Samples.emptyStorage
  = (false, Samples.emptyStorage).
Proof.
  intros blank d.
  apply (importMessages_snapshot ReferenceHost.JSON_stringify
           ReferenceHost.JSON_parse ReferenceHost.toISOString Samples.savedAt
           (ReferenceHost.JSON_stringify (dataToJson d)) d Samples.emptyStorage).
  vm_compute. reflexivity.
Defined.

(** The values JSON can hold that JavaScript takes for false: a missing
    property, [null], [false], [0] and the empty string. *)
Lemma truthy_false (v : option json) :
  truthy v = false
  <-> In v [None; Some JNull; Some (JBool false); Some (JNum 0); Some (JStr "")].
Proof.
  split.
  - destruct v as [[ | b | n | s | items | fields]|]; simpl; intros H;
      try discriminate; auto.
    + subst b. auto.
    + apply negb_false_iff, Z.eqb_eq in H. subst n. auto 6.
    + apply negb_false_iff, String.eqb_eq in H. subst s. auto 6.
  - simpl. intros [<- | [<- | [<- | [<- | [<- | []]]]]]; reflexivity.
Qed.

Lemma validMessage_passes (entry : json) :
  validMessage entry = Some true
  <-> entry <> JNull /\
      forall field, In field ["id"; "text"; "sender"; "timestamp"] ->
        truthy (mjoin (getField field entry)) = true.
Proof.
  unfold validMessage. split.
  - destruct (getField "id" entry) as [idField|] eqn:Hid; [|discriminate].
    intros [= H]. apply andb_prop in H as [H Ht].
    apply andb_prop in H as [H Hs]. apply andb_prop in H as [Hi Hx].
    split; [intros ->; discriminate Hid|].
    intros field [<- | [<- | [<- | [<- | []]]]];
      [by rewrite Hid | assumption | assumption | assumption].
  - intros [Hnull Hall].
    destruct (getField "id" entry) as [idField|] eqn:Hid;
      [|by destruct entry].
    rewrite <- Hid.
    rewrite (Hall "id"), (Hall "text"), (Hall "sender"), (Hall "timestamp");
      simpl; auto 6.
Qed.

Lemma validMessages_Forall (msgs : list json) :
  validMessages msgs = true
  <-> Forall (fun entry => validMessage entry = Some true) msgs.
Proof.
  induction msgs as [|entry msgs IH]; simpl.
  - split; [constructor | reflexivity].
  - destruct (validMessage entry) as [[|]|] eqn:Hv.
    + rewrite IH. split; [by constructor|]. by inversion 1.
    + split; [discriminate|]. inversion 1; congruence.
    + split; [discriminate|]. inversion 1; congruence.
Qed.

(** X16: [importMessages] refuses, with the storage untouched, a text
    that does not parse, a value without a [messages] array, and an
    array with an entry that is [null] or whose [id], [text], [sender] or
    [timestamp] is missing, [null], [false], [0] or the empty string.  An
    array that has no such entry is accepted and saved, with the session
    id of the value.  Whenever the answer is [false] the storage is
    untouched. *)
Theorem importMessages_refusals (JSON_stringify : json -> string)
    (JSON_parse : string -> option json) (toISOString : Z -> string)
    (now : Z) (jsonData : string) (ls : LocalStorage) :
  let import :=
    importMessages JSON_stringify JSON_parse toISOString now jsonData ls in
  let required := ["id"; "text"; "sender"; "timestamp"] in
  let falsy :=
    [None; Some JNull; Some (JBool false); Some (JNum 0); Some (JStr "")] in
  (JSON_parse jsonData = None -> import = (false, ls)) /\
  (forall data,
     JSON_parse jsonData = Some data ->
     (forall msgs, getField "messages" data <> Some (Some (JArr msgs))) ->
     import = (false, ls)) /\
  (forall data msgs entry,
     JSON_parse jsonData = Some data ->
     getField "messages" data = Some (Some (JArr msgs)) ->
     In entry msgs ->
     (entry = JNull \/
      exists field,
        In field required /\ In (mjoin (getField field entry)) falsy) ->
     import = (false, ls)) /\
  (forall data msgs,
     JSON_parse jsonData = Some data ->
     getField "messages" data = Some (Some (JArr msgs)) ->
     Forall (fun entry =>
               entry <> JNull /\
               forall field, In field required ->
                 ~ In (mjoin (getField field entry)) falsy) msgs ->
     import
     = (true,
        saveRaw JSON_stringify toISOString now msgs
          (mjoin (getField "sessionId" data)) ls)) /\
  (import.1 = false -> import.2 = ls).
Proof.
  intros import required falsy. subst import.
  unfold importMessages, importMessages_try.
  split; [intros ->; reflexivity|].
  split.
  { intros data -> Hnone.
    destruct (getField "messages" data) as [[[| | | |msgs|]|]|];
      try reflexivity.
    by destruct (Hnone msgs). }
  split.
  { intros data msgs entry -> -> Hin Hbad.
    destruct (validMessages msgs) eqn:Hvalid; [|reflexivity].
    exfalso. apply validMessages_Forall in Hvalid.
    rewrite List.Forall_forall in Hvalid. specialize (Hvalid entry Hin).
    apply validMessage_passes in Hvalid as [Hnull Hall].
    destruct Hbad as [-> | (field & Hfield & Hfalsy)]; [by apply Hnull|].
    apply truthy_false in Hfalsy. rewrite (Hall field Hfield) in Hfalsy.
    discriminate Hfalsy. }
  split.
  { intros data msgs -> -> Hgood.
    assert (Hvalid : validMessages msgs = true).
    { apply validMessages_Forall. eapply Forall_impl; [exact Hgood|].
      intros entry [Hnull Hall]. apply validMessage_passes.
      split; [exact Hnull|]. intros field Hfield.
      destruct (truthy (mjoin (getField field entry))) eqn:Ht; [reflexivity|].
      apply truthy_false in Ht. by destruct (Hall field Hfield). }
    by rewrite Hvalid. }
  destruct (JSON_parse jsonData) as [data|]; [|reflexivity].
  destruct (getField "messages" data) as [[[| | | |msgs|]|]|];
    try reflexivity.
  destruct (validMessages msgs); [discriminate | reflexivity].
Qed.

Lemma importMessages_refusals_witness :
  let text := ReferenceHost.JSON_stringify in
  let noSender :=
    JObj [("id", JStr "id1"); ("text", JStr "hello");
          ("timestamp", JStr "2026-01-01T00:00:00.000Z")] in
  Samples.importText Samples.savedAt "{not json" Samples.emptyStorage
  = (false, Samples.emptyStorage) /\
  Samples.importText Samples.savedAt (text (JObj [("messages", JNum 5)]))
    Samples.emptyStorage
  = (false, Samples.emptyStorage) /\
  Samples.importText Samples.savedAt (text (JObj [("messages", JArr [JNull])]))
    Samples.emptyStorage
  = (false, Samples.emptyStorage) /\
  Samples.importText Samples.savedAt
    (text (JObj [("messages", JArr [noSender])])) Samples.emptyStorage
  = (false, Samples.emptyStorage).
Proof.
  intros text noSender. split; [|split; [|split]].
  - destruct (importMessages_refusals ReferenceHost.JSON_stringify
                ReferenceHost.JSON_parse ReferenceHost.toISOString
                Samples.savedAt "{not json" Samples.emptyStorage) as (H & _).
    apply H. vm_compute. reflexivity.
  - destruct (importMessages_refusals ReferenceHost.JSON_stringify
                ReferenceHost.JSON_parse ReferenceHost.toISOString
                Samples.savedAt (text (JObj [("messages", JNum 5)]))
                Samples.emptyStorage)
      as (_ & H & _).
    apply (H (JObj [("messages", JNum 5)])); [vm_compute; reflexivity|].
    intros msgs. discriminate.
  - destruct (importMessages_refusals ReferenceHost.JSON_stringify
                ReferenceHost.JSON_parse ReferenceHost.toISOString
                Samples.savedAt (text (JObj [("messages", JArr [JNull])]))
                Samples.emptyStorage)
      as (_ & _ & H & _).
    apply (H (JObj [("messages", JArr [JNull])]) [JNull] JNull);
      [vm_compute; reflexivity | reflexivity | by left | by left].
  - destruct (importMessages_refusals ReferenceHost.JSON_stringify
                ReferenceHost.JSON_parse ReferenceHost.toISOString
                Samples.savedAt (text (JObj [("messages", JArr [noSender])]))
                Samples.emptyStorage)
      as (_ & _ & H & _).
    apply (H (JObj [("messages", JArr [noSender])]) [noSender] noSender);
      [vm_compute; reflexivity | reflexivity | by left |].
    right. exists "sender". split; [simpl; auto | by left].
Defined.

(** X17: [importMessages] answers [true] for a valid snapshot even when
    the storage refuses the write: [saveMessages] swallows the failure,
    so nothing has been imported and the storage is as before. *)
Theorem importMessages_refused_write (JSON_stringify : json -> string)
    (JSON_parse : string -> option json) (toISOString : Z -> string)
    (now : Z) (jsonData : string) (d : StoredChatData) (ls : LocalStorage) :
  JSON_parse jsonData = Some (dataToJson d) ->
  forallb complete (stored_messages d) = true ->
  setItem STORAGE_KEY
    (JSON_stringify
       (dataToJson
          (dataToStore toISOString now (stored_messages d)
             (stored_sessionId d))))
    ls = None ->
  importMessages JSON_stringify JSON_parse toISOString now jsonData ls
  = (true, ls).
Proof.
  intros Hparse Hcomplete Hset.
  rewrite (importMessages_of_snapshot JSON_stringify JSON_parse toISOString
             now jsonData d ls Hparse).
  rewrite Hcomplete. unfold saveMessages. by rewrite Hset.
Qed.

Lemma importMessages_refused_write_witness :
  let d := mkStoredChatData (Samples.sampleMessages 2) "2026-01-01T00:00:00.000Z" None in
  let full := mkLocalStorage ∅ 10 in
  Samples.importText Samples.savedAt
    (ReferenceHost.JSON_stringify (dataToJson d)) full
  = (true, full).
Proof.
  intros d full.
  apply (importMessages_refused_write ReferenceHost.JSON_stringify
           ReferenceHost.JSON_parse ReferenceHost.toISOString Samples.savedAt
           (ReferenceHost.JSON_stringify (dataToJson d)) d full).
  - vm_compute. reflexivity.
  - vm_compute. reflexivity.
  - vm_compute. reflexivity.
Defined.

(** X18: with a snapshot in the storage that the host parses, whose date
    the host reads as the time [t], [exportMessages] returns the indented
    text of the snapshot and leaves the storage alone when [t] is not
    earlier than the instant the host's calendar gives for seven days
    before the export, and returns nothing and removes the entry when
    [t] is earlier.  If the host parses the indented text back, importing
    what was exported saves the snapshot's messages and session id again
    (when every message is complete; otherwise it is refused). *)
Theorem exportMessages_then_import (JSON_stringify : json -> string)
    (JSON_stringify_indented : json -> string)
    (JSON_parse : string -> option json) (toISOString : Z -> string)
    (newDate : option json -> Outcome (option Z))
    (sevenDaysBefore : Z -> Z) (later t : Z)
    (text : string) (d : StoredChatData) (ls : LocalStorage) :
  let exported := JSON_stringify_indented (dataToJson d) in
  getItem STORAGE_KEY ls = Some text ->
  text <> "" ->
  JSON_parse text = Some (dataToJson d) ->
  newDate (Some (JStr (lastUpdated d))) = Returned (Some t) ->
  JSON_parse exported = Some (dataToJson d) ->
  (sevenDaysBefore later <= t ->
   exportMessages JSON_stringify_indented JSON_parse newDate sevenDaysBefore
     later ls
   = (Some exported, ls)) /\
  (t < sevenDaysBefore later ->
   exportMessages JSON_stringify_indented JSON_parse newDate sevenDaysBefore
     later ls
   = (None, removeItem STORAGE_KEY ls)) /\
  (forall now ls2,
     importMessages JSON_stringify JSON_parse toISOString now exported ls2
     = if forallb complete (stored_messages d)
       then (true,
             saveMessages JSON_stringify toISOString now (stored_messages d)
               (stored_sessionId d) ls2)
       else (false, ls2)).
Proof.
  intros exported Hget Hne Hparse Hdate Hback.
  pose proof (loadMessages_try_stored JSON_parse newDate sevenDaysBefore later ls text d
                Hget Hne Hparse) as Htry.
  rewrite Hdate in Htry. simpl in Htry.
  unfold exportMessages, loadMessages. rewrite Htry.
  split; [|split].
  - intros Hfresh.
    destruct (t <? sevenDaysBefore later) eqn:Hlt; [|reflexivity].
    apply Z.ltb_lt in Hlt. lia.
  - intros Hstale.
    destruct (t <? sevenDaysBefore later) eqn:Hlt; [reflexivity|].
    apply Z.ltb_ge in Hlt. lia.
  - intros now ls2. by apply importMessages_of_snapshot.
Qed.

Lemma exportMessages_then_import_witness :
  let msgs := Samples.sampleMessages 2 in
  let sid := Some "session_1767225600000" in
  let ls := Samples.save Samples.savedAt msgs sid Samples.emptyStorage in
  let d := mkStoredChatData msgs "2026-01-01T00:00:00.000Z" sid in
  let exported := ReferenceHost.JSON_stringify_indented (dataToJson d) in
  Samples.exportText (Samples.savedAt + 60000) ls = (Some exported, ls) /\
  Samples.importText (Samples.savedAt + 120000) exported Samples.emptyStorage
  = (true, Samples.save (Samples.savedAt + 120000) msgs sid Samples.emptyStorage).
Proof.
  intros msgs sid ls d exported.
  destruct (exportMessages_then_import ReferenceHost.JSON_stringify
              ReferenceHost.JSON_stringify_indented ReferenceHost.JSON_parse
              ReferenceHost.toISOString ReferenceHost.newDate ReferenceHost.sevenDaysBefore
              (Samples.savedAt + 60000) Samples.savedAt
              (ReferenceHost.JSON_stringify (dataToJson d)) d ls)
    as (Hexport & _ & Himport).
  - vm_compute. reflexivity.
  - vm_compute. discriminate.
  - vm_compute. reflexivity.
  - vm_compute. reflexivity.
  - vm_compute. reflexivity.
  - split; [apply Hexport; vm_compute; discriminate|].
    exact (Himport (Samples.savedAt + 120000) Samples.emptyStorage).
Defined.

(** X19: a load settles the storage: loading again at the same time
    gives the same answer and changes nothing more, and once a load has
    answered nothing, every later load answers nothing too, until
    something is saved. *)
Theorem loadMessages_settles (JSON_parse : string -> option json)
    (newDate : option json -> Outcome (option Z))
    (sevenDaysBefore : Z -> Z) (now : Z)
    (ls : LocalStorage) :
  let r := (loadMessages JSON_parse newDate sevenDaysBefore now ls).1 in
  let ls1 := (loadMessages JSON_parse newDate sevenDaysBefore now ls).2 in
  loadMessages JSON_parse newDate sevenDaysBefore now ls1 = (r, ls1) /\
  (r = None ->
   forall later, loadMessages JSON_parse newDate sevenDaysBefore later ls1 = (None, ls1)).
Proof.
  assert (Hcleared : forall t,
            loadMessages JSON_parse newDate sevenDaysBefore t (removeItem STORAGE_KEY ls)
            = (None, removeItem STORAGE_KEY ls)).
  { intros t. unfold loadMessages, loadMessages_try.
    by rewrite getItem_removeItem. }
  assert (Hsame : forall t stored,
            getItem STORAGE_KEY ls = Some stored ->
            String.eqb stored "" = true ->
            loadMessages JSON_parse newDate sevenDaysBefore t ls = (None, ls)).
  { intros t stored Hget Hempty. unfold loadMessages, loadMessages_try.
    by rewrite Hget, Hempty. }
  assert (Habsent : forall t,
            getItem STORAGE_KEY ls = None ->
            loadMessages JSON_parse newDate sevenDaysBefore t ls = (None, ls)).
  { intros t Hget. unfold loadMessages, loadMessages_try. by rewrite Hget. }
  destruct (loadMessages JSON_parse newDate sevenDaysBefore now ls) as [r ls1] eqn:Hload.
  simpl. pose proof Hload as Hagain.
  unfold loadMessages, loadMessages_try in Hload.
  destruct (getItem STORAGE_KEY ls) as [stored|] eqn:Hget.
  2:{ injection Hload as <- <-. split; [|intros _ later]; by apply Habsent. }
  destruct (String.eqb stored "") eqn:Hempty.
  { injection Hload as <- <-.
    split; [|intros _ later]; by apply (Hsame _ stored). }
  destruct (JSON_parse stored) as [data|];
    [|injection Hload as <- <-; split; [apply Hcleared | intros _; apply Hcleared]].
  destruct (getField "lastUpdated" data) as [field|];
    [|injection Hload as <- <-; split; [apply Hcleared | intros _; apply Hcleared]].
  destruct (newDate field) as [lastUpdatedMs | e];
    [|injection Hload as <- <-; split; [apply Hcleared | intros _; apply Hcleared]].
  destruct (olderThan lastUpdatedMs (sevenDaysBefore now));
    injection Hload as <- <-.
  - split; [apply Hcleared | intros _; apply Hcleared].
  - split; [exact Hagain | discriminate].
Qed.

Lemma loadMessages_settles_witness :
  let ls :=
    Samples.save Samples.savedAt (Samples.sampleMessages 2) None
      Samples.emptyStorage in
  let stale := Samples.savedAt + SEVEN_DAYS_MS + 1 in
  (Samples.load stale ls).1 = None /\
  Samples.load (Samples.savedAt + 1) (Samples.load stale ls).2
  = (None, (Samples.load stale ls).2).
Proof.
  intros ls stale.
  destruct (loadMessages_settles ReferenceHost.JSON_parse ReferenceHost.newDate ReferenceHost.sevenDaysBefore
              stale ls) as (_ & Hnull).
  assert (Hr : (Samples.load stale ls).1 = None) by (vm_compute; reflexivity).
  split; [exact Hr|]. exact (Hnull Hr (Samples.savedAt + 1)).
Defined.

(** X20: [isStorageAvailable] answers [true] exactly when the storage
    accepts the probe entry; it never touches an entry under another key
    (the chat snapshot in particular), but when it answers [true] an
    entry that was already there under the probe key is gone. *)
Theorem isStorageAvailable_effect (ls : LocalStorage) :
  let available := (isStorageAvailable ls).1 in
  let ls' := (isStorageAvailable ls).2 in
  (available = true <-> is_Some (setItem STORAGE_TEST STORAGE_TEST ls)) /\
  (forall key, key <> STORAGE_TEST -> getItem key ls' = getItem key ls) /\
  getItem STORAGE_KEY ls' = getItem STORAGE_KEY ls /\
  (available = true -> getItem STORAGE_TEST ls' = None) /\
  (available = false -> ls' = ls) /\
  quota ls' = quota ls.
Proof.
  assert (Hkeys : forall key, key <> STORAGE_TEST ->
            getItem key (isStorageAvailable ls).2 = getItem key ls).
  { intros key Hkey. unfold isStorageAvailable, setItem.
    destruct (_ <=? _)%N; [|reflexivity].
    unfold getItem, removeItem. simpl.
    rewrite lookup_delete_ne by congruence.
    by rewrite lookup_insert_ne by congruence. }
  split; [|split; [exact Hkeys | split; [by apply Hkeys|]]].
  - unfold isStorageAvailable.
    destruct (setItem STORAGE_TEST STORAGE_TEST ls) as [ls1|]; simpl.
    + split; [eauto | reflexivity].
    + split; [discriminate | intros [x Hx]; discriminate].
  - unfold isStorageAvailable, setItem.
    destruct (_ <=? _)%N; simpl.
    + split; [intros _; apply lookup_delete_eq|].
      split; [discriminate | reflexivity].
    + split; [discriminate|]. split; reflexivity.
Qed.

Lemma isStorageAvailable_effect_witness :
  let ls :=
    mkLocalStorage {[ STORAGE_TEST := "kept by someone"; STORAGE_KEY := "{}" ]}
      1000 in
  (isStorageAvailable ls).1 = true /\
  getItem STORAGE_TEST (isStorageAvailable ls).2 = None /\
  getItem STORAGE_KEY (isStorageAvailable ls).2 = Some "{}".
Proof.
  intros ls.
  destruct (isStorageAvailable_effect ls) as (Hiff & _ & Hsnapshot & Hgone & _).
  assert (Hok : (isStorageAvailable ls).1 = true).
  { apply Hiff. vm_compute. eexists. reflexivity. }
  split; [exact Hok|]. split; [exact (Hgone Hok)|].
  rewrite Hsnapshot. vm_compute. reflexivity.
Defined.

(** X21: the persistence effect writes nothing when there are no
    messages, so clearing the chat leaves the stored snapshot where it
    is; and a save it does make keeps every entry under another key. *)
Theorem persistEffect_empty (JSON_stringify : json -> string)
    (toISOString : Z -> string) (now : Z) (c : ChatState)
    (ls : LocalStorage) :
  (messages c = [] -> persistEffect JSON_stringify toISOString now c ls = ls) /\
  persistEffect JSON_stringify toISOString now (clearMessages c) ls = ls /\
  (forall key,
     key <> STORAGE_TEST -> key <> STORAGE_KEY ->
     getItem key (persistEffect JSON_stringify toISOString now c ls)
     = getItem key ls).
Proof.
  split; [|split].
  - intros Hempty. unfold persistEffect. by rewrite Hempty.
  - reflexivity.
  - intros key Htest Hkey. unfold persistEffect.
    destruct (messages c) as [|m ms]; [reflexivity|].
    pose proof (isStorageAvailable_effect ls) as (_ & Hkeys & _).
    specialize (Hkeys key Htest).
    destruct (isStorageAvailable ls) as [[|] ls1]; simpl in Hkeys;
      [|exact Hkeys].
    rewrite <- Hkeys. unfold saveMessages, setItem.
    destruct (_ <=? _)%N; [|reflexivity].
    unfold getItem. simpl. by rewrite lookup_insert_ne by congruence.
Qed.

Lemma persistEffect_empty_witness :
  let ls :=
    Samples.persist Samples.savedAt Samples.chatting Samples.emptyStorage in
  is_Some (getItem STORAGE_KEY ls) /\
  Samples.persist (Samples.savedAt + 1000) (clearMessages Samples.chatting) ls
  = ls.
Proof.
  intros ls. split; [vm_compute; eexists; reflexivity|].
  destruct (persistEffect_empty ReferenceHost.JSON_stringify
              ReferenceHost.toISOString (Samples.savedAt + 1000)
              (clearMessages Samples.chatting) ls) as (Hempty & _).
  apply Hempty. reflexivity.
Defined.

(** ** The repository analyzer *)

(** Induction on a directory structure, with the property in hand for
    every subdirectory. *)
Lemma DirectoryStructure_induction (P : RepoAnalyzer.DirectoryStructure -> Prop) :
  (forall dirName dirPath files subdirectories,
     Forall P subdirectories ->
     P (RepoAnalyzer.Dir dirName dirPath files subdirectories)) ->
  forall structure, P structure.
Proof.
  intros Hdir. fix IH 1. intros [dirName dirPath files subdirectories].
  apply Hdir.
  induction subdirectories as [|subdir rest IHrest]; constructor;
    [apply IH | exact IHrest].
Qed.

(** X22: the key files of a structure are its files whose name contains
    one of the patterns, in the order of the traversal: the files of a
    directory, then its subdirectories one after the other. *)
Theorem findKeyFiles_filter (patterns : list string)
    (structure : RepoAnalyzer.DirectoryStructure) :
  RepoAnalyzer.findKeyFiles patterns structure
  = List.filter (RepoAnalyzer.matchesSome patterns)
      (RepoAnalyzer.allFiles structure).
Proof.
  induction structure as [dirName dirPath files subdirectories IH]
    using DirectoryStructure_induction.
  simpl. rewrite List.filter_app. f_equal.
  induction IH as [|subdir rest Hsubdir Hrest IHrest]; simpl;
    [reflexivity|].
  rewrite List.filter_app, Hsubdir, IHrest. reflexivity.
Qed.

(** X26: every file [getRelevantFiles] answers with is one of the key
    files it was given, and it answers with no file only when none of
    the key files is one of the three core files it falls back to. *)
Theorem getRelevantFiles_subset (queryLower : string)
    (keyFiles : list RepoAnalyzer.FileInfo) :
  Forall (fun f => In f keyFiles)
    (RepoAnalyzer.getRelevantFiles queryLower keyFiles) /\
  (RepoAnalyzer.getRelevantFiles queryLower keyFiles = [] ->
   List.filter
     (RepoAnalyzer.matchesSome ["App.tsx"; "grokService.ts"; "chatSlice.ts"])
     keyFiles = []).
Proof.
  unfold RepoAnalyzer.getRelevantFiles.
  match goal with
  | |- context [match ?l with [] => _ | _ :: _ => _ end] =>
      assert (Hsub : Forall (fun f => In f keyFiles) l)
  end.
  { repeat (apply Forall_app; split);
      repeat match goal with
      | |- context [if ?b then _ else _] => destruct b
      end;
      try (apply List.Forall_forall; intros f Hin;
           by apply List.filter_In in Hin as [Hin _]);
      constructor. }
  destruct (_ ++ _) as [|f l]; [|split; [exact Hsub | discriminate]].
  split; [|tauto].
  apply List.Forall_forall. intros f Hin.
  by apply List.filter_In in Hin as [Hin _].
Qed.

Lemma getRelevantFiles_subset_witness :
  RepoAnalyzer.getRelevantFiles "what is bitcoin"
    [RepoAnalyzer.file "/README.md" "README.md" "md"] = [] /\
  List.filter
    (RepoAnalyzer.matchesSome ["App.tsx"; "grokService.ts"; "chatSlice.ts"])
    [RepoAnalyzer.file "/README.md" "README.md" "md"] = [].
Proof.
  destruct (getRelevantFiles_subset "what is bitcoin"
              [RepoAnalyzer.file "/README.md" "README.md" "md"]) as (_ & H).
  assert (Hempty :
    RepoAnalyzer.getRelevantFiles "what is bitcoin"
      [RepoAnalyzer.file "/README.md" "README.md" "md"] = [])
    by (vm_compute; reflexivity).
  split; [exact Hempty | exact (H Hempty)].
Defined.

(** The key files of the structure written in the source. *)
Example identifyKeyFiles_project :
  map RepoAnalyzer.name
    (RepoAnalyzer.identifyKeyFiles RepoAnalyzer.getProjectStructure)
  = [ "package.json"; "tsconfig.json"; "App.tsx"; "index.tsx";
      "grokService.ts"; "chatSlice.ts"; "store.ts"; "chat.ts" ].
Proof. vm_compute. reflexivity. Qed.

Lemma add_In (x y : string) (l : list string) :
  In y (RepoAnalyzer.add x l) <-> y = x \/ In y l.
Proof.
  unfold RepoAnalyzer.add.
  destruct (existsb (String.eqb x) l) eqn:Hex.
  - apply List.existsb_exists in Hex as (z & Hz & Heq).
    apply String.eqb_eq in Heq. subst z.
    split; [tauto|]. intros [-> | H]; assumption.
  - rewrite List.in_app_iff. simpl. intuition.
Qed.

Lemma add_NoDup (x : string) (l : list string) :
  List.NoDup l -> List.NoDup (RepoAnalyzer.add x l).
Proof.
  intros Hl. unfold RepoAnalyzer.add.
  destruct (existsb (String.eqb x) l) eqn:Hex; [exact Hl|].
  assert (Hnotin : ~ In x l).
  { intros Hin. apply Bool.not_true_iff_false in Hex. apply Hex.
    apply List.existsb_exists. exists x. split; [exact Hin|].
    apply String.eqb_refl. }
  clear Hex. induction Hl as [|y l Hy Hl IH]; simpl.
  - constructor; [intros []| constructor].
  - constructor.
    + rewrite List.in_app_iff. simpl. intros [H | [H | []]];
        [contradiction | subst; apply Hnotin; by left].
    + apply IH. intros H. apply Hnotin. by right.
Qed.

Lemma knownOnly_add (x : string) (l : list string) :
  In x RepoAnalyzer.knownTechnologies ->
  knownOnly l -> knownOnly (RepoAnalyzer.add x l).
Proof.
  intros Hx [Hnodup Hknown]. split; [by apply add_NoDup|].
  intros y Hy. apply add_In in Hy as [-> | Hy]; auto.
Qed.

Lemma knownOnly_scanFile (l : list string) (f : RepoAnalyzer.FileInfo) :
  knownOnly l -> knownOnly (RepoAnalyzer.scanFile l f).
Proof.
  intros Hl. unfold RepoAnalyzer.scanFile.
  repeat match goal with
  | |- context [if ?b then _ else _] => destruct b
  end; try exact Hl; apply knownOnly_add; try exact Hl; simpl; tauto.
Qed.

Lemma knownOnly_scanForTechnologies
    (structure : RepoAnalyzer.DirectoryStructure) :
  forall l, knownOnly l ->
            knownOnly (RepoAnalyzer.scanForTechnologies structure l).
Proof.
  induction structure as [dirName dirPath files subdirectories IH]
    using DirectoryStructure_induction.
  intros l Hl. simpl.
  assert (Hfiles : knownOnly (fold_left RepoAnalyzer.scanFile files l)).
  { revert l Hl. induction files as [|f files IHf]; intros l Hl; simpl;
      [exact Hl|].
    apply IHf. by apply knownOnly_scanFile. }
  revert Hfiles. generalize (fold_left RepoAnalyzer.scanFile files l).
  induction IH as [|subdir rest Hsubdir Hrest IHrest]; intros acc Hacc; simpl;
    [exact Hacc|].
  apply IHrest. by apply Hsubdir.
Qed.

Lemma knownOnly_scanDependencies (deps l : list string) :
  knownOnly l -> knownOnly (RepoAnalyzer.scanDependencies deps l).
Proof.
  intros Hl. unfold RepoAnalyzer.scanDependencies.
  repeat match goal with
  | |- context [if ?b then _ else _] => destruct b
  end;
  repeat (apply knownOnly_add; [simpl; tauto|]); exact Hl.
Qed.

Lemma fold_add_In (xs l : list string) (y : string) :
  In y (fold_left (fun acc x => RepoAnalyzer.add x acc) xs l)
  <-> In y xs \/ In y l.
Proof.
  revert l. induction xs as [|x xs IH]; intros l; simpl; [tauto|].
  rewrite IH, add_In. intuition.
Qed.

Lemma fold_add_NoDup (xs l : list string) :
  List.NoDup l ->
  List.NoDup (fold_left (fun acc x => RepoAnalyzer.add x acc) xs l).
Proof.
  revert l. induction xs as [|x xs IH]; intros l Hl; simpl; [exact Hl|].
  apply IH. by apply add_NoDup.
Qed.

(** X23: whatever the dependencies and the structure are,
    [detectTechnologies] answers with the six known technologies, each
    once; only their order depends on the input. *)
Theorem detectTechnologies_known (dependencies : option (list string))
    (structure : option RepoAnalyzer.DirectoryStructure) :
  Permutation (RepoAnalyzer.detectTechnologies dependencies structure)
    RepoAnalyzer.knownTechnologies.
Proof.
  unfold RepoAnalyzer.detectTechnologies.
  set (t1 := match dependencies with Some _ => _ | None => _ end).
  set (t2 := match structure with Some _ => _ | None => _ end).
  assert (H1 : knownOnly t1).
  { assert (Hnil : knownOnly []) by (split; [constructor | intros x []]).
    subst t1. destruct dependencies as [deps|]; [|exact Hnil].
    by apply knownOnly_scanDependencies. }
  assert (H2 : knownOnly t2).
  { subst t2. destruct structure as [s|];
      [by apply knownOnly_scanForTechnologies | exact H1]. }
  destruct H2 as [Hnodup Hknown].
  apply Stdlib.Sorting.Permutation.NoDup_Permutation.
  - by apply fold_add_NoDup.
  - unfold RepoAnalyzer.knownTechnologies.
    repeat constructor; simpl; intuition discriminate.
  - intros x. rewrite fold_add_In. split; [intros [H | H]; auto | tauto].
Qed.

(** The first technologies are the ones the input brings up. *)
Example detectTechnologies_order :
  RepoAnalyzer.detectTechnologies (Some ["tailwindcss"; "typescript"]) None
  = [ "TypeScript"; "Tailwind CSS"; "React"; "Redux Toolkit"; "Grok AI API";
      "Blockchain/Cryptocurrency Chat Interface" ].
Proof. vm_compute. reflexivity. Qed.

(** X24: a context that [getCodebaseContext] has analysed is answered
    from the cache for the next five minutes without another analysis;
    with nothing cached, after five minutes, or after [clearCache], the
    analysis runs again and its result is cached under the time at which
    it finished; and when that analysis fails, the fallback context is
    answered and is not cached: the cache stays as it was, an expired
    entry included. *)
Theorem getCodebaseContext_cache {C W : Type}
    (analyzeCodebase : W -> Outcome C * W) (getFallbackContext : C)
    (now later : Z) (cache : RepoAnalyzer.Cache) (w : W) :
  let get := RepoAnalyzer.getCodebaseContext analyzeCodebase getFallbackContext in
  (forall context stamp,
     cache = RepoAnalyzer.mkCache (Some context) stamp ->
     now - stamp < RepoAnalyzer.CACHE_DURATION ->
     get now later cache w = (context, cache, w)) /\
  (forall context w1,
     analyzeCodebase w = (Returned context, w1) ->
     (RepoAnalyzer.cachedContext cache = None
      \/ RepoAnalyzer.CACHE_DURATION <= now - RepoAnalyzer.cacheTimestamp cache) ->
     get now later cache w
     = (context, RepoAnalyzer.mkCache (Some context) later, w1) /\
     get now later (RepoAnalyzer.clearCache cache) w
     = (context, RepoAnalyzer.mkCache (Some context) later, w1)) /\
  (forall e w1,
     analyzeCodebase w = (Thrown e, w1) ->
     (RepoAnalyzer.cachedContext cache = None
      \/ RepoAnalyzer.CACHE_DURATION <= now - RepoAnalyzer.cacheTimestamp cache) ->
     get now later cache w = (getFallbackContext, cache, w1) /\
     get now later (RepoAnalyzer.clearCache cache) w
     = (getFallbackContext, RepoAnalyzer.mkCache None 0, w1)).
Proof.
  intros get. subst get. unfold RepoAnalyzer.getCodebaseContext.
  split; [|split].
  - intros context stamp -> Hfresh. simpl.
    destruct (now - stamp <? RepoAnalyzer.CACHE_DURATION) eqn:Hlt;
      [reflexivity|].
    apply Z.ltb_ge in Hlt. lia.
  - intros context w1 Hrun Hmiss. simpl. rewrite Hrun.
    split; [|reflexivity].
    destruct (RepoAnalyzer.cachedContext cache) as [old|]; [|reflexivity].
    destruct Hmiss as [Hnone | Hold]; [discriminate|].
    destruct (_ <? _) eqn:Hlt; [|reflexivity].
    apply Z.ltb_lt in Hlt. lia.
  - intros e w1 Hrun Hmiss. simpl. rewrite Hrun.
    split; [|reflexivity].
    destruct (RepoAnalyzer.cachedContext cache) as [old|]; [|reflexivity].
    destruct Hmiss as [Hnone | Hold]; [discriminate|].
    destruct (_ <? _) eqn:Hlt; [|reflexivity].
    apply Z.ltb_lt in Hlt. lia.
Qed.

Lemma getCodebaseContext_cache_witness :
  let analyze := fun n : nat => (Returned ("analysis " +:+ pretty n), S n) in
  let failing := fun n : nat => (@Thrown string (plainError "no package.json"), S n) in
  let get := RepoAnalyzer.getCodebaseContext analyze "fallback" in
  let expired := RepoAnalyzer.mkCache (Some "analysis 0") 1200 in
  get 1000 1200 RepoAnalyzer.emptyCache O
  = ("analysis 0", RepoAnalyzer.mkCache (Some "analysis 0") 1200, 1%nat) /\
  get 301199 301300 expired 1%nat = ("analysis 0", expired, 1%nat) /\
  RepoAnalyzer.getCodebaseContext failing "fallback" 301200 301300 expired 1%nat
  = ("fallback", expired, 2%nat).
Proof.
  intros analyze failing get expired. split; [|split].
  - destruct (getCodebaseContext_cache analyze "fallback" 1000 1200
                RepoAnalyzer.emptyCache O) as (_ & Hmiss & _).
    destruct (Hmiss "analysis 0" 1%nat eq_refl) as (H & _);
      [left; reflexivity | exact H].
  - destruct (getCodebaseContext_cache analyze "fallback" 301199 301300
                expired 1%nat)
      as (Hhit & _).
    apply (Hhit "analysis 0" 1200); [reflexivity|].
    unfold RepoAnalyzer.CACHE_DURATION. lia.
  - destruct (getCodebaseContext_cache failing "fallback" 301200 301300
                expired 1%nat) as (_ & _ & Hfail).
    destruct (Hfail (plainError "no package.json") 2%nat eq_refl) as (H & _);
      [right; unfold RepoAnalyzer.CACHE_DURATION; simpl; lia | exact H].
Defined.

(** ** The cost of a permanent failure *)

Lemma totalWait_from (fuel : nat) :
  forall first maxRetries (tr : list RetryEvent),
    0 <= first <= maxRetries ->
    Z.to_nat (maxRetries - first) = fuel ->
    map stepOf tr = backoffScheduleFrom first maxRetries ->
    totalWait tr = (2 ^ maxRetries - 2 ^ first) * 1000.
Proof.
  induction fuel as [|fuel IH]; intros first maxRetries tr Hrange Hfuel Hsched.
  - assert (first = maxRetries) by lia. subst first.
    rewrite backoffScheduleFrom_last in Hsched.
    destruct tr as [|[k thrown | ms] [|ev tr']]; try discriminate.
    simpl. lia.
  - rewrite backoffScheduleFrom_step in Hsched by lia.
    destruct tr as [|[k thrown | ms] [|[k' thrown' | ms'] tr']];
      try discriminate.
    simpl in Hsched. injection Hsched as _ Hms Hrest. subst ms'.
    simpl. rewrite (IH (first + 1) maxRetries tr') by (lia || assumption).
    rewrite Z.pow_add_r by lia. lia.
Qed.

(** X25: a permanent failure costs, besides the [maxRetries + 1]
    attempts themselves, [(2^maxRetries - 1) * 1000] ms of waiting in
    all: seven seconds with the default budget of three. *)
Theorem retryWithBackoff_total_wait {W T : Type} (fn : W -> Outcome T * W)
    (maxRetries : Z) (w : W) :
  0 <= maxRetries ->
  (forall w0, exists e, (fn w0).1 = Thrown e) ->
  exists e w' tr,
    retryWithBackoff fn maxRetries w = Some (Thrown e, w', tr) /\
    totalWait tr = (2 ^ maxRetries - 1) * 1000.
Proof.
  intros Hpos Hfail.
  destruct (retryLoop_exhausts fn Hfail maxRetries
              (Z.to_nat (maxRetries + 1) + 1) 0 Undefined w)
    as (e & w' & tr & Hrun & Hsched & _); [lia | lia |].
  exists e, w', tr. split; [exact Hrun|].
  rewrite (totalWait_from (Z.to_nat maxRetries) 0 maxRetries tr);
    [simpl; lia | lia | lia | exact Hsched].
Qed.

Lemma retryWithBackoff_total_wait_witness :
  exists e w' tr,
    retryWithBackoff Samples.failing 3 O = Some (Thrown e, w', tr) /\
    totalWait tr = (2 ^ 3 - 1) * 1000.
Proof.
  apply (retryWithBackoff_total_wait Samples.failing 3 O); [lia|].
  intros w0. eexists. reflexivity.
Defined.

(** X27: switching the mock responses off with [updateConfig] on a
    service that was created without a key leaves the placeholder key in
    place: every [sendMessage] then throws the not-configured error at
    once, without any exchange and without any retry, and [healthCheck]
    answers [false]. *)
Theorem sendMessage_not_configured {W : Type} (parseInt : string -> Z)
    (fetch : GrokServiceConfig -> GrokRequest -> W -> FetchResult * W)
    (getSystemPrompt getMockResponse trim enhance : string -> string)
    (missingField : Exn) (env : Env) (message : string)
    (history : list GrokMessage) (w : W) :
  unset (REACT_APP_GROK_API_KEY env) = true
  \/ REACT_APP_GROK_API_KEY env = Some "REMOVED" ->
  let cfg := updateConfig goLive (createGrokService parseInt env) in
  sendMessage fetch getSystemPrompt getMockResponse trim enhance missingField
    cfg message history w = Some (Thrown notConfigured, w, []) /\
  healthCheck fetch getSystemPrompt getMockResponse trim enhance missingField
    cfg w = Some (false, w, []).
Proof.
  intros Hkey cfg.
  assert (Hmock : useMockResponses cfg = false) by reflexivity.
  assert (Hapi : apiKey cfg = "REMOVED").
  { subst cfg. simpl. destruct Hkey as [Hunset | ->]; [|reflexivity].
    destruct (REACT_APP_GROK_API_KEY env) as [key|]; simpl in *;
      [by rewrite Hunset | reflexivity]. }
  unfold healthCheck, sendMessage. rewrite Hmock, Hapi. simpl.
  split; reflexivity.
Qed.

Lemma sendMessage_not_configured_witness :
  let cfg :=
    updateConfig goLive
      (createGrokService Samples.parseDecimal Samples.envWithoutKey) in
  sendMessage Samples.fetch200 Samples.systemPrompt Samples.mockResponse
    (fun s => s) (fun s => s) Samples.typeError cfg "hello" [] tt
  = Some (Thrown notConfigured, tt, []).
Proof.
  intros cfg.
  destruct (sendMessage_not_configured Samples.parseDecimal Samples.fetch200
              Samples.systemPrompt Samples.mockResponse (fun s => s)
              (fun s => s) Samples.typeError Samples.envWithoutKey "hello" []
              tt) as (H & _); [left; reflexivity | exact H].
Defined.
